(** * The CKN example daemon ([components/examples/daemon.py])

    A shallow embedding of the daemon: the broker reachability probe, the
    event loader, the timestamp/[flattened_scores] transformer and the
    publisher, run against an explicit description of the outside world
    (broker, file system, clock, environment variables, limits of the
    interpreter), together with the parts of the Python standard library the
    script calls ([json], [logging], [datetime.isoformat]). *)

From Stdlib Require Import List String Ascii ZArith NArith Bool Lia.
Import ListNotations.

(** ** Python strings

    A Python [str] is a sequence of Unicode code points. *)

Definition pystr := list N.

Definition py (s : string) : pystr := map N_of_ascii (list_ascii_of_string s).

#[global] Opaque py.

Fixpoint pystr_eqb (a b : pystr) : bool :=
  match a, b with
  | [], [] => true
  | x :: a', y :: b' => N.eqb x y && pystr_eqb a' b'
  | _, _ => false
  end.

(** [format(n, '0{w}d')] for a number that fits in [w] digits. *)
Fixpoint dec_fixed (w : nat) (n : N) : pystr :=
  match w with
  | O => []
  | S w' => dec_fixed w' (n / 10) ++ [(48 + n mod 10)%N]
  end.

Definition hex_digit (d : N) : N :=
  if (d <? 10)%N then (48 + d)%N else (87 + d)%N.

(** [format(n, '04x')] and the like. *)
Fixpoint hex_fixed (w : nat) (n : N) : pystr :=
  match w with
  | O => []
  | S w' => hex_fixed w' (n / 16) ++ [hex_digit (n mod 16)]
  end.

(** [str(z)] for a Python [int]. *)
Fixpoint pos_decimal (fuel : nat) (n : N) (acc : pystr) : pystr :=
  match fuel with
  | O => acc
  | S f =>
      let acc' := ((48 + n mod 10)%N :: acc) in
      if (n / 10 =? 0)%N then acc' else pos_decimal f (n / 10)%N acc'
  end.

Definition int_str (z : Z) : pystr :=
  let n := Z.to_N (Z.abs z) in
  let digits := pos_decimal (S (N.to_nat (N.log2 n))) n [] in
  if (z <? 0)%Z then 45%N :: digits else digits.

(** ** JSON values as Python objects

    What [json.load] builds: [None], [bool], [int], [float], [str], [list]
    and [dict].  A [dict] keeps its keys in insertion order, so it is an
    association list whose keys are kept distinct by [dict_set].  A [float]
    is held by the text that denotes it; its rendering is the interface
    [FloatText] below. *)

#[local] Unset Elimination Schemes.

Inductive json : Type :=
  | JNull
  | JBool (b : bool)
  | JInt (z : Z)
  | JFloat (lit : pystr)
  | JStr (s : pystr)
  | JList (l : list json)
  | JDict (d : list (pystr * json)).

#[local] Set Elimination Schemes.

Definition dict := list (pystr * json).

(** [d.get(k)] / [k in d]. *)
Fixpoint dict_get (k : pystr) (d : dict) : option json :=
  match d with
  | [] => None
  | (k', v) :: d' => if pystr_eqb k k' then Some v else dict_get k d'
  end.

(** [d[k] = v]: an existing key keeps its position, a new key goes last. *)
Fixpoint dict_set (k : pystr) (v : json) (d : dict) : dict :=
  match d with
  | [] => [(k, v)]
  | (k', v') :: d' =>
      if pystr_eqb k k' then (k', v) :: d' else (k', v') :: dict_set k v d'
  end.

Definition dict_keys (d : dict) : list pystr := map fst d.

(** [isinstance(v, list)] and [isinstance(v, dict)]. *)
Definition is_list (v : json) : bool :=
  match v with JList _ => true | _ => false end.

Definition is_dict (v : json) : bool :=
  match v with JDict _ => true | _ => false end.

(** [json]'s rendering of a float, [float.__repr__] with [NaN], [Infinity]
    and [-Infinity] for the non-finite ones, as a function of the text the
    float was read from. *)
Class FloatText := float_text : pystr -> pystr.

(** ** [json.dumps] with its default options

    [ensure_ascii=True], separators [", "] and [": "].  [json_dumps v] is
    the text the call returns.  The call raises instead when [v] holds an
    integer of more digits than the interpreter converts, or arrays and
    objects nested deeper than it can enter: see [within] below.  The script
    gives it what [json.load] returned, with three strings more in it:
    integers that were converted from text under the same digit limit, and
    no nesting deeper than the scanner entered.  Both calls are made from
    the body of the module, where the stack is less deep than in
    [read_event_from_file], and are taken to return. *)

Definition escape_char (c : N) : pystr :=
  if (c =? 34)%N then [92%N; 34%N]
  else if (c =? 92)%N then py "\\"
  else if (c =? 10)%N then py "\n"
  else if (c =? 13)%N then py "\r"
  else if (c =? 9)%N then py "\t"
  else if (c =? 8)%N then py "\b"
  else if (c =? 12)%N then py "\f"
  else if ((32 <=? c) && (c <=? 126))%N then [c]
  else if (c <? 65536)%N then py "\u" ++ hex_fixed 4 c
  else
    let v := (c - 65536)%N in
    let s1 := N.lor 55296 (N.land (N.shiftr v 10) 1023) in
    let s2 := N.lor 56320 (N.land v 1023) in
    py "\u" ++ hex_fixed 4 s1 ++ py "\u" ++ hex_fixed 4 s2.

Definition encode_str (s : pystr) : pystr :=
  34%N :: flat_map escape_char s ++ [34%N].

Section Dumps.
Context `{FloatText}.

Fixpoint json_dumps (v : json) : pystr :=
  match v with
  | JNull => py "null"
  | JBool true => py "true"
  | JBool false => py "false"
  | JInt z => int_str z
  | JFloat lit => float_text lit
  | JStr s => encode_str s
  | JList l =>
      py "[" ++
      (fix items (l : list json) : pystr :=
         match l with
         | [] => []
         | [x] => json_dumps x
         | x :: r => json_dumps x ++ py ", " ++ items r
         end) l ++ py "]"
  | JDict d =>
      py "{" ++
      (fix members (d : list (pystr * json)) : pystr :=
         match d with
         | [] => []
         | [(k, x)] => encode_str k ++ py ": " ++ json_dumps x
         | (k, x) :: r =>
             encode_str k ++ py ": " ++ json_dumps x ++ py ", " ++ members r
         end) d ++ py "}"
  end.
End Dumps.

(** ** The limits of the interpreter

    Two limits of the interpreter stop [json.loads] and [json.dumps] short
    of a result.  An integer of more digits than
    [sys.get_int_max_str_digits()] is converted neither from text nor to
    text: [ValueError].  The arrays and objects entered one inside another
    are counted against the recursion limit: [RecursionError].  Neither
    exception is a [JSONDecodeError]. *)

Record limits := {
  (** [sys.get_int_max_str_digits()]: 4300 unless it was set otherwise, 0
      when integers of any length are converted, as in a release without
      the limit *)
  max_str_digits : N;
  (** the number of arrays and objects, one inside another, that the call
      can enter before the recursion limit is reached; it depends on the
      recursion limit and on how deep the stack is at the call *)
  max_nesting : nat
}.

(** An integer of [n] digits (its sign is not counted) is over the limit.
    The interpreter looks at the limit only above 640 digits, and takes no
    limit in between 0 and 640. *)
Definition over_digit_limit (lim : limits) (n : N) : bool :=
  ((640 <? n) && (0 <? max_str_digits lim) && (max_str_digits lim <? n))%N.

(** The number of digits of [z]. *)
Definition int_digits (z : Z) : N := N.of_nat (List.length (int_str (Z.abs z))).

(** The arrays and objects of [v] that are one inside another. *)
Fixpoint nesting (v : json) : nat :=
  match v with
  | JList l =>
      S ((fix items (l : list json) : nat :=
            match l with
            | [] => 0
            | x :: r => Nat.max (nesting x) (items r)
            end) l)
  | JDict d =>
      S ((fix members (d : list (pystr * json)) : nat :=
            match d with
            | [] => 0
            | (_, x) :: r => Nat.max (nesting x) (members r)
            end) d)
  | _ => 0
  end.

(** No integer of [v] is over the digit limit. *)
Fixpoint digits_fit (lim : limits) (v : json) : bool :=
  match v with
  | JInt z => negb (over_digit_limit lim (int_digits z))
  | JList l =>
      (fix items (l : list json) : bool :=
         match l with
         | [] => true
         | x :: r => digits_fit lim x && items r
         end) l
  | JDict d =>
      (fix members (d : list (pystr * json)) : bool :=
         match d with
         | [] => true
         | (_, x) :: r => digits_fit lim x && members r
         end) d
  | _ => true
  end.

(** [v] is within the limits: [json.dumps] writes it, and the scanner reads
    a text of it. *)
Definition within (lim : limits) (v : json) : bool :=
  digits_fit lim v && (nesting v <=? max_nesting lim)%nat.

(** [v] fits where [depth] arrays and objects can still be entered. *)
Definition fits (lim : limits) (depth : nat) (v : json) : Prop :=
  digits_fit lim v = true /\ nesting v <= depth.

(** ** [json.loads] with its default options

    The scanner of the standard library: whitespace is space, tab, line feed
    and carriage return; [NaN], [Infinity] and [-Infinity] are accepted;
    control characters are refused inside strings; nothing but whitespace
    may follow the value.  The scanner stops at the first thing in its way,
    from left to right: a text that is not JSON, an integer over the digit
    limit (met when its last digit has been read), or an array or object
    that cannot be entered (met at its opening bracket). *)

(** What the scanner enters at an opening bracket. *)
Inductive container := Array | Object.

Inductive scan_error :=
  | Malformed                  (* [JSONDecodeError] *)
  | TooManyDigits (n : N)      (* [ValueError], at an integer of [n] digits *)
  | TooDeep (k : container).   (* [RecursionError], at an array or object *)

Inductive scanned (A : Type) :=
  | Scanned (a : A)
  | Stopped (e : scan_error).

Arguments Scanned {A} a.
Arguments Stopped {A} e.

Definition or_malformed {A} (o : option A) : scanned A :=
  match o with
  | Some a => Scanned a
  | None => Stopped Malformed
  end.

Definition is_ws (c : N) : bool :=
  ((c =? 32) || (c =? 9) || (c =? 10) || (c =? 13))%N.

Fixpoint skip_ws (s : pystr) : pystr :=
  match s with
  | c :: r => if is_ws c then skip_ws r else s
  | [] => []
  end.

Fixpoint strip_prefix (p s : pystr) : option pystr :=
  match p, s with
  | [], _ => Some s
  | a :: p', b :: s' => if (a =? b)%N then strip_prefix p' s' else None
  | _ :: _, [] => None
  end.

Definition is_digit (c : N) : bool := ((48 <=? c) && (c <=? 57))%N.

Definition hex_value (c : N) : option N :=
  if is_digit c then Some (c - 48)%N
  else if ((97 <=? c) && (c <=? 102))%N then Some (c - 87)%N
  else if ((65 <=? c) && (c <=? 70))%N then Some (c - 55)%N
  else None.

Definition hex4 (a b c d : N) : option N :=
  match hex_value a, hex_value b, hex_value c, hex_value d with
  | Some x, Some y, Some z, Some w => Some (((x * 16 + y) * 16 + z) * 16 + w)%N
  | _, _, _, _ => None
  end.

Definition is_high_surrogate (c : N) : bool := ((55296 <=? c) && (c <=? 56319))%N.
Definition is_low_surrogate (c : N) : bool := ((56320 <=? c) && (c <=? 57343))%N.

Definition join_surrogates (hi lo : N) : N :=
  (65536 + (N.shiftl (N.land hi 1023) 10 + N.land lo 1023))%N.

(** The character a one-letter escape stands for. *)
Definition unescape (e : N) : option N :=
  if (e =? 34)%N then Some 34%N          (* quote *)
  else if (e =? 92)%N then Some 92%N     (* backslash *)
  else if (e =? 47)%N then Some 47%N     (* slash *)
  else if (e =? 98)%N then Some 8%N      (* b: backspace *)
  else if (e =? 102)%N then Some 12%N    (* f: form feed *)
  else if (e =? 110)%N then Some 10%N    (* n: line feed *)
  else if (e =? 114)%N then Some 13%N    (* r: carriage return *)
  else if (e =? 116)%N then Some 9%N     (* t: tab *)
  else None.

(** The text after an opening quote, up to the closing one; [acc] is the
    decoded prefix, last character first. *)
Fixpoint scanstring (s : pystr) (acc : pystr) : option (pystr * pystr) :=
  match s with
  | [] => None
  | c :: r =>
      if (c =? 34)%N then Some (rev acc, r)
      else if (c =? 92)%N then
        match r with
        | [] => None
        | e :: r1 =>
            if (e =? 117)%N then
              match r1 with
              | a :: b :: c' :: d :: r2 =>
                  match hex4 a b c' d with
                  | None => None
                  | Some u =>
                      if is_high_surrogate u then
                        match r2 with
                        | b1 :: b2 :: a2 :: b3 :: c2 :: d2 :: r3 =>
                            if ((b1 =? 92) && (b2 =? 117))%N then
                              match hex4 a2 b3 c2 d2 with
                              | None => None
                              | Some u2 =>
                                  if is_low_surrogate u2
                                  then scanstring r3 (join_surrogates u u2 :: acc)
                                  else scanstring r2 (u :: acc)
                              end
                            else scanstring r2 (u :: acc)
                        | _ => scanstring r2 (u :: acc)
                        end
                      else scanstring r2 (u :: acc)
                  end
              | _ => None
              end
            else
              match unescape e with
              | Some x => scanstring r1 (x :: acc)
              | None => None
              end
        end
      else if (c <? 32)%N then None
      else scanstring r (c :: acc)
  end.

Fixpoint take_digits (s : pystr) : pystr * pystr :=
  match s with
  | c :: r =>
      if is_digit c then let (ds, r') := take_digits r in (c :: ds, r')
      else ([], s)
  | [] => ([], [])
  end.

Definition digits_value (ds : pystr) : Z :=
  fold_left (fun acc c => (acc * 10 + Z.of_N (c - 48))%Z) ds 0%Z.

(** The integer part of a number: [0], or a non-zero digit and more digits. *)
Definition scan_int_part (s : pystr) : option (pystr * pystr) :=
  match s with
  | c :: r =>
      if (c =? 48)%N then Some ([c], r)
      else if is_digit c then let (ds, r') := take_digits r in Some (c :: ds, r')
      else None
  | [] => None
  end.

(** A fraction: a dot and at least one digit; otherwise nothing is taken. *)
Definition scan_frac (s : pystr) : pystr * pystr :=
  match s with
  | dot :: r =>
      if (dot =? 46)%N then
        match take_digits r with
        | ([], _) => ([], s)
        | (ds, r') => (dot :: ds, r')
        end
      else ([], s)
  | [] => ([], s)
  end.

(** An exponent: [e] or [E], an optional sign and at least one digit;
    otherwise nothing is taken. *)
Definition scan_exp (s : pystr) : pystr * pystr :=
  match s with
  | e :: r =>
      if ((e =? 101) || (e =? 69))%N then
        let (sign, r1) :=
          match r with
          | c :: r' => if ((c =? 45) || (c =? 43))%N then ([c], r') else ([], r)
          | [] => ([], r)
          end in
        match take_digits r1 with
        | ([], _) => ([], s)
        | (ds, r2) => (e :: sign ++ ds, r2)
        end
      else ([], s)
  | [] => ([], s)
  end.

Section Loads.
Variable lim : limits.

(** A number: an integer when it has neither fraction nor exponent, and
    then converted by [int], which has the digit limit; a float
    otherwise. *)
Definition scan_number (s : pystr) : scanned (json * pystr) :=
  let (neg, s1) :=
    match s with
    | c :: r => if (c =? 45)%N then (true, r) else (false, s)
    | [] => (false, s)
    end in
  match scan_int_part s1 with
  | None => Stopped Malformed
  | Some (ip, s2) =>
      let (fp, s3) := scan_frac s2 in
      let (ep, s4) := scan_exp s3 in
      match fp, ep with
      | [], [] =>
          let n := N.of_nat (List.length ip) in
          if over_digit_limit lim n then Stopped (TooManyDigits n)
          else
            let z := digits_value ip in
            Scanned (JInt (if neg then (- z)%Z else z), s4)
      | _, _ =>
          Scanned (JFloat ((if neg then [45%N] else []) ++ ip ++ fp ++ ep), s4)
      end
  end.

Definition scan_literal (lit : pystr) (v : json) (s : pystr) : option (json * pystr) :=
  match strip_prefix lit s with
  | Some r => Some (v, r)
  | None => None
  end.

(** One value at the head of [s] and what follows it.  [scan_items] reads
    the elements of an array after the first, [scan_members] the members of
    an object; both are entered with whitespace already skipped.  [depth]
    is the number of arrays and objects that can still be entered, one
    inside another; an opening bracket met when it is 0 stops the
    scanner, before anything inside is looked at. *)
Fixpoint scan_once (fuel : nat) (depth : nat) (s : pystr)
  : scanned (json * pystr) :=
  match fuel with
  | O => Stopped Malformed
  | S f =>
      match s with
      | [] => Stopped Malformed
      | c :: r =>
          if (c =? 34)%N then
            match scanstring r [] with
            | Some (str, r') => Scanned (JStr str, r')
            | None => Stopped Malformed
            end
          else if (c =? 123)%N then
            match depth with
            | O => Stopped (TooDeep Object)
            | S dp =>
                match skip_ws r with
                | c' :: r' =>
                    if (c' =? 125)%N then Scanned (JDict [], r')
                    else scan_members f dp (c' :: r') []
                | [] => Stopped Malformed
                end
            end
          else if (c =? 91)%N then
            match depth with
            | O => Stopped (TooDeep Array)
            | S dp =>
                match skip_ws r with
                | c' :: r' =>
                    if (c' =? 93)%N then Scanned (JList [], r')
                    else scan_items f dp (c' :: r') []
                | [] => Stopped Malformed
                end
            end
          else if (c =? 110)%N then or_malformed (scan_literal (py "null") JNull s)
          else if (c =? 116)%N then
            or_malformed (scan_literal (py "true") (JBool true) s)
          else if (c =? 102)%N then
            or_malformed (scan_literal (py "false") (JBool false) s)
          else if (c =? 78)%N then
            or_malformed (scan_literal (py "NaN") (JFloat (py "NaN")) s)
          else if (c =? 73)%N then
            or_malformed (scan_literal (py "Infinity") (JFloat (py "Infinity")) s)
          else if (c =? 45)%N then
            match scan_literal (py "-Infinity") (JFloat (py "-Infinity")) s with
            | Some res => Scanned res
            | None => scan_number s
            end
          else scan_number s
      end
  end

with scan_items (fuel : nat) (depth : nat) (s : pystr) (acc : list json)
  : scanned (json * pystr) :=
  match fuel with
  | O => Stopped Malformed
  | S f =>
      match scan_once f depth s with
      | Stopped e => Stopped e
      | Scanned (v, r) =>
          match skip_ws r with
          | c :: r' =>
              if (c =? 93)%N then Scanned (JList (rev (v :: acc)), r')
              else if (c =? 44)%N then scan_items f depth (skip_ws r') (v :: acc)
              else Stopped Malformed
          | [] => Stopped Malformed
          end
      end
  end

with scan_members (fuel : nat) (depth : nat) (s : pystr) (acc : dict)
  : scanned (json * pystr) :=
  match fuel with
  | O => Stopped Malformed
  | S f =>
      match s with
      | q :: r =>
          if (q =? 34)%N then
            match scanstring r [] with
            | None => Stopped Malformed
            | Some (k, r1) =>
                match skip_ws r1 with
                | colon :: r2 =>
                    if (colon =? 58)%N then
                      match scan_once f depth (skip_ws r2) with
                      | Stopped e => Stopped e
                      | Scanned (v, r3) =>
                          let acc' := dict_set k v acc in
                          match skip_ws r3 with
                          | c :: r4 =>
                              if (c =? 125)%N then Scanned (JDict acc', r4)
                              else if (c =? 44)%N
                              then scan_members f depth (skip_ws r4) acc'
                              else Stopped Malformed
                          | [] => Stopped Malformed
                          end
                      end
                    else Stopped Malformed
                | [] => Stopped Malformed
                end
            end
          else Stopped Malformed
      | [] => Stopped Malformed
      end
  end.

(** [json.loads(s)].  Every call of the scanner that goes one level down
    comes after at most one call that read nothing, so twice the length of
    the text is fuel enough. *)
Definition json_loads (s : pystr) : scanned json :=
  match scan_once (2 * List.length s + 2) (max_nesting lim) (skip_ws s) with
  | Scanned (v, r) =>
      match skip_ws r with
      | [] => Scanned v
      | _ :: _ => Stopped Malformed
      end
  | Stopped e => Stopped e
  end.
End Loads.

(** ** [datetime] *)

Record datetime := {
  year : N; month : N; day : N;
  hour : N; minute : N; second : N; microsecond : N
}.

(** [dt.isoformat()] of a naive [datetime]: [YYYY-MM-DDTHH:MM:SS], followed
    by [.ffffff] when the microsecond is not zero. *)
Definition isoformat (dt : datetime) : pystr :=
  dec_fixed 4 (year dt) ++ py "-" ++ dec_fixed 2 (month dt) ++ py "-" ++
  dec_fixed 2 (day dt) ++ py "T" ++ dec_fixed 2 (hour dt) ++ py ":" ++
  dec_fixed 2 (minute dt) ++ py ":" ++ dec_fixed 2 (second dt) ++
  (if (microsecond dt =? 0)%N then [] else py "." ++ dec_fixed 6 (microsecond dt)).

(** ** Exceptions

    The exception classes the script meets, with the base class of each in
    Python's hierarchy.  [Exception] is the root of what is modelled: what
    derives from [BaseException] only ([SystemExit] apart, see [sys_exit])
    reaches a program from outside, as [KeyboardInterrupt] does, and is left
    out. *)

Inductive exn_class :=
  | Exception
  | OSError | FileNotFoundError | IsADirectoryError | PermissionError
  | ValueError | UnicodeDecodeError | JSONDecodeError
  | RuntimeError | RecursionError
  | TypeError
  | LookupError | KeyError
  | KafkaException.

Definition exn_class_eqb (a b : exn_class) : bool :=
  match a, b with
  | Exception, Exception | OSError, OSError
  | FileNotFoundError, FileNotFoundError
  | IsADirectoryError, IsADirectoryError
  | PermissionError, PermissionError | ValueError, ValueError
  | UnicodeDecodeError, UnicodeDecodeError
  | JSONDecodeError, JSONDecodeError
  | RuntimeError, RuntimeError | RecursionError, RecursionError
  | TypeError, TypeError
  | LookupError, LookupError | KeyError, KeyError
  | KafkaException, KafkaException => true
  | _, _ => false
  end.

Definition base_class (c : exn_class) : option exn_class :=
  match c with
  | Exception => None
  | OSError | ValueError | RuntimeError | TypeError | LookupError
  | KafkaException => Some Exception
  | FileNotFoundError | IsADirectoryError | PermissionError => Some OSError
  | UnicodeDecodeError | JSONDecodeError => Some ValueError
  | RecursionError => Some RuntimeError
  | KeyError => Some LookupError
  end.

Fixpoint issubclass_fuel (fuel : nat) (c target : exn_class) : bool :=
  exn_class_eqb c target ||
  match fuel with
  | O => false
  | S f =>
      match base_class c with
      | Some b => issubclass_fuel f b target
      | None => false
      end
  end.

(** [issubclass(c, target)]; no class is more than two steps from the root. *)
Definition issubclass (c target : exn_class) : bool := issubclass_fuel 3 c target.

(** An exception object: its class and [str(e)]. *)
Record exn := { exn_cls : exn_class; exn_str : pystr }.

(** The exception [json.loads] raises when the scanner is stopped.  For
    [JSONDecodeError] a short text stands for the message with the place of
    the error; the script does not use it. *)
Definition scan_error_exn (lim : limits) (e : scan_error) : exn :=
  match e with
  | Malformed => {| exn_cls := JSONDecodeError; exn_str := py "invalid JSON" |}
  | TooManyDigits n =>
      {| exn_cls := ValueError;
         exn_str :=
           py "Exceeds the limit (" ++ int_str (Z.of_N (max_str_digits lim)) ++
           py " digits) for integer string conversion: value has " ++
           int_str (Z.of_N n) ++
           py " digits; use sys.set_int_max_str_digits() to increase the limit" |}
  | TooDeep Array =>
      {| exn_cls := RecursionError;
         exn_str :=
           py "maximum recursion depth exceeded while decoding a JSON array from a unicode string" |}
  | TooDeep Object =>
      {| exn_cls := RecursionError;
         exn_str :=
           py "maximum recursion depth exceeded while decoding a JSON object from a unicode string" |}
  end.

(** ** [logging] *)

Inductive level := DEBUG | INFO | WARNING | ERROR.

Definition levelno (l : level) : Z :=
  match l with DEBUG => 10 | INFO => 20 | WARNING => 30 | ERROR => 40 end.

Inductive stream := Stdout | Stderr.

Inductive sink :=
  | ToFile (path : pystr)
  | ToStream (s : stream).

Record handler := { h_sink : sink; h_level : option level; h_format : pystr }.

(** [logging.FileHandler(filename)]; a new handler has level [NOTSET] and no
    formatter, here the default format [%(message)s].  Opening the log file
    is taken to succeed. *)
Definition FileHandler (filename : pystr) : handler :=
  {| h_sink := ToFile filename; h_level := None; h_format := py "%(message)s" |}.

(** [logging.StreamHandler(stream=None)]: without a stream, [sys.stderr] is
    used. *)
Definition StreamHandler (s : option stream) : handler :=
  {| h_sink := ToStream (match s with Some x => x | None => Stderr end);
     h_level := None; h_format := py "%(message)s" |}.

Definition setLevel (l : level) (h : handler) : handler :=
  {| h_sink := h_sink h; h_level := Some l; h_format := h_format h |}.

Definition setFormatter (fmt : pystr) (h : handler) : handler :=
  {| h_sink := h_sink h; h_level := h_level h; h_format := fmt |}.

(** A handler takes a record whose level is not below its own. *)
Definition handles (h : handler) (l : level) : bool :=
  match h_level h with
  | None => true
  | Some hl => (levelno hl <=? levelno l)%Z
  end.

(** ** The outside world and what the program does to it *)

Inductive file_error := IsADirectory | PermissionDenied | UndecodableText.

Definition file_error_exn (path : pystr) (e : file_error) : exn :=
  match e with
  | IsADirectory => {| exn_cls := IsADirectoryError; exn_str := path |}
  | PermissionDenied => {| exn_cls := PermissionError; exn_str := path |}
  | UndecodableText => {| exn_cls := UnicodeDecodeError; exn_str := path |}
  end.

(** What [open(path, 'r')] followed by reading the file finds. *)
Inductive file_state :=
  | Absent
  | Unreadable (e : file_error)
  | Readable (text : pystr).

(** What the broker client does with the one queued message while [flush]
    waits: nothing before the timeout, a delivery, or a failure. *)
Inductive delivery_outcome :=
  | Pending
  | Delivered
  | DeliveryFailed (err : pystr).

Record world := {
  getenv : pystr -> option pystr;
  (** the [k]-th attempt to create an admin client for [servers] and list
      the topics within [timeout]: [None] when it succeeds, the exception
      otherwise *)
  list_topics : pystr -> Z -> nat -> option exn;
  file_at : pystr -> file_state;
  (** the [k]-th reading of the UTC clock *)
  utcnow : nat -> datetime;
  delivery : delivery_outcome;
  (** the limits of the interpreter where the script calls [json.load] *)
  json_limits : limits
}.

Inductive event :=
  | EvListTopics (servers : pystr) (timeout : Z)
  | EvSleep (seconds : Z)
  | EvLog (l : level) (msg : pystr)
  | EvEmit (s : sink) (l : level) (msg : pystr)
  | EvOpen (path : pystr)
  | EvUtcnow
  | EvProduce (servers topic payload : pystr)
  | EvFlush (timeout : Z).

Record state := {
  root_level : level;
  handlers : list handler;
  attempts : nat;
  clock_reads : nat;
  trace : list event
}.

(** A fresh interpreter: the root logger is at [WARNING] without handlers. *)
Definition initial_state : state :=
  {| root_level := WARNING; handlers := []; attempts := 0; clock_reads := 0;
     trace := [] |}.

Definition emit (ev : list event) (st : state) : state :=
  {| root_level := root_level st; handlers := handlers st;
     attempts := attempts st; clock_reads := clock_reads st;
     trace := trace st ++ ev |}.

(** ** Control: results, exceptions and [sys.exit] *)

Inductive outcome (A : Type) :=
  | Ret (a : A)
  | Raise (e : exn)
  | SysExit (code : Z).

Arguments Ret {A} a.
Arguments Raise {A} e.
Arguments SysExit {A} code.

Definition M (A : Type) := state -> outcome A * state.

Definition ret {A} (a : A) : M A := fun st => (Ret a, st).

Definition bind {A B} (c : M A) (k : A -> M B) : M B :=
  fun st =>
    match c st with
    | (Ret a, st') => k a st'
    | (Raise e, st') => (Raise e, st')
    | (SysExit n, st') => (SysExit n, st')
    end.

Notation "x <- c ;; k" := (bind c (fun x => k))
  (at level 61, c at next level, right associativity).
Notation "c ;; k" := (bind c (fun _ => k))
  (at level 61, right associativity).

Definition raise {A} (e : exn) : M A := fun st => (Raise e, st).

(** [sys.exit(code)] raises [SystemExit], which no handler of the script
    catches: it is not an [Exception]. *)
Definition sys_exit {A} (code : Z) : M A := fun st => (SysExit code, st).

Definition tell (ev : list event) : M unit := fun st => (Ret tt, emit ev st).

(** The first [except] clause whose class the exception is an instance of. *)
Fixpoint find_clause {A} (clauses : list (exn_class * (exn -> M A))) (e : exn)
  : option (exn -> M A) :=
  match clauses with
  | [] => None
  | (c, h) :: rest =>
      if issubclass (exn_cls e) c then Some h else find_clause rest e
  end.

(** [try: body  except C1: h1  except C2: h2 ...] *)
Definition try_except {A} (body : M A) (clauses : list (exn_class * (exn -> M A)))
  : M A :=
  fun st =>
    match body st with
    | (Raise e, st') =>
        match find_clause clauses e with
        | Some h => h e st'
        | None => (Raise e, st')
        end
    | r => r
    end.

(** [for i in range(n): body] followed by [after], where the body may
    [return] from the enclosing function ([Some r]) or fall through to the
    next round ([None]); [i] is the index of the first round still to run. *)
Fixpoint for_range {R} (n : nat) (i : nat) (body : nat -> M (option R))
  (after : M R) : M R :=
  match n with
  | O => after
  | S n' =>
      r <- body i ;;
      match r with
      | Some x => ret x
      | None => for_range n' (S i) body after
      end
  end.

(** ** Operations on the interpreter state *)

Definition root_setLevel (l : level) : M unit :=
  fun st =>
    (Ret tt,
     {| root_level := l; handlers := handlers st; attempts := attempts st;
        clock_reads := clock_reads st; trace := trace st |}).

Definition addHandler (h : handler) : M unit :=
  fun st =>
    (Ret tt,
     {| root_level := root_level st; handlers := handlers st ++ [h];
        attempts := attempts st; clock_reads := clock_reads st;
        trace := trace st |}).

(** The events of one logging call on a root logger at level [rl] with
    handlers [hs]: the call itself and, when the root level lets the record
    through, one write per handler that takes it. *)
Definition log_events (rl : level) (hs : list handler) (l : level) (msg : pystr)
  : list event :=
  EvLog l msg ::
  (if (levelno rl <=? levelno l)%Z
   then map (fun h => EvEmit (h_sink h) l msg)
            (filter (fun h => handles h l) hs)
   else []).

(** [logging.BASIC_FORMAT] *)
Definition BASIC_FORMAT : pystr := py "%(levelname)s:%(name)s:%(message)s".

(** [logging.basicConfig()]: does nothing when the root logger has a
    handler, installs a [StreamHandler()] with the basic format otherwise. *)
Definition basicConfig : M unit :=
  fun st =>
    match handlers st with
    | [] => addHandler (setFormatter BASIC_FORMAT (StreamHandler None)) st
    | _ :: _ => (Ret tt, st)
    end.

(** [logging.info(msg)], [logging.error(msg)]: the module-level functions
    call [basicConfig()] when the root logger has no handler. *)
Definition logging_log (l : level) (msg : pystr) : M unit :=
  basicConfig ;;
  fun st =>
    (Ret tt, emit (log_events (root_level st) (handlers st) l msg) st).

Definition time_sleep (seconds : Z) : M unit := tell [EvSleep seconds].

(** [event[k] = v]: only a [dict] takes a string key. *)
Definition setitem (obj : json) (k : pystr) (v : json) : M json :=
  match obj with
  | JDict d => ret (JDict (dict_set k v d))
  | _ => raise {| exn_cls := TypeError; exn_str := py "item assignment" |}
  end.

(** [event[k]] *)
Definition getitem (obj : json) (k : pystr) : M json :=
  match obj with
  | JDict d =>
      match dict_get k d with
      | Some v => ret v
      | None => raise {| exn_cls := KeyError; exn_str := k |}
      end
  | _ => raise {| exn_cls := TypeError; exn_str := py "subscript" |}
  end.

(** [x is None] *)
Definition is_None (v : json) : bool :=
  match v with JNull => true | _ => false end.

(** ** The script *)

Section Daemon.
Variable w : world.
Context `{FloatText}.

(** [os.getenv(name, default)] *)
Definition os_getenv (name default : pystr) : pystr :=
  match getenv w name with
  | Some v => v
  | None => default
  end.

Definition CKN_LOG_FILE : pystr :=
  os_getenv (py "CKN_LOG_FILE") (py "ckn_example.log").
Definition KAFKA_BROKER : pystr :=
  os_getenv (py "CKN_KAFKA_BROKER") (py "broker:29092").
Definition KAFKA_TOPIC : pystr :=
  os_getenv (py "CKN_KAFKA_TOPIC") (py "oracle-events").

Definition setup_logging : M unit :=
  let log_formatter := py "%(asctime)s - %(message)s" in
  root_setLevel DEBUG ;;
  let file_handler :=
    setFormatter log_formatter (setLevel INFO (FileHandler CKN_LOG_FILE)) in
  addHandler file_handler ;;
  let console_handler :=
    setFormatter log_formatter (setLevel INFO (StreamHandler None)) in
  addHandler console_handler.

(** [AdminClient(config).list_topics(timeout=timeout)] *)
Definition admin_list_topics (servers : pystr) (timeout : Z) : M unit :=
  fun st =>
    let st' :=
      {| root_level := root_level st; handlers := handlers st;
         attempts := S (attempts st); clock_reads := clock_reads st;
         trace := trace st ++ [EvListTopics servers timeout] |} in
    match list_topics w servers timeout (attempts st) with
    | None => (Ret tt, st')
    | Some e => (Raise e, st')
    end.

Definition test_ckn_broker_connection (bootstrap_servers : pystr)
  (timeout : Z) (num_tries : Z) : M bool :=
  let config := bootstrap_servers in
  for_range (Z.to_nat num_tries) 0
    (fun _ =>
       try_except
         (admin_list_topics config timeout ;;
          ret (Some true))
         [(Exception, fun e =>
             logging_log INFO
               (py "CKN broker not available yet: " ++ exn_str e ++
                py ". Retrying in 5 seconds...") ;;
             time_sleep 5 ;;
             ret None)])
    (logging_log ERROR (py "Could not connect to the CKN broker...") ;;
     ret false).

(** The defaults of [timeout] and [num_tries]. *)
Definition default_timeout : Z := 10.
Definition default_num_tries : Z := 5.

Definition delivery_report (err : option pystr) (msg_topic : pystr) : M unit :=
  match err with
  | Some e => logging_log ERROR (py "Delivery failed: " ++ e)
  | None =>
      logging_log INFO
        (py "Produced example event to '" ++ msg_topic ++ py "' topic")
  end.

(** [open(file_path, 'r')] and reading the text. *)
Definition open_read (file_path : pystr) : M pystr :=
  tell [EvOpen file_path] ;;
  match file_at w file_path with
  | Absent => raise {| exn_cls := FileNotFoundError; exn_str := file_path |}
  | Unreadable e => raise (file_error_exn file_path e)
  | Readable text => ret text
  end.

(** [json.load(file)] on the text read from the file. *)
Definition json_load (text : pystr) : M json :=
  match json_loads (json_limits w) text with
  | Scanned v => ret v
  | Stopped e => raise (scan_error_exn (json_limits w) e)
  end.

Definition read_event_from_file (file_path : pystr) : M json :=
  try_except
    (text <- open_read file_path ;;
     json_load text)
    [(FileNotFoundError, fun _ =>
        logging_log ERROR (py "Event file not found: " ++ file_path) ;;
        ret JNull);
     (JSONDecodeError, fun _ =>
        logging_log ERROR (py "Invalid JSON in event file: " ++ file_path) ;;
        ret JNull)].

(** [datetime.utcnow()] *)
Definition datetime_utcnow : M datetime :=
  fun st =>
    (Ret (utcnow w (clock_reads st)),
     {| root_level := root_level st; handlers := handlers st;
        attempts := attempts st; clock_reads := S (clock_reads st);
        trace := trace st ++ [EvUtcnow] |}).

(** The producer built from [kafka_conf], and
    [producer.produce(topic, value, callback=delivery_report)]: the
    producer is built and the message queued, both taken to succeed; the
    callback runs inside [flush]. *)
Definition produce (servers topic value : pystr) : M unit :=
  tell [EvProduce servers topic value].

(** [producer.flush(timeout)] with the one message queued for [topic]. *)
Definition flush (topic : pystr) (timeout : Z) : M unit :=
  tell [EvFlush timeout] ;;
  match delivery w with
  | Pending => ret tt
  | Delivered => delivery_report None topic
  | DeliveryFailed err => delivery_report (Some err) topic
  end.

(** Lines 99 to 107: the timestamps and [flattened_scores]. *)
Definition transform (event : json) : M json :=
  now <- datetime_utcnow ;;
  let current_timestamp := isoformat now in
  event <- setitem event (py "image_receiving_timestamp")
             (JStr (current_timestamp ++ py "Z")) ;;
  event <- setitem event (py "image_scoring_timestamp")
             (JStr (current_timestamp ++ py "Z")) ;;
  event <- setitem event (py "image_store_delete_time")
             (JStr (current_timestamp ++ py "Z")) ;;
  scores <- getitem event (py "flattened_scores") ;;
  if is_list scores then
    scores' <- getitem event (py "flattened_scores") ;;
    setitem event (py "flattened_scores") (JStr (json_dumps scores'))
  else ret event.

(** The body under [if __name__ == "__main__"]. *)
Definition main : M unit :=
  setup_logging ;;
  let kafka_conf := KAFKA_BROKER in
  logging_log INFO (py "Connecting to the CKN broker at " ++ KAFKA_BROKER) ;;
  ok <- test_ckn_broker_connection KAFKA_BROKER default_timeout
          default_num_tries ;;
  (if negb ok then
     logging_log ERROR
       (py "Shutting down CKN Daemon due to broker not being available") ;;
     sys_exit 1
   else ret tt) ;;
  logging_log INFO
    (py "Successfully connected to the CKN broker at " ++ KAFKA_BROKER) ;;
  event <- read_event_from_file (py "/app/event.json") ;;
  (if is_None event then
     logging_log ERROR (py "Failed to read event data. Shutting down.") ;;
     sys_exit 1
   else ret tt) ;;
  event <- transform event ;;
  produce kafka_conf KAFKA_TOPIC (json_dumps event) ;;
  flush KAFKA_TOPIC 1.

(** The run of the script from a fresh interpreter. *)
Definition run : outcome unit * state := main initial_state.

(** The exit status of the process: [0] when the script runs to its end,
    the argument of [sys.exit], and [1] after an uncaught exception. *)
Definition exit_code (r : outcome unit) : Z :=
  match r with
  | Ret _ => 0
  | SysExit n => n
  | Raise _ => 1
  end.

(** The payloads handed to the producer, in order. *)
Definition published (tr : list event) : list pystr :=
  flat_map (fun e => match e with EvProduce _ _ p => [p] | _ => [] end) tr.
End Daemon.

(** ** Notions used in the statements *)

(** The handlers in place once a logging call has run: [basicConfig] has
    installed one if there was none. *)
Definition effective_handlers (hs : list handler) : list handler :=
  match hs with
  | [] => [setFormatter BASIC_FORMAT (StreamHandler None)]
  | _ :: _ => hs
  end.

(** The message logged when an attempt of the probe fails with [e]. *)
Definition retry_message (e : exn) : pystr :=
  py "CKN broker not available yet: " ++ exn_str e ++
  py ". Retrying in 5 seconds...".

Section ProbeOutcome.
(** The outcome of each attempt, by its number. *)
Variable f : nat -> option exn.

(** The first attempt that succeeds among [n] attempts from [start]. *)
Fixpoint first_success (start n : nat) : option nat :=
  match n with
  | O => None
  | S n' =>
      match f start with
      | None => Some start
      | Some _ => first_success (S start) n'
      end
  end.

(** The number of attempts made: up to the first success, or all [n]. *)
Definition probe_attempts (start n : nat) : nat :=
  match first_success start n with
  | Some k => S k - start
  | None => n
  end.

(** The attempts that failed before the probe returned. *)
Definition failed_attempts (start n : nat) : nat :=
  match first_success start n with
  | Some k => k - start
  | None => n
  end.

(** Whether the probe makes a logging call. *)
Definition probe_logs (start n : nat) : bool :=
  match n with
  | O => true
  | S _ => match f start with None => false | Some _ => true end
  end.

(** The events of the probe against a logger at level [rl] with handlers
    [hs]. *)
Fixpoint probe_events (servers : pystr) (timeout : Z) (rl : level)
  (hs : list handler) (start n : nat) : list event :=
  match n with
  | O => log_events rl hs ERROR (py "Could not connect to the CKN broker...")
  | S n' =>
      EvListTopics servers timeout ::
      match f start with
      | None => []
      | Some e =>
          log_events rl hs INFO (retry_message e) ++
          EvSleep 5 :: probe_events servers timeout rl hs (S start) n'
      end
  end.
End ProbeOutcome.

(** The seconds slept in a trace. *)
Definition total_sleep (tr : list event) : Z :=
  fold_right (fun e acc => match e with EvSleep s => (s + acc)%Z | _ => acc end)
    0%Z tr.

(** The body and the [else]-less tail of the loop of
    [test_ckn_broker_connection]. *)
Definition probe_body (w : world) (servers : pystr) (timeout : Z)
  : nat -> M (option bool) :=
  fun _ =>
    try_except
      (admin_list_topics w servers timeout ;;
       ret (Some true))
      [(Exception, fun e =>
          logging_log INFO
            (py "CKN broker not available yet: " ++ exn_str e ++
             py ". Retrying in 5 seconds...") ;;
          time_sleep 5 ;;
          ret None)].

Definition probe_after : M bool :=
  logging_log ERROR (py "Could not connect to the CKN broker...") ;;
  ret false.

(** The broker answers one of the attempts the script makes. *)
Definition broker_reachable (w : world) : Prop :=
  exists k, k < Z.to_nat default_num_tries /\
            list_topics w (KAFKA_BROKER w) default_timeout k = None.

(** The world [w] with another fate for the published message. *)
Definition with_delivery (d : delivery_outcome) (w : world) : world :=
  {| getenv := getenv w; list_topics := list_topics w; file_at := file_at w;
     utcnow := utcnow w; delivery := d; json_limits := json_limits w |}.

(** The two handlers [setup_logging] installs. *)
Definition file_handler (w : world) : handler :=
  setFormatter (py "%(asctime)s - %(message)s")
    (setLevel INFO (FileHandler (CKN_LOG_FILE w))).

Definition console_handler : handler :=
  setFormatter (py "%(asctime)s - %(message)s")
    (setLevel INFO (StreamHandler None)).

Definition event_path : pystr := py "/app/event.json".

Definition k_receiving : pystr := py "image_receiving_timestamp".
Definition k_scoring : pystr := py "image_scoring_timestamp".
Definition k_delete : pystr := py "image_store_delete_time".
Definition k_scores : pystr := py "flattened_scores".

(** A key the transformer does not touch. *)
Definition other_key (k : pystr) : bool :=
  negb (pystr_eqb k k_receiving || pystr_eqb k k_scoring ||
        pystr_eqb k k_delete || pystr_eqb k k_scores).

(** The entries of [d] under the keys the transformer does not touch. *)
Definition other_entries (d : dict) : dict :=
  filter (fun kv => other_key (fst kv)) d.

(** The three timestamp fields set to [ts]. *)
Definition stamped (ts : pystr) (d : dict) : dict :=
  dict_set k_delete (JStr ts)
    (dict_set k_scoring (JStr ts)
       (dict_set k_receiving (JStr ts) d)).

Definition main_handlers (w : world) : list handler :=
  [file_handler w; console_handler].

(** The attempts of the script's own probe, and whether one succeeds. *)
Definition main_attempt (w : world) : nat -> option exn :=
  list_topics w (KAFKA_BROKER w) default_timeout.

Definition probe_ok (w : world) : bool :=
  match first_success (main_attempt w) 0 (Z.to_nat default_num_tries) with
  | Some _ => true
  | None => false
  end.

(** The state in which the script leaves the probe. *)
Definition probe_state (w : world) : state :=
  {| root_level := DEBUG;
     handlers := main_handlers w;
     attempts := probe_attempts (main_attempt w) 0 (Z.to_nat default_num_tries);
     clock_reads := 0;
     trace :=
       log_events DEBUG (main_handlers w) INFO
         (py "Connecting to the CKN broker at " ++ KAFKA_BROKER w) ++
       probe_events (main_attempt w) (KAFKA_BROKER w) default_timeout DEBUG
         (main_handlers w) 0 (Z.to_nat default_num_tries) |}.

(** The state after a logging call. *)
Definition after_log (l : level) (msg : pystr) (st : state) : state :=
  {| root_level := root_level st;
     handlers := effective_handlers (handlers st);
     attempts := attempts st;
     clock_reads := clock_reads st;
     trace := trace st ++
              log_events (root_level st) (effective_handlers (handlers st)) l msg |}.

(** The state after a reading of the clock. *)
Definition tick (st : state) : state :=
  {| root_level := root_level st; handlers := handlers st;
     attempts := attempts st; clock_reads := S (clock_reads st);
     trace := trace st ++ [EvUtcnow] |}.

(** The value every timestamp field gets in a run of the script. *)
Definition main_timestamp (w : world) : pystr :=
  isoformat (utcnow w 0) ++ py "Z".

(** The dictionary the transformer makes of [d]. *)
Definition transformed `{FloatText} (ts : pystr) (d : dict) : dict :=
  match dict_get k_scores d with
  | Some v =>
      if is_list v
      then dict_set k_scores (JStr (json_dumps v)) (stamped ts d)
      else stamped ts d
  | None => stamped ts d
  end.

(** The states the script goes through after the probe. *)
Definition st_connected (w : world) : state :=
  after_log INFO
    (py "Successfully connected to the CKN broker at " ++ KAFKA_BROKER w)
    (probe_state w).

Definition st_opened (w : world) : state :=
  emit [EvOpen event_path] (st_connected w).

Definition st_flushed (w : world) (payload : pystr) : state :=
  let st :=
    emit [EvProduce (KAFKA_BROKER w) (KAFKA_TOPIC w) payload; EvFlush 1]
      (tick (st_opened w)) in
  match delivery w with
  | Pending => st
  | Delivered =>
      after_log INFO
        (py "Produced example event to '" ++ KAFKA_TOPIC w ++ py "' topic") st
  | DeliveryFailed err => after_log ERROR (py "Delivery failed: " ++ err) st
  end.

(** No file is opened in [tr]. *)
Definition no_open (tr : list event) : Prop := forall p, ~ In (EvOpen p) tr.

(** The sinks written to in [tr]. *)
Definition sinks_of (tr : list event) : list sink :=
  flat_map (fun e => match e with EvEmit s _ _ => [s] | _ => [] end) tr.

(** The logger of [st] has handlers, and they and the trace so far write
    only to the sinks in [dst]. *)
Definition logs_to (dst : list sink) (st : state) : Prop :=
  handlers st <> [] /\
  incl (map h_sink (handlers st)) dst /\
  incl (sinks_of (trace st)) dst.

(** ** Example worlds *)

Definition refused : exn :=
  {| exn_cls := KafkaException; exn_str := py "Connection refused" |}.

Definition example_now : datetime :=
  {| year := 2024; month := 3; day := 9;
     hour := 7; minute := 5; second := 0; microsecond := 1234 |}.

(** The digit limit of an interpreter that was not told another one, and
    room for 993 arrays and objects, as CPython 3.11 with its recursion limit
    of 1000 leaves the scanner when [read_event_from_file] is called from
    the body of the module. *)
Definition default_limits : limits :=
  {| max_str_digits := 4300; max_nesting := 993 |}.

(** No environment variable is set; the broker refuses the attempts before
    the one numbered [up_from]; [file] is what is found at the path of the
    event file, and nothing is found elsewhere. *)
Definition example_world (up_from : nat) (file : file_state)
  (d : delivery_outcome) : world :=
  {| getenv := fun _ => None;
     list_topics := fun _ _ k => if Nat.ltb k up_from then Some refused else None;
     file_at := fun p => if pystr_eqb p event_path then file else Absent;
     utcnow := fun _ => example_now;
     delivery := d;
     json_limits := default_limits |}.

(** The text of [s] between double quotes. *)
Definition quoted (s : string) : pystr := 34%N :: py s ++ [34%N].

(** An event file with a list of scores, and the dictionary it parses to. *)
Definition example_text : pystr :=
  py "{" ++ quoted "device" ++ py ": " ++ quoted "cam-1" ++ py ", " ++
  quoted "flattened_scores" ++ py ": [1, 2, 3]}".

Definition example_event : dict :=
  [(py "device", JStr (py "cam-1"));
   (py "flattened_scores", JList [JInt 1; JInt 2; JInt 3])].

(** An integer of 4301 digits, and 994 arrays one inside another. *)
Definition long_integer_text : pystr := repeat 49%N 4301.
Definition deep_array_text : pystr := repeat 91%N 994 ++ repeat 93%N 994.

(** A rendering of floats that leaves the text as it was read; the example
    events hold no float. *)
Definition literal_float_text : FloatText := fun lit => lit.

(** Two keys written out in full are different. *)
Ltac key_neq := let E := fresh in intro E; vm_compute in E; discriminate E.

(** ** Further notions used in the statements *)

(** The attempts to list the topics made in [tr]. *)
Definition attempt_count (tr : list event) : nat :=
  List.length (filter (fun e => match e with EvListTopics _ _ => true | _ => false end) tr).

(** The records passed to the logging calls in [tr], in order. *)
Definition log_records (tr : list event) : list (level * pystr) :=
  flat_map (fun e => match e with EvLog l m => [(l, m)] | _ => [] end) tr.

Definition sink_eqb (a b : sink) : bool :=
  match a, b with
  | ToFile p, ToFile q => pystr_eqb p q
  | ToStream Stdout, ToStream Stdout => true
  | ToStream Stderr, ToStream Stderr => true
  | _, _ => false
  end.

(** The records written to the sink [s] in [tr], in order. *)
Definition written_to (s : sink) (tr : list event) : list (level * pystr) :=
  flat_map (fun e => match e with
                     | EvEmit s' l m => if sink_eqb s s' then [(l, m)] else []
                     | _ => []
                     end) tr.

(** The calls of [flush] in [tr]. *)
Definition flushes (tr : list event) : list Z :=
  flat_map (fun e => match e with EvFlush t => [t] | _ => [] end) tr.

(** The events of a logging call of the script once [setup_logging] has
    run. *)
Definition main_log (w : world) (l : level) (msg : pystr) : list event :=
  log_events DEBUG (main_handlers w) l msg.

(** The events of what [flush] does with the message. *)
Definition delivery_events (w : world) : list event :=
  match delivery w with
  | Pending => []
  | Delivered =>
      main_log w INFO
        (py "Produced example event to '" ++ KAFKA_TOPIC w ++ py "' topic")
  | DeliveryFailed err => main_log w ERROR (py "Delivery failed: " ++ err)
  end.

(** The events of a run after the probe. *)
Definition tail_events `{FloatText} (w : world) : list event :=
  if probe_ok w then
    main_log w INFO
      (py "Successfully connected to the CKN broker at " ++ KAFKA_BROKER w) ++
    EvOpen event_path ::
    match file_at w event_path with
    | Absent =>
        main_log w ERROR (py "Event file not found: " ++ event_path) ++
        main_log w ERROR (py "Failed to read event data. Shutting down.")
    | Unreadable _ => []
    | Readable text =>
        match json_loads (json_limits w) text with
        | Stopped Malformed =>
            main_log w ERROR (py "Invalid JSON in event file: " ++ event_path) ++
            main_log w ERROR (py "Failed to read event data. Shutting down.")
        | Stopped _ => []
        | Scanned JNull =>
            main_log w ERROR (py "Failed to read event data. Shutting down.")
        | Scanned (JDict d) =>
            EvUtcnow ::
            match dict_get k_scores d with
            | Some _ =>
                EvProduce (KAFKA_BROKER w) (KAFKA_TOPIC w)
                  (json_dumps (JDict (transformed (main_timestamp w) d))) ::
                EvFlush 1 :: delivery_events w
            | None => []
            end
        | Scanned _ => [EvUtcnow]
        end
    end
  else
    main_log w ERROR
      (py "Shutting down CKN Daemon due to broker not being available").

(** The log file and the standard error hold the records logged in [tr],
    which are at [INFO] or [ERROR]. *)
Definition synced (w : world) (tr : list event) : Prop :=
  written_to (ToFile (CKN_LOG_FILE w)) tr = log_records tr /\
  written_to (ToStream Stderr) tr = log_records tr /\
  Forall (fun r => fst r = INFO \/ fst r = ERROR) (log_records tr).

(** A Unicode scalar value: a code point that is not a surrogate.  The text
    decoded from a file consists of these. *)
Definition scalar (c : N) : bool :=
  ((c <? 1114112) && negb ((55296 <=? c) && (c <=? 57343)))%N.

(** [P] holds of every number below [n]. *)
Fixpoint forall_below (n : nat) (P : N -> bool) : bool :=
  match n with
  | O => true
  | S n' => P (N.of_nat n') && forall_below n' P
  end.

(** What follows a value in what [json.dumps] writes: nothing, a comma, a
    closing bracket or a closing brace. *)
Definition stops (rest : pystr) : bool :=
  match rest with
  | [] => true
  | c :: _ => ((c =? 44) || (c =? 93) || (c =? 125))%N
  end.

(** No key occurs twice in [ks]. *)
Fixpoint keys_distinct (ks : list pystr) : bool :=
  match ks with
  | [] => true
  | k :: r => negb (existsb (pystr_eqb k) r) && keys_distinct r
  end.

(** A value without floats, whose strings and keys consist of scalar values
    and whose objects have distinct keys. *)
Fixpoint plain (v : json) : bool :=
  match v with
  | JNull | JBool _ | JInt _ => true
  | JFloat _ => false
  | JStr s => forallb scalar s
  | JList l =>
      (fix all (l : list json) : bool :=
         match l with
         | [] => true
         | x :: r => plain x && all r
         end) l
  | JDict d =>
      keys_distinct (map fst d) &&
      (fix all (d : list (pystr * json)) : bool :=
         match d with
         | [] => true
         | (k, x) :: r => forallb scalar k && plain x && all r
         end) d
  end.

(** Induction on values, with the property assumed of the elements of a list
    and of the values of a dictionary. *)
Section JsonInduction.
Variable P : json -> Prop.
Hypothesis HNull : P JNull.
Hypothesis HBool : forall b, P (JBool b).
Hypothesis HInt : forall z, P (JInt z).
Hypothesis HFloat : forall lit, P (JFloat lit).
Hypothesis HStr : forall s, P (JStr s).
Hypothesis HList : forall l, Forall P l -> P (JList l).
Hypothesis HDict : forall d, Forall (fun kv => P (snd kv)) d -> P (JDict d).

Fixpoint json_induction (v : json) : P v :=
  match v with
  | JNull => HNull
  | JBool b => HBool b
  | JInt z => HInt z
  | JFloat lit => HFloat lit
  | JStr s => HStr s
  | JList l =>
      HList l
        ((fix all (l : list json) : Forall P l :=
            match l with
            | [] => Forall_nil P
            | x :: r => Forall_cons x (json_induction x) (all r)
            end) l)
  | JDict d =>
      HDict d
        ((fix all (d : list (pystr * json))
            : Forall (fun kv => P (snd kv)) d :=
            match d with
            | [] => Forall_nil _
            | (k, x) :: r =>
                Forall_cons (k, x) (json_induction x) (all r)
            end) d)
  end.
End JsonInduction.

Section DumpsParts.
Context `{FloatText}.

(** The text of the elements of a list, between the brackets. *)
Fixpoint items_text (l : list json) : pystr :=
  match l with
  | [] => []
  | [x] => json_dumps x
  | x :: r => json_dumps x ++ py ", " ++ items_text r
  end.

(** The text of the members of an object, between the braces. *)
Fixpoint members_text (d : list (pystr * json)) : pystr :=
  match d with
  | [] => []
  | [(k, x)] => encode_str k ++ py ": " ++ json_dumps x
  | (k, x) :: r =>
      encode_str k ++ py ": " ++ json_dumps x ++ py ", " ++ members_text r
  end.
End DumpsParts.

(** What the round trip says of one value: enough fuel and enough room
    read the text of the value back, and leave what follows. *)
Definition reads_back `{FloatText} (lim : limits) (v : json) : Prop :=
  plain v = true ->
  digits_fit lim v = true ->
  forall fuel depth rest,
    List.length (json_dumps v) + 1 <= fuel ->
    nesting v <= depth ->
    stops rest = true ->
    scan_once lim fuel depth (json_dumps v ++ rest) = Scanned (v, rest).

(** A character [json.dumps] writes as it is inside a string: printable
    ASCII other than the quote and the backslash. *)
Definition json_safe (c : N) : bool :=
  ((32 <=? c) && (c <=? 126) && negb (c =? 34) && negb (c =? 92))%N.

(** An event file in which the key [a] occurs twice, and what it is loaded
    as: the later value, at the place of the first occurrence. *)
Definition duplicate_text : pystr :=
  py "{" ++ quoted "a" ++ py ": 1, " ++ quoted "flattened_scores" ++
  py ": [1], " ++ quoted "a" ++ py ": 2}".

Definition duplicate_event : dict :=
  [(py "a", JInt 2); (py "flattened_scores", JList [JInt 1])].

Definition is_ascii (c : N) : bool := (c <? 128)%N.

(** * Properties *)

(** ** Strings and dictionaries *)

Lemma pystr_eqb_eq (a b : pystr) : pystr_eqb a b = true <-> a = b.
Proof.
  revert b; induction a as [|x a IH]; intros [|y b]; simpl;
    try (split; [discriminate | discriminate]); try tauto.
  rewrite andb_true_iff, N.eqb_eq, IH.
  split; [intros [-> ->]; reflexivity | intros E; inversion E; auto].
Qed.

Lemma pystr_eqb_refl (a : pystr) : pystr_eqb a a = true.
Proof. apply pystr_eqb_eq; reflexivity. Qed.

Lemma pystr_eqb_neq (a b : pystr) : a <> b -> pystr_eqb a b = false.
Proof.
  intros Hne; destruct (pystr_eqb a b) eqn:E; [|reflexivity].
  apply pystr_eqb_eq in E; contradiction.
Qed.

Lemma dict_get_set_same (k : pystr) (v : json) (d : dict) :
  dict_get k (dict_set k v d) = Some v.
Proof.
  induction d as [|[k' v'] d IH]; simpl.
  - rewrite pystr_eqb_refl; reflexivity.
  - destruct (pystr_eqb k k') eqn:E; simpl; rewrite E; auto.
Qed.

Lemma dict_get_set_other (k k' : pystr) (v : json) (d : dict) :
  k <> k' -> dict_get k (dict_set k' v d) = dict_get k d.
Proof.
  intros Hne; induction d as [|[k0 v0] d IH]; simpl.
  - rewrite (pystr_eqb_neq _ _ Hne); reflexivity.
  - destruct (pystr_eqb k' k0) eqn:E; simpl.
    + apply pystr_eqb_eq in E; subst k0.
      rewrite (pystr_eqb_neq _ _ Hne); reflexivity.
    + rewrite IH; reflexivity.
Qed.

(** Setting a key keeps the keys that were there, in their order, and adds
    the key at the end when it is new. *)
Lemma dict_keys_set (k : pystr) (v : json) (d : dict) :
  dict_keys (dict_set k v d) =
  dict_keys d ++ (match dict_get k d with Some _ => [] | None => [k] end).
Proof.
  unfold dict_keys.
  induction d as [|[k0 v0] d IH]; simpl; [reflexivity|].
  destruct (pystr_eqb k k0) eqn:E; simpl.
  - rewrite app_nil_r; reflexivity.
  - rewrite IH; reflexivity.
Qed.

(** ** Exceptions and logging *)

Lemma issubclass_Exception (c : exn_class) : issubclass c Exception = true.
Proof. destruct c; reflexivity. Qed.

Lemma effective_handlers_idem (hs : list handler) :
  effective_handlers (effective_handlers hs) = effective_handlers hs.
Proof. destruct hs; reflexivity. Qed.

Lemma logging_log_eq (l : level) (msg : pystr) (st : state) :
  logging_log l msg st =
  (Ret tt,
   {| root_level := root_level st;
      handlers := effective_handlers (handlers st);
      attempts := attempts st;
      clock_reads := clock_reads st;
      trace := trace st ++
               log_events (root_level st) (effective_handlers (handlers st)) l msg |}).
Proof.
  destruct st as [rl hs a c tr]; unfold logging_log, bind, basicConfig; simpl.
  destruct hs; reflexivity.
Qed.

(** ** The first successful attempt *)

Section FirstSuccess.
Variable g : nat -> option exn.

Lemma first_success_range (n : nat) : forall start k,
  first_success g start n = Some k ->
  start <= k < start + n /\ g k = None /\
  (forall j, start <= j < k -> g j <> None).
Proof.
  induction n as [|n IH]; simpl; intros start k Hk; [discriminate|].
  destruct (g start) eqn:E.
  - apply IH in Hk as (Hr & Hf & Hb).
    split; [lia|]. split; [assumption|].
    intros j Hj. destruct (Nat.eq_dec j start) as [->|Hne].
    + rewrite E; discriminate.
    + apply Hb; lia.
  - inversion Hk; subst k. split; [lia|]. split; [assumption|].
    intros j Hj; lia.
Qed.

Lemma first_success_none (n : nat) : forall start,
  first_success g start n = None ->
  forall j, start <= j < start + n -> g j <> None.
Proof.
  induction n as [|n IH]; simpl; intros start Hn j Hj; [lia|].
  destruct (g start) eqn:E; [|discriminate].
  destruct (Nat.eq_dec j start) as [->|Hne].
  - rewrite E; discriminate.
  - apply (IH (S start)); [assumption | lia].
Qed.

Lemma first_success_some (n : nat) : forall start k,
  start <= k < start + n -> g k = None ->
  exists k', first_success g start n = Some k' /\ k' <= k.
Proof.
  induction n as [|n IH]; simpl; intros start k Hr Hk; [lia|].
  destruct (g start) eqn:E.
  - destruct (Nat.eq_dec k start) as [->|Hne]; [congruence|].
    destruct (IH (S start) k) as (k' & Hk' & Hle); [lia | assumption |].
    exists k'; auto.
  - exists start; split; [reflexivity | lia].
Qed.

Lemma probe_attempts_fail (start n : nat) (e : exn) :
  g start = Some e ->
  probe_attempts g start (S n) = S (probe_attempts g (S start) n).
Proof.
  intros E; unfold probe_attempts; cbn [first_success]; rewrite E.
  destruct (first_success g (S start) n) as [k|] eqn:Ek; [|reflexivity].
  apply first_success_range in Ek. lia.
Qed.

Lemma failed_attempts_fail (start n : nat) (e : exn) :
  g start = Some e ->
  failed_attempts g start (S n) = S (failed_attempts g (S start) n).
Proof.
  intros E; unfold failed_attempts; cbn [first_success]; rewrite E.
  destruct (first_success g (S start) n) as [k|] eqn:Ek; [|reflexivity].
  apply first_success_range in Ek. lia.
Qed.
End FirstSuccess.

(** ** The probe *)

Section Probe.
Variable w : world.
Variables (servers : pystr) (timeout : Z).

(** The outcome of the [k]-th attempt the process makes. *)
Let f : nat -> option exn := list_topics w servers timeout.

(** One round of the loop: a success returns [True] from the function, a
    failure is caught, logged and followed by the sleep. *)
Lemma probe_body_run (i : nat) (st : state) :
  probe_body w servers timeout i st =
  match f (attempts st) with
  | None =>
      (Ret (Some true),
       {| root_level := root_level st; handlers := handlers st;
          attempts := S (attempts st); clock_reads := clock_reads st;
          trace := trace st ++ [EvListTopics servers timeout] |})
  | Some e =>
      (Ret None,
       {| root_level := root_level st;
          handlers := effective_handlers (handlers st);
          attempts := S (attempts st); clock_reads := clock_reads st;
          trace := trace st ++
                   EvListTopics servers timeout ::
                   log_events (root_level st)
                     (effective_handlers (handlers st)) INFO
                     (retry_message e) ++ [EvSleep 5] |})
  end.
Proof.
  unfold probe_body, try_except, bind at 1, admin_list_topics, f.
  destruct (list_topics w servers timeout (attempts st)) as [e|]; cbn [fst snd].
  - cbn [find_clause]. rewrite issubclass_Exception.
    unfold bind at 1. rewrite logging_log_eq.
    unfold bind, time_sleep, tell, emit, ret; cbn -[log_events].
    rewrite <- !app_assoc. reflexivity.
  - reflexivity.
Qed.

Lemma probe_after_run (st : state) :
  probe_after st =
  (Ret false,
   {| root_level := root_level st;
      handlers := effective_handlers (handlers st);
      attempts := attempts st; clock_reads := clock_reads st;
      trace := trace st ++
               log_events (root_level st) (effective_handlers (handlers st))
                 ERROR (py "Could not connect to the CKN broker...") |}).
Proof. unfold probe_after, bind. rewrite logging_log_eq. reflexivity. Qed.

(** The run of [test_ckn_broker_connection], in one equation. *)
Lemma probe_run (num_tries : Z) (st : state) :
  test_ckn_broker_connection w servers timeout num_tries st =
  (Ret (match first_success f (attempts st) (Z.to_nat num_tries) with
        | Some _ => true
        | None => false
        end),
   {| root_level := root_level st;
      handlers := if probe_logs f (attempts st) (Z.to_nat num_tries)
                  then effective_handlers (handlers st) else handlers st;
      attempts := attempts st + probe_attempts f (attempts st) (Z.to_nat num_tries);
      clock_reads := clock_reads st;
      trace := trace st ++
               probe_events f servers timeout (root_level st)
                 (effective_handlers (handlers st))
                 (attempts st) (Z.to_nat num_tries) |}).
Proof.
  change (test_ckn_broker_connection w servers timeout num_tries)
    with (for_range (Z.to_nat num_tries) 0 (probe_body w servers timeout)
            probe_after).
  generalize 0 as i. revert st.
  induction (Z.to_nat num_tries) as [|n IH]; intros st i.
  - cbn [for_range first_success probe_events probe_logs].
    rewrite probe_after_run. unfold probe_attempts; cbn [first_success].
    rewrite Nat.add_0_r. reflexivity.
  - cbn [for_range]. unfold bind at 1. rewrite probe_body_run.
    cbn [first_success probe_events probe_logs].
    destruct (f (attempts st)) as [e|] eqn:E.
    + rewrite IH; cbn [root_level handlers attempts clock_reads trace].
      rewrite effective_handlers_idem.
      rewrite probe_attempts_fail with (e := e) by exact E.
      f_equal. f_equal.
      * destruct (probe_logs _ _ _); reflexivity.
      * lia.
      * rewrite <- !app_assoc. cbn [app]. rewrite <- !app_assoc. reflexivity.
    + unfold ret. unfold probe_attempts; cbn [first_success]. rewrite E.
      f_equal. f_equal. lia.
Qed.
End Probe.

(** ** What the events of the probe contain *)

Section ProbeEvents.
Variable f : nat -> option exn.
Variables (servers : pystr) (timeout : Z) (rl : level) (hs : list handler).

Lemma total_sleep_app (a b : list event) :
  total_sleep (a ++ b) = (total_sleep a + total_sleep b)%Z.
Proof.
  induction a as [|e a IH]; simpl; [reflexivity|].
  destruct e; rewrite ?IH; lia.
Qed.

Lemma total_sleep_emits (l : level) (msg : pystr) (hs' : list handler) :
  total_sleep (map (fun h => EvEmit (h_sink h) l msg) hs') = 0%Z.
Proof. induction hs' as [|h hs' IH]; simpl; auto. Qed.

Lemma total_sleep_log (l : level) (msg : pystr) :
  total_sleep (log_events rl hs l msg) = 0%Z.
Proof.
  unfold log_events; simpl.
  destruct (levelno rl <=? levelno l)%Z; [apply total_sleep_emits | reflexivity].
Qed.

(** Five seconds are slept for every attempt that failed. *)
Lemma total_sleep_probe (n : nat) : forall start,
  total_sleep (probe_events f servers timeout rl hs start n) =
  (5 * Z.of_nat (failed_attempts f start n))%Z.
Proof.
  induction n as [|n IH]; intros start.
  - cbn [probe_events]. rewrite total_sleep_log. reflexivity.
  - cbn [probe_events]. destruct (f start) as [e|] eqn:E.
    + rewrite failed_attempts_fail with (e := e) by exact E.
      cbn [total_sleep fold_right]. fold (total_sleep
        (log_events rl hs INFO (retry_message e) ++
         EvSleep 5 :: probe_events f servers timeout rl hs (S start) n)).
      rewrite total_sleep_app, total_sleep_log.
      cbn [total_sleep fold_right].
      fold (total_sleep (probe_events f servers timeout rl hs (S start) n)).
      rewrite IH. lia.
    + unfold failed_attempts; cbn [first_success]; rewrite E.
      rewrite Nat.sub_diag. reflexivity.
Qed.

(** Every attempt that failed is logged with its exception. *)
Lemma probe_events_logged (n : nat) : forall start j e,
  start <= j < start + probe_attempts f start n ->
  f j = Some e ->
  In (EvLog INFO (retry_message e))
     (probe_events f servers timeout rl hs start n).
Proof.
  induction n as [|n IH]; intros start j e Hj Hf.
  - unfold probe_attempts in Hj; cbn in Hj. lia.
  - cbn [probe_events]. right.
    destruct (f start) as [e0|] eqn:E.
    + rewrite probe_attempts_fail with (e := e0) in Hj by exact E.
      apply in_or_app.
      destruct (Nat.eq_dec j start) as [->|Hne].
      * left. rewrite E in Hf; inversion Hf; subst e0. left; reflexivity.
      * right. right. apply IH with (j := j); [lia | assumption].
    + unfold probe_attempts in Hj; cbn [first_success] in Hj; rewrite E in Hj.
      assert (j = start) by lia; subst j. congruence.
Qed.

(** When every attempt fails, the probe ends with the last attempt, its
    log line, the sleep, and the report of failure. *)
Lemma probe_events_all_fail (n : nat) : forall start,
  first_success f start (S n) = None ->
  exists pre e,
    f (start + n) = Some e /\
    probe_events f servers timeout rl hs start (S n) =
    pre ++ EvListTopics servers timeout ::
    log_events rl hs INFO (retry_message e) ++
    EvSleep 5 ::
    log_events rl hs ERROR (py "Could not connect to the CKN broker...").
Proof.
  induction n as [|n IH]; intros start Hn.
  - cbn [first_success] in Hn. cbn [probe_events].
    destruct (f start) as [e|] eqn:E; [|discriminate].
    exists [], e. rewrite Nat.add_0_r. split; [assumption | reflexivity].
  - remember (S n) as m. cbn [first_success] in Hn. cbn [probe_events].
    destruct (f start) as [e0|] eqn:E; [|discriminate]. subst m.
    destruct (IH (S start) Hn) as (pre & e & He & Hev).
    exists (EvListTopics servers timeout ::
            log_events rl hs INFO (retry_message e0) ++ EvSleep 5 :: pre), e.
    split.
    + rewrite <- He. f_equal. lia.
    + rewrite Hev. cbn [app]. rewrite <- app_assoc. reflexivity.
Qed.

End ProbeEvents.

Lemma probe_events_success (f : nat -> option exn) (servers : pystr)
  (timeout : Z) (rl : level) (hs : list handler) (n : nat) : forall start k,
  first_success f start n = Some k ->
  exists pre,
    probe_events f servers timeout rl hs start n =
    pre ++ [EvListTopics servers timeout].
Proof.
  induction n as [|n IH]; intros start k Hk; cbn [first_success] in Hk;
    [discriminate|].
  cbn [probe_events]. destruct (f start) as [e|] eqn:E.
  - destruct (IH _ _ Hk) as [pre Hpre]. rewrite Hpre.
    exists (EvListTopics servers timeout ::
            log_events rl hs INFO (retry_message e) ++ EvSleep 5 :: pre).
    cbn [app]. rewrite <- app_assoc. reflexivity.
  - exists []. reflexivity.
Qed.

(** ** What the probe guarantees *)

(** C1. The probe never raises: from every state it returns a boolean.  It
    returns [True] exactly when one of its [num_tries] attempts lists the
    topics; it then stops at the first such attempt, which is the last thing
    it does.  It returns [False] after [num_tries] attempts that all failed,
    having logged that it could not connect.  Every failed attempt it made is
    logged with its exception.  [num_tries] defaults to 5. *)
Theorem probe_never_raises (w : world) (servers : pystr)
  (timeout num_tries : Z) (st : state) :
  exists b st',
    test_ckn_broker_connection w servers timeout num_tries st = (Ret b, st') /\
    (b = true <->
     exists k, k < Z.to_nat num_tries /\
               list_topics w servers timeout (attempts st + k) = None) /\
    (b = true ->
     exists k pre,
       k < Z.to_nat num_tries /\
       list_topics w servers timeout (attempts st + k) = None /\
       (forall j, j < k -> list_topics w servers timeout (attempts st + j) <> None) /\
       attempts st' = attempts st + S k /\
       trace st' = pre ++ [EvListTopics servers timeout]) /\
    (b = false ->
     attempts st' = attempts st + Z.to_nat num_tries /\
     (forall j, j < Z.to_nat num_tries ->
                list_topics w servers timeout (attempts st + j) <> None) /\
     In (EvLog ERROR (py "Could not connect to the CKN broker...")) (trace st')) /\
    (forall j e,
       attempts st + j < attempts st' ->
       list_topics w servers timeout (attempts st + j) = Some e ->
       In (EvLog INFO (retry_message e)) (trace st')) /\
    default_num_tries = 5%Z.
Proof.
  eexists; eexists. split; [apply probe_run|].
  cbn [attempts trace].
  set (f := list_topics w servers timeout).
  set (n := Z.to_nat num_tries).
  set (a := attempts st).
  destruct (first_success f a n) as [k|] eqn:Ek.
  - pose proof (first_success_range _ _ _ _ Ek) as (Hr & Hf & Hb).
    assert (Hk : exists k0, k0 < n /\ f (a + k0) = None).
    { exists (k - a). split; [lia|]. replace (a + (k - a)) with k by lia.
      exact Hf. }
    split; [split; [intros _; exact Hk | reflexivity]|].
    split.
    + intros _.
      destruct (probe_events_success f servers timeout (root_level st)
                  (effective_handlers (handlers st)) _ _ _ Ek) as [pre Hpre].
      exists (k - a), (trace st ++ pre).
      split; [lia|]. replace (a + (k - a)) with k by lia.
      split; [exact Hf|]. split.
      * intros j Hj. apply Hb. lia.
      * split.
        -- unfold probe_attempts. rewrite Ek. lia.
        -- rewrite Hpre, app_assoc. reflexivity.
    + split; [discriminate|]. split; [|reflexivity].
      intros j e Hj He. apply in_or_app; right.
      apply probe_events_logged with (j := a + j); [|exact He].
      lia.
  - pose proof (first_success_none _ _ _ Ek) as Hall.
    split.
    { split; [discriminate|]. intros (k & Hk & Hf).
      exfalso. apply (Hall (a + k)); [lia | exact Hf]. }
    split; [discriminate|]. split.
    + intros _. unfold probe_attempts. rewrite Ek.
      split; [reflexivity|]. split.
      * intros j Hj. apply Hall. lia.
      * apply in_or_app; right.
        destruct n as [|n'].
        -- left. reflexivity.
        -- destruct (probe_events_all_fail f servers timeout (root_level st)
                       (effective_handlers (handlers st)) _ _ Ek)
             as (pre & e & _ & Hev).
           rewrite Hev. apply in_or_app; right. right.
           apply in_or_app; right. right. left. reflexivity.
    + split; [|reflexivity].
      intros j e Hj He. apply in_or_app; right.
      apply probe_events_logged with (j := a + j); [|exact He].
      lia.
Qed.

Lemma first_success_all_fail (f : nat -> option exn) (start n : nat) :
  (forall j, j < n -> f (start + j) <> None) ->
  first_success f start n = None.
Proof.
  intros Hall. destruct (first_success f start n) as [k|] eqn:Ek; [|reflexivity].
  apply first_success_range in Ek as (Hr & Hf & _).
  exfalso. apply (Hall (k - start)); [lia|].
  replace (start + (k - start)) with k by lia. exact Hf.
Qed.

Lemma first_success_at (f : nat -> option exn) (start n k : nat) :
  k < n -> f (start + k) = None ->
  (forall j, j < k -> f (start + j) <> None) ->
  first_success f start n = Some (start + k).
Proof.
  intros Hk Hf Hb.
  destruct (first_success_some f n start (start + k)) as (k' & Hk' & Hle);
    [lia | exact Hf |].
  pose proof (first_success_range _ _ _ _ Hk') as (Hr & Hf' & _).
  destruct (Nat.eq_dec k' (start + k)) as [->|Hne]; [exact Hk'|].
  exfalso. apply (Hb (k' - start)); [lia|].
  replace (start + (k' - start)) with k' by lia. exact Hf'.
Qed.

(** C8, as the code has it.  The five seconds are slept after every failed
    attempt, the last one included: when the first success is the attempt
    number [k] (from 0), [5 * k] seconds have been slept; when all
    [num_tries] attempts fail, [5 * num_tries] seconds have been slept, and
    the probe ends with its last attempt, the log line of that failure, a
    sleep of five seconds and only then the report of failure. *)
Theorem probe_sleeps_after_every_failure (w : world) (servers : pystr)
  (timeout num_tries : Z) (st : state) :
  exists b st',
    test_ckn_broker_connection w servers timeout num_tries st = (Ret b, st') /\
    (forall k,
       k < Z.to_nat num_tries ->
       list_topics w servers timeout (attempts st + k) = None ->
       (forall j, j < k -> list_topics w servers timeout (attempts st + j) <> None) ->
       b = true /\
       total_sleep (trace st') = (total_sleep (trace st) + 5 * Z.of_nat k)%Z) /\
    ((forall j, j < Z.to_nat num_tries ->
                list_topics w servers timeout (attempts st + j) <> None) ->
     0 < Z.to_nat num_tries ->
     b = false /\
     total_sleep (trace st') =
       (total_sleep (trace st) + 5 * Z.of_nat (Z.to_nat num_tries))%Z /\
     exists pre e,
       list_topics w servers timeout (attempts st + (Z.to_nat num_tries - 1)) = Some e /\
       trace st' =
         pre ++ EvListTopics servers timeout ::
         log_events (root_level st) (effective_handlers (handlers st)) INFO
           (retry_message e) ++
         EvSleep 5 ::
         log_events (root_level st) (effective_handlers (handlers st)) ERROR
           (py "Could not connect to the CKN broker...")).
Proof.
  eexists; eexists. split; [apply probe_run|].
  cbn [trace].
  set (f := list_topics w servers timeout).
  set (n := Z.to_nat num_tries).
  set (a := attempts st).
  rewrite total_sleep_app, total_sleep_probe.
  split.
  - intros k Hk Hf Hb.
    rewrite (first_success_at f a n k Hk Hf Hb).
    split; [reflexivity|].
    unfold failed_attempts. rewrite (first_success_at f a n k Hk Hf Hb).
    replace (a + k - a) with k by lia. reflexivity.
  - intros Hall Hn.
    pose proof (first_success_all_fail f a n Hall) as Ek.
    rewrite Ek. split; [reflexivity|]. split.
    + unfold failed_attempts. rewrite Ek. reflexivity.
    + destruct n as [|n']; [lia|].
      destruct (probe_events_all_fail f servers timeout (root_level st)
                  (effective_handlers (handlers st)) _ _ Ek)
        as (pre & e & He & Hev).
      exists (trace st ++ pre), e. split.
      * replace (S n' - 1) with n' by lia. exact He.
      * rewrite Hev, app_assoc. reflexivity.
Qed.

(** With a single attempt, which fails, there is no next attempt to wait
    for; the probe still sleeps five seconds before it reports failure. *)
Lemma probe_sleeps_after_last_failure :
  test_ckn_broker_connection (example_world 1 Absent Pending)
    (py "broker:29092") 10 1 initial_state =
  (Ret false,
   {| root_level := WARNING;
      handlers := [setFormatter BASIC_FORMAT (StreamHandler None)];
      attempts := 1;
      clock_reads := 0;
      trace :=
        [EvListTopics (py "broker:29092") 10;
         EvLog INFO (retry_message refused);
         EvSleep 5;
         EvLog ERROR (py "Could not connect to the CKN broker...");
         EvEmit (ToStream Stderr) ERROR
           (py "Could not connect to the CKN broker...")] |}).
Proof. reflexivity. Qed.

Lemma probe_sleeps_after_every_failure_witness :
  exists b st',
    test_ckn_broker_connection (example_world 2 Absent Pending)
      (py "broker:29092") 10 2 initial_state = (Ret b, st') /\
    b = false /\ total_sleep (trace st') = 10%Z.
Proof.
  destruct (probe_sleeps_after_every_failure (example_world 2 Absent Pending)
              (py "broker:29092") 10 2 initial_state)
    as (b & st' & Hrun & _ & Hfail).
  exists b, st'. split; [exact Hrun|].
  destruct Hfail as (Hb & Hs & _).
  - intros j Hj. cbn in Hj. destruct j as [|[|j]]; cbn; [discriminate | discriminate | lia].
  - cbn. lia.
  - split; [exact Hb | exact Hs].
Defined.

(** ** The loader and the transformer *)

Lemma logging_log_run (l : level) (msg : pystr) (st : state) :
  logging_log l msg st = (Ret tt, after_log l msg st).
Proof. apply logging_log_eq. Qed.

Lemma find_clause_file_error (A : Type) (path : pystr) (e : file_error)
  (h1 h2 : exn -> M A) :
  find_clause [(FileNotFoundError, h1); (JSONDecodeError, h2)]
    (file_error_exn path e) = None.
Proof. destruct e; reflexivity. Qed.

(** The run of [read_event_from_file], case by case. *)
Lemma read_event_run (w : world) (path : pystr) (st : state) :
  read_event_from_file w path st =
  match file_at w path with
  | Absent =>
      (Ret JNull,
       after_log ERROR (py "Event file not found: " ++ path)
         (emit [EvOpen path] st))
  | Unreadable e => (Raise (file_error_exn path e), emit [EvOpen path] st)
  | Readable text =>
      match json_loads (json_limits w) text with
      | Scanned v => (Ret v, emit [EvOpen path] st)
      | Stopped Malformed =>
          (Ret JNull,
           after_log ERROR (py "Invalid JSON in event file: " ++ path)
             (emit [EvOpen path] st))
      | Stopped e =>
          (Raise (scan_error_exn (json_limits w) e), emit [EvOpen path] st)
      end
  end.
Proof.
  unfold read_event_from_file, try_except, open_read, bind at 1, bind at 1, tell.
  destruct (file_at w path) as [|e|text].
  - cbn [raise find_clause exn_cls]. 
    change (issubclass FileNotFoundError FileNotFoundError) with true. cbv iota.
    unfold bind. rewrite logging_log_run. reflexivity.
  - cbn [raise]. rewrite find_clause_file_error. reflexivity.
  - cbn [ret]. unfold json_load.
    destruct (json_loads (json_limits w) text) as [v|[|n|k]].
    + reflexivity.
    + cbn [raise find_clause exn_cls scan_error_exn].
      change (issubclass JSONDecodeError FileNotFoundError) with false.
      change (issubclass JSONDecodeError JSONDecodeError) with true. cbv iota.
      unfold bind. rewrite logging_log_run. reflexivity.
    + reflexivity.
    + destruct k; reflexivity.
Qed.

Lemma k_scores_receiving : k_scores <> k_receiving. Proof. key_neq. Qed.
Lemma k_scores_scoring : k_scores <> k_scoring. Proof. key_neq. Qed.
Lemma k_scores_delete : k_scores <> k_delete. Proof. key_neq. Qed.
Lemma k_receiving_scoring : k_receiving <> k_scoring. Proof. key_neq. Qed.
Lemma k_receiving_delete : k_receiving <> k_delete. Proof. key_neq. Qed.
Lemma k_scoring_delete : k_scoring <> k_delete. Proof. key_neq. Qed.

Lemma dict_get_stamped_other (k ts : pystr) (d : dict) :
  k <> k_receiving -> k <> k_scoring -> k <> k_delete ->
  dict_get k (stamped ts d) = dict_get k d.
Proof.
  intros H1 H2 H3. unfold stamped.
  rewrite !dict_get_set_other by assumption. reflexivity.
Qed.

Lemma dict_get_stamped_scores (ts : pystr) (d : dict) :
  dict_get k_scores (stamped ts d) = dict_get k_scores d.
Proof.
  apply dict_get_stamped_other;
    [apply k_scores_receiving | apply k_scores_scoring | apply k_scores_delete].
Qed.

Section Transform.
Variable w : world.
Context `{FloatText}.

(** The run of the transformer on a dictionary: it fails on a missing
    [flattened_scores], after the clock has been read. *)
Lemma transform_dict_run (d : dict) (st : state) :
  transform w (JDict d) st =
  let ts := isoformat (utcnow w (clock_reads st)) ++ py "Z" in
  match dict_get k_scores d with
  | Some _ => (Ret (JDict (transformed ts d)), tick st)
  | None => (Raise {| exn_cls := KeyError; exn_str := k_scores |}, tick st)
  end.
Proof.
  unfold transform, bind, datetime_utcnow, setitem, ret.
  fold k_receiving k_scoring k_delete k_scores.
  set (ts := isoformat (utcnow w (clock_reads st)) ++ py "Z").
  fold (stamped ts d). unfold getitem, transformed, raise, ret.
  rewrite dict_get_stamped_scores.
  destruct (dict_get k_scores d) as [v|]; [|reflexivity].
  destruct (is_list v); reflexivity.
Qed.

(** On anything but a dictionary, the first assignment raises. *)
Lemma transform_other_run (v : json) (st : state) :
  is_dict v = false ->
  transform w v st =
  (Raise {| exn_cls := TypeError; exn_str := py "item assignment" |}, tick st).
Proof.
  intros Hv. unfold transform, bind at 1, datetime_utcnow.
  destruct v; try discriminate Hv; reflexivity.
Qed.
End Transform.

(** ** The script, case by case *)

Lemma setup_logging_run (w : world) (st : state) :
  setup_logging w st =
  (Ret tt,
   {| root_level := DEBUG; handlers := handlers st ++ main_handlers w;
      attempts := attempts st; clock_reads := clock_reads st;
      trace := trace st |}).
Proof.
  unfold setup_logging, bind, root_setLevel, addHandler; cbn.
  rewrite <- app_assoc. reflexivity.
Qed.

Lemma emit_emit (a b : list event) (st : state) :
  emit b (emit a st) = emit (a ++ b) st.
Proof. unfold emit; cbn. rewrite <- app_assoc. reflexivity. Qed.

(** The script up to the end of the probe. *)
Lemma main_probe_run (w : world) :
  test_ckn_broker_connection w (KAFKA_BROKER w) default_timeout default_num_tries
    (after_log INFO (py "Connecting to the CKN broker at " ++ KAFKA_BROKER w)
       {| root_level := DEBUG; handlers := main_handlers w; attempts := 0;
          clock_reads := 0; trace := [] |}) =
  (Ret (probe_ok w), probe_state w).
Proof.
  rewrite probe_run. unfold probe_ok, probe_state, main_attempt, after_log.
  cbn [root_level handlers attempts clock_reads trace effective_handlers
       main_handlers app Nat.add].
  f_equal. f_equal.
  destruct (probe_logs _ _ _); reflexivity.
Qed.

Section Run.
Context `{FloatText}.

Lemma run_cases (w : world) :
  run w =
  if probe_ok w then
    match file_at w event_path with
    | Absent =>
        (SysExit 1,
         after_log ERROR (py "Failed to read event data. Shutting down.")
           (after_log ERROR (py "Event file not found: " ++ event_path)
              (st_opened w)))
    | Unreadable e => (Raise (file_error_exn event_path e), st_opened w)
    | Readable text =>
        match json_loads (json_limits w) text with
        | Stopped Malformed =>
            (SysExit 1,
             after_log ERROR (py "Failed to read event data. Shutting down.")
               (after_log ERROR
                  (py "Invalid JSON in event file: " ++ event_path)
                  (st_opened w)))
        | Stopped e => (Raise (scan_error_exn (json_limits w) e), st_opened w)
        | Scanned JNull =>
            (SysExit 1,
             after_log ERROR (py "Failed to read event data. Shutting down.")
               (st_opened w))
        | Scanned (JDict d) =>
            match dict_get k_scores d with
            | Some _ =>
                (Ret tt,
                 st_flushed w
                   (json_dumps (JDict (transformed (main_timestamp w) d))))
            | None =>
                (Raise {| exn_cls := KeyError; exn_str := k_scores |},
                 tick (st_opened w))
            end
        | Scanned _ =>
            (Raise {| exn_cls := TypeError; exn_str := py "item assignment" |},
             tick (st_opened w))
        end
    end
  else
    (SysExit 1,
     after_log ERROR
       (py "Shutting down CKN Daemon due to broker not being available")
       (probe_state w)).
Proof.
  unfold run, main.
  unfold bind at 1. rewrite setup_logging_run.
  unfold bind at 1. rewrite logging_log_run.
  cbn [initial_state root_level handlers attempts clock_reads trace app].
  unfold bind at 1. rewrite main_probe_run.
  destruct (probe_ok w); cbn [negb].
  - unfold bind at 1, ret at 1.
    unfold bind at 1. rewrite logging_log_run. fold (st_connected w).
    unfold bind at 1. fold event_path. rewrite read_event_run.
    fold (st_opened w).
    destruct (file_at w event_path) as [|e|text].
    + cbn [is_None]. unfold bind at 1, bind at 1.
      rewrite logging_log_run. reflexivity.
    + reflexivity.
    + destruct (json_loads (json_limits w) text) as [v|[|n|k]];
        [| | reflexivity | reflexivity].
      * destruct v as [|b|z|lit|s|l|d]; cbn [is_None];
          try (unfold bind at 1, bind at 1; rewrite logging_log_run;
               reflexivity);
          try (unfold bind at 1, ret at 1; unfold bind at 1;
               rewrite transform_other_run by reflexivity; reflexivity).
        unfold bind at 1, ret at 1. unfold bind at 1.
        rewrite transform_dict_run. cbn zeta.
        change (clock_reads (st_opened w)) with 0.
        fold (main_timestamp w).
        destruct (dict_get k_scores d); [|reflexivity].
        unfold bind at 1, produce, tell, flush, bind at 1, tell, st_flushed.
        rewrite emit_emit. cbn [app].
        destruct (delivery w); cbn [delivery_report];
          rewrite ?logging_log_run; reflexivity.
      * cbn [is_None]. unfold bind at 1, bind at 1.
        rewrite logging_log_run. reflexivity.
  - unfold bind at 1, bind at 1. rewrite logging_log_run. reflexivity.
Qed.
End Run.

(** ** Reachability of the broker *)

Lemma probe_ok_reachable (w : world) : probe_ok w = true <-> broker_reachable w.
Proof.
  unfold probe_ok, broker_reachable. fold (main_attempt w).
  destruct (first_success (main_attempt w) 0 (Z.to_nat default_num_tries))
    as [k|] eqn:Ek.
  - split; [intros _ | reflexivity].
    apply first_success_range in Ek as (Hr & Hf & _).
    exists k. split; [lia | exact Hf].
  - split; [discriminate|]. intros (k & Hk & Hf). exfalso.
    apply (first_success_none _ _ _ Ek k); [lia | exact Hf].
Qed.

Lemma probe_ok_unreachable (w : world) :
  (forall k, k < Z.to_nat default_num_tries ->
             list_topics w (KAFKA_BROKER w) default_timeout k <> None) ->
  probe_ok w = false.
Proof.
  intros Hall. destruct (probe_ok w) eqn:E; [|reflexivity].
  apply probe_ok_reachable in E as (k & Hk & Hf).
  exfalso. exact (Hall k Hk Hf).
Qed.

(** ** What a trace contains *)

Lemma no_open_app (a b : list event) : no_open a -> no_open b -> no_open (a ++ b).
Proof.
  intros Ha Hb p Hin. apply in_app_or in Hin as [Hin|Hin];
    [exact (Ha p Hin) | exact (Hb p Hin)].
Qed.

Lemma In_log_events (e : event) (rl : level) (hs : list handler) (l : level)
  (msg : pystr) :
  In e (log_events rl hs l msg) ->
  e = EvLog l msg \/ exists h, In h hs /\ e = EvEmit (h_sink h) l msg.
Proof.
  unfold log_events. intros [Hin|Hin]; [left; symmetry; exact Hin|].
  right. destruct (levelno rl <=? levelno l)%Z; [|contradiction].
  apply in_map_iff in Hin as (h & He & Hh).
  apply filter_In in Hh as [Hh _]. exists h. split; [exact Hh | symmetry; exact He].
Qed.

Lemma no_open_log (rl : level) (hs : list handler) (l : level) (msg : pystr) :
  no_open (log_events rl hs l msg).
Proof.
  intros p Hin. apply In_log_events in Hin as [Hin|(h & _ & Hin)]; discriminate.
Qed.

Lemma no_open_probe (f : nat -> option exn) (servers : pystr) (timeout : Z)
  (rl : level) (hs : list handler) (n : nat) : forall start,
  no_open (probe_events f servers timeout rl hs start n).
Proof.
  induction n as [|n IH]; intros start; cbn [probe_events].
  - apply no_open_log.
  - intros p [Hin|Hin]; [discriminate|]. revert p Hin.
    destruct (f start) as [e|]; [|intros p []].
    apply no_open_app; [apply no_open_log|].
    intros p [Hin|Hin]; [discriminate | exact (IH (S start) p Hin)].
Qed.

Lemma no_open_probe_state (w : world) : no_open (trace (probe_state w)).
Proof.
  unfold probe_state; cbn [trace].
  apply no_open_app; [apply no_open_log | apply no_open_probe].
Qed.

Lemma published_app (a b : list event) :
  published (a ++ b) = published a ++ published b.
Proof. unfold published. apply flat_map_app. Qed.

Lemma published_log (rl : level) (hs : list handler) (l : level) (msg : pystr) :
  published (log_events rl hs l msg) = [].
Proof.
  unfold log_events, published. cbn [flat_map app].
  destruct (levelno rl <=? levelno l)%Z; [|reflexivity].
  induction (filter _ hs) as [|h t IH]; [reflexivity | exact IH].
Qed.

Lemma published_probe (f : nat -> option exn) (servers : pystr) (timeout : Z)
  (rl : level) (hs : list handler) (n : nat) : forall start,
  published (probe_events f servers timeout rl hs start n) = [].
Proof.
  induction n as [|n IH]; intros start; cbn [probe_events].
  - apply published_log.
  - change (published (EvListTopics servers timeout :: ?x)) with (published x).
    destruct (f start) as [e|]; [|reflexivity].
    unfold published at 1. cbn [flat_map app]. fold (published
      (log_events rl hs INFO (retry_message e) ++
       EvSleep 5 :: probe_events f servers timeout rl hs (S start) n)).
    rewrite published_app, published_log. cbn [app].
    unfold published at 1. cbn [flat_map app]. apply IH.
Qed.

Lemma published_opened (w : world) : published (trace (st_opened w)) = [].
Proof.
  unfold st_opened, st_connected, emit, after_log, probe_state;
    cbn [trace root_level handlers].
  rewrite !published_app, !published_log, published_probe. reflexivity.
Qed.

(** What a run publishes when it reaches the producer. *)
Lemma published_flushed (w : world) (payload : pystr) :
  published (trace (st_flushed w payload)) = [payload].
Proof.
  unfold st_flushed.
  assert (E : published
                (trace (emit [EvProduce (KAFKA_BROKER w) (KAFKA_TOPIC w) payload;
                              EvFlush 1] (tick (st_opened w)))) = [payload]).
  { unfold emit, tick; cbn [trace]. rewrite !published_app, published_opened.
    reflexivity. }
  destruct (delivery w); [exact E | |]; unfold after_log; cbn [trace];
    rewrite published_app, published_log, app_nil_r; exact E.
Qed.

(** ** What the script guarantees *)

Section Script.
Context `{FloatText}.

(** Every run that gets past the probe has opened the event file right
    after the line that reports the connection. *)
Lemma run_trace_reachable (w : world) :
  probe_ok w = true ->
  exists post, trace (snd (run w)) = trace (st_opened w) ++ post.
Proof.
  intros Hok. rewrite run_cases, Hok.
  destruct (file_at w event_path) as [|e|text].
  - eexists. cbn [snd after_log trace]. rewrite <- app_assoc. reflexivity.
  - exists []. cbn [snd]. rewrite app_nil_r. reflexivity.
  - destruct (json_loads (json_limits w) text) as [v|[|n|k]];
      [| | exists []; cbn [snd]; rewrite app_nil_r; reflexivity ..].
    + destruct v as [|b|z|lit|s|l|d];
        try (eexists; cbn [snd after_log tick trace]; reflexivity).
      destruct (dict_get k_scores d).
      * cbn [snd]. unfold st_flushed.
        destruct (delivery w); eexists;
          cbn [after_log emit tick trace]; rewrite <- ?app_assoc; reflexivity.
      * eexists; cbn [snd tick trace]; reflexivity.
    + eexists. cbn [snd after_log trace]. rewrite <- app_assoc. reflexivity.
Qed.

(** C5. When every attempt of the probe fails, the script exits with
    status 1 and no file is opened.  In any run, if the event file is
    opened then an attempt of the probe succeeded, and the opening comes
    after everything the probe did and after the line that reports the
    connection; nothing is opened before. *)
Theorem no_read_without_broker (w : world) :
  ((forall k, k < Z.to_nat default_num_tries ->
              list_topics w (KAFKA_BROKER w) default_timeout k <> None) ->
   fst (run w) = SysExit 1 /\
   exit_code (fst (run w)) = 1%Z /\
   no_open (trace (snd (run w)))) /\
  (forall p,
     In (EvOpen p) (trace (snd (run w))) ->
     broker_reachable w /\
     p = event_path /\
     no_open (trace (st_connected w)) /\
     exists post,
       trace (snd (run w)) =
       trace (st_connected w) ++ EvOpen event_path :: post).
Proof.
  assert (Hconn : no_open (trace (st_connected w))).
  { unfold st_connected, after_log; cbn [trace].
    apply no_open_app; [apply no_open_probe_state | apply no_open_log]. }
  assert (Hdown : probe_ok w = false ->
                  fst (run w) = SysExit 1 /\ no_open (trace (snd (run w)))).
  { intros Hok. rewrite run_cases, Hok. split; [reflexivity|].
    cbn [snd after_log trace].
    apply no_open_app; [apply no_open_probe_state | apply no_open_log]. }
  split.
  - intros Hall. apply probe_ok_unreachable in Hall.
    destruct (Hdown Hall) as [Hr Hn].
    split; [exact Hr|]. split; [rewrite Hr; reflexivity | exact Hn].
  - intros p Hin. destruct (probe_ok w) eqn:Hok.
    + split; [apply probe_ok_reachable; exact Hok|].
      destruct (run_trace_reachable w Hok) as [post Hpost].
      assert (Htr : trace (snd (run w)) =
                    trace (st_connected w) ++ EvOpen event_path :: post).
      { rewrite Hpost. unfold st_opened, emit; cbn [trace].
        rewrite <- app_assoc. reflexivity. }
      split; [|split; [exact Hconn | exists post; exact Htr]].
      (* the only file the script opens is the event file *)
      clear Hpost Htr. revert Hin. rewrite run_cases, Hok.
      assert (Hopened : forall q, In (EvOpen q) (trace (st_opened w)) ->
                                  q = event_path).
      { intros q Hq. unfold st_opened, emit in Hq; cbn [trace] in Hq.
        apply in_app_or in Hq as [Hq|[Hq|[]]].
        - destruct (Hconn q Hq).
        - inversion Hq; reflexivity. }
      assert (Hlog : forall st l msg q,
                (In (EvOpen q) (trace st) -> q = event_path) ->
                In (EvOpen q) (trace (after_log l msg st)) -> q = event_path).
      { intros st l msg q Hst Hq. unfold after_log in Hq; cbn [trace] in Hq.
        apply in_app_or in Hq as [Hq|Hq]; [exact (Hst Hq)|].
        destruct (no_open_log _ _ _ _ q Hq). }
      assert (Htick : forall q, In (EvOpen q) (trace (tick (st_opened w))) ->
                                q = event_path).
      { intros q Hq. unfold tick in Hq; cbn [trace] in Hq.
        apply in_app_or in Hq as [Hq|[Hq|[]]];
          [exact (Hopened q Hq) | discriminate]. }
      destruct (file_at w event_path) as [|e|text]; cbn [snd].
      * intros Hq. apply (Hlog _ _ _ p (Hlog _ _ _ p (Hopened p))) in Hq.
        exact Hq.
      * apply Hopened.
      * destruct (json_loads (json_limits w) text) as [v|[|n|k]];
          [| | apply Hopened ..].
        -- destruct v as [|b|z|lit|s|l|d]; cbn [snd];
             try apply Htick; try (apply Hlog; apply Hopened).
           destruct (dict_get k_scores d); cbn [snd]; [|apply Htick].
           unfold st_flushed.
           assert (Hprod : In (EvOpen p)
                     (trace (emit [EvProduce (KAFKA_BROKER w) (KAFKA_TOPIC w)
                               (json_dumps (JDict (transformed (main_timestamp w) d)));
                             EvFlush 1] (tick (st_opened w)))) ->
                   p = event_path).
           { intros Hq. unfold emit in Hq; cbn [trace] in Hq.
             apply in_app_or in Hq as [Hq|[Hq|[Hq|[]]]];
               [exact (Htick p Hq) | discriminate | discriminate]. }
           destruct (delivery w); [exact Hprod | |]; apply Hlog; exact Hprod.
        -- intros Hq. apply (Hlog _ _ _ p (Hlog _ _ _ p (Hopened p))) in Hq.
           exact Hq.
    + exfalso. destruct (Hdown eq_refl) as [_ Hn]. exact (Hn p Hin).
Qed.
End Script.

(** ** The transformed dictionary *)

Lemma other_entries_set (k : pystr) (v : json) (d : dict) :
  other_key k = false -> other_entries (dict_set k v d) = other_entries d.
Proof.
  intros Hk. unfold other_entries.
  induction d as [|[k0 v0] d IH]; cbn [dict_set filter fst].
  - rewrite Hk. reflexivity.
  - destruct (pystr_eqb k k0) eqn:E; cbn [filter fst].
    + apply pystr_eqb_eq in E; subst k0. rewrite Hk. reflexivity.
    + rewrite IH. reflexivity.
Qed.

Section Transformed.
Context `{FloatText}.
Variables (ts : pystr) (d : dict).

Lemma dict_get_stamped_receiving :
  dict_get k_receiving (stamped ts d) = Some (JStr ts).
Proof.
  unfold stamped.
  rewrite dict_get_set_other by apply k_receiving_delete.
  rewrite dict_get_set_other by apply k_receiving_scoring.
  apply dict_get_set_same.
Qed.

Lemma dict_get_stamped_scoring :
  dict_get k_scoring (stamped ts d) = Some (JStr ts).
Proof.
  unfold stamped.
  rewrite dict_get_set_other by apply k_scoring_delete.
  apply dict_get_set_same.
Qed.

Lemma dict_get_stamped_delete :
  dict_get k_delete (stamped ts d) = Some (JStr ts).
Proof. unfold stamped. apply dict_get_set_same. Qed.

(** Outside [flattened_scores], the transformed dictionary is the stamped
    one. *)
Lemma dict_get_transformed (k : pystr) :
  k <> k_scores ->
  dict_get k (transformed ts d) = dict_get k (stamped ts d).
Proof.
  intros Hk. unfold transformed.
  destruct (dict_get k_scores d) as [v|]; [|reflexivity].
  destruct (is_list v); [|reflexivity].
  apply dict_get_set_other. exact Hk.
Qed.

Lemma dict_get_transformed_scores (v : json) :
  dict_get k_scores d = Some v ->
  dict_get k_scores (transformed ts d) =
  Some (if is_list v then JStr (json_dumps v) else v).
Proof.
  intros Hv. unfold transformed. rewrite Hv.
  destruct (is_list v).
  - apply dict_get_set_same.
  - rewrite dict_get_stamped_scores. exact Hv.
Qed.

Lemma dict_get_transformed_other (k : pystr) :
  k <> k_receiving -> k <> k_scoring -> k <> k_delete -> k <> k_scores ->
  dict_get k (transformed ts d) = dict_get k d.
Proof.
  intros H1 H2 H3 H4. rewrite dict_get_transformed by exact H4.
  apply dict_get_stamped_other; assumption.
Qed.

(** The keys of the event keep their order; the timestamp keys that were
    missing come after them. *)
Lemma dict_keys_transformed (v : json) :
  dict_get k_scores d = Some v ->
  dict_keys (transformed ts d) =
  dict_keys d ++
  (match dict_get k_receiving d with Some _ => [] | None => [k_receiving] end) ++
  (match dict_get k_scoring d with Some _ => [] | None => [k_scoring] end) ++
  (match dict_get k_delete d with Some _ => [] | None => [k_delete] end).
Proof.
  intros Hv.
  assert (Hst : dict_keys (stamped ts d) =
    dict_keys d ++
    (match dict_get k_receiving d with Some _ => [] | None => [k_receiving] end) ++
    (match dict_get k_scoring d with Some _ => [] | None => [k_scoring] end) ++
    (match dict_get k_delete d with Some _ => [] | None => [k_delete] end)).
  { unfold stamped. rewrite !dict_keys_set.
    rewrite (dict_get_set_other k_scoring k_receiving) by
      (intro E; symmetry in E; revert E; apply k_receiving_scoring).
    rewrite (dict_get_set_other k_delete k_scoring) by
      (intro E; symmetry in E; revert E; apply k_scoring_delete).
    rewrite (dict_get_set_other k_delete k_receiving) by
      (intro E; symmetry in E; revert E; apply k_receiving_delete).
    rewrite <- !app_assoc. reflexivity. }
  unfold transformed. rewrite Hv.
  destruct (is_list v); [|exact Hst].
  rewrite dict_keys_set, dict_get_stamped_scores, Hv, app_nil_r. exact Hst.
Qed.

(** The entries under the other keys are those of the event, in their
    order. *)
Lemma other_entries_transformed :
  other_entries (transformed ts d) = other_entries d.
Proof.
  assert (Hst : other_entries (stamped ts d) = other_entries d).
  { unfold stamped. rewrite !other_entries_set by reflexivity. reflexivity. }
  unfold transformed.
  destruct (dict_get k_scores d) as [v|]; [|exact Hst].
  destruct (is_list v); [|exact Hst].
  rewrite other_entries_set by reflexivity. exact Hst.
Qed.
End Transformed.

Section Published.
Context `{FloatText}.
Variable w : world.
Variables (text : pystr) (d : dict) (v : json).
Hypothesis Hbroker : broker_reachable w.
Hypothesis Hfile : file_at w event_path = Readable text.
Hypothesis Hjson : json_loads (json_limits w) text = Scanned (JDict d).
Hypothesis Hscores : dict_get k_scores d = Some v.

(** The run on a well-formed event file. *)
Lemma run_wellformed :
  run w =
  (Ret tt,
   st_flushed w (json_dumps (JDict (transformed (main_timestamp w) d)))).
Proof.
  rewrite run_cases.
  apply probe_ok_reachable in Hbroker. rewrite Hbroker, Hfile, Hjson, Hscores.
  reflexivity.
Qed.

Lemma clock_reads_flushed (payload : pystr) :
  clock_reads (st_flushed w payload) = 1.
Proof. unfold st_flushed. destruct (delivery w); reflexivity. Qed.
End Published.

Section WellFormed.
Context `{FloatText}.
Variable w : world.
Variables (text : pystr) (d : dict) (v : json).

(** C3. On a well-formed event file, the three timestamp fields of the
    published event are the same string: the ISO-8601 text of the one
    reading of the UTC clock the run makes, followed by [Z]. *)
Theorem timestamps_are_one_instant :
  broker_reachable w ->
  file_at w event_path = Readable text ->
  json_loads (json_limits w) text = Scanned (JDict d) ->
  dict_get k_scores d = Some v ->
  exists d',
    published (trace (snd (run w))) = [json_dumps (JDict d')] /\
    dict_get k_receiving d' = Some (JStr (isoformat (utcnow w 0) ++ py "Z")) /\
    dict_get k_scoring d' = Some (JStr (isoformat (utcnow w 0) ++ py "Z")) /\
    dict_get k_delete d' = Some (JStr (isoformat (utcnow w 0) ++ py "Z")) /\
    clock_reads (snd (run w)) = 1.
Proof.
  intros Hb Hf Hj Hs.
  exists (transformed (main_timestamp w) d).
  rewrite (run_wellformed w text d v Hb Hf Hj Hs). cbn [snd].
  split; [apply published_flushed|].
  rewrite !dict_get_transformed by
    (intro E; symmetry in E; revert E;
     first [apply k_scores_receiving | apply k_scores_scoring
           | apply k_scores_delete]).
  rewrite dict_get_stamped_receiving, dict_get_stamped_scoring,
    dict_get_stamped_delete.
  repeat split. apply clock_reads_flushed.
Qed.

(** C4. On a well-formed event file, a [flattened_scores] that is a list is
    published as the string [json.dumps] makes of the list; any other
    value, a string in particular, is published as it was loaded. *)
Theorem flattened_scores_normalized :
  broker_reachable w ->
  file_at w event_path = Readable text ->
  json_loads (json_limits w) text = Scanned (JDict d) ->
  dict_get k_scores d = Some v ->
  exists d',
    published (trace (snd (run w))) = [json_dumps (JDict d')] /\
    (forall l, v = JList l ->
               dict_get k_scores d' = Some (JStr (json_dumps (JList l)))) /\
    (is_list v = false -> dict_get k_scores d' = Some v) /\
    (forall s, v = JStr s -> dict_get k_scores d' = Some (JStr s)).
Proof.
  intros Hb Hf Hj Hs.
  exists (transformed (main_timestamp w) d).
  rewrite (run_wellformed w text d v Hb Hf Hj Hs). cbn [snd].
  split; [apply published_flushed|].
  rewrite (dict_get_transformed_scores _ _ _ Hs).
  split; [intros l ->; reflexivity|].
  split; [intros ->; reflexivity | intros s ->; reflexivity].
Qed.

(** C7. On a well-formed event file, what is published is [json.dumps] of
    a dictionary whose entries under the keys other than the three
    timestamp keys and [flattened_scores] are those of the loaded event, in
    their order, so that it agrees with the event on every such key; its
    keys are those of the event in their order, followed by the timestamp
    keys the event did not have. *)
Theorem other_fields_unchanged :
  broker_reachable w ->
  file_at w event_path = Readable text ->
  json_loads (json_limits w) text = Scanned (JDict d) ->
  dict_get k_scores d = Some v ->
  exists d',
    published (trace (snd (run w))) = [json_dumps (JDict d')] /\
    other_entries d' = other_entries d /\
    (forall k,
       k <> k_receiving -> k <> k_scoring -> k <> k_delete -> k <> k_scores ->
       dict_get k d' = dict_get k d) /\
    dict_keys d' =
      dict_keys d ++
      (match dict_get k_receiving d with Some _ => [] | None => [k_receiving] end) ++
      (match dict_get k_scoring d with Some _ => [] | None => [k_scoring] end) ++
      (match dict_get k_delete d with Some _ => [] | None => [k_delete] end).
Proof.
  intros Hb Hf Hj Hs.
  exists (transformed (main_timestamp w) d).
  rewrite (run_wellformed w text d v Hb Hf Hj Hs). cbn [snd].
  split; [apply published_flushed|].
  split; [apply other_entries_transformed|].
  split.
  - intros k H1 H2 H3 H4. apply dict_get_transformed_other; assumption.
  - apply dict_keys_transformed with (v := v). exact Hs.
Qed.
End WellFormed.

Lemma example_reachable (file : file_state) (dl : delivery_outcome) :
  broker_reachable (example_world 2 file dl).
Proof. exists 2. split; [vm_compute; lia | reflexivity]. Defined.

Lemma timestamps_are_one_instant_witness :
  exists d',
    published
      (trace (snd (@run (example_world 2 (Readable example_text) Delivered)
                     literal_float_text))) =
    [@json_dumps literal_float_text (JDict d')] /\
    dict_get k_receiving d' = Some (JStr (isoformat example_now ++ py "Z")) /\
    dict_get k_scoring d' = Some (JStr (isoformat example_now ++ py "Z")) /\
    dict_get k_delete d' = Some (JStr (isoformat example_now ++ py "Z")) /\
    clock_reads (snd (@run (example_world 2 (Readable example_text) Delivered)
                       literal_float_text)) = 1.
Proof.
  apply (@timestamps_are_one_instant literal_float_text
           (example_world 2 (Readable example_text) Delivered)
           example_text example_event (JList [JInt 1; JInt 2; JInt 3])).
  - apply example_reachable.
  - reflexivity.
  - vm_compute; reflexivity.
  - reflexivity.
Defined.

Lemma flattened_scores_normalized_witness :
  exists d',
    published
      (trace (snd (@run (example_world 2 (Readable example_text) Delivered)
                     literal_float_text))) =
    [@json_dumps literal_float_text (JDict d')] /\
    dict_get k_scores d' = Some (JStr (py "[1, 2, 3]")).
Proof.
  destruct (@flattened_scores_normalized literal_float_text
              (example_world 2 (Readable example_text) Delivered)
              example_text example_event (JList [JInt 1; JInt 2; JInt 3]))
    as (d' & Hp & Hl & _).
  - apply example_reachable.
  - reflexivity.
  - vm_compute; reflexivity.
  - reflexivity.
  - exists d'. split; [exact Hp|].
    rewrite (Hl [JInt 1; JInt 2; JInt 3] eq_refl). reflexivity.
Defined.

Lemma other_fields_unchanged_witness :
  exists d',
    published
      (trace (snd (@run (example_world 2 (Readable example_text) Delivered)
                     literal_float_text))) =
    [@json_dumps literal_float_text (JDict d')] /\
    other_entries d' = [(py "device", JStr (py "cam-1"))] /\
    dict_get (py "device") d' = Some (JStr (py "cam-1")) /\
    dict_keys d' =
      [py "device"; k_scores; k_receiving; k_scoring; k_delete].
Proof.
  destruct (@other_fields_unchanged literal_float_text
              (example_world 2 (Readable example_text) Delivered)
              example_text example_event (JList [JInt 1; JInt 2; JInt 3]))
    as (d' & Hp & Hentries & Hother & Hkeys).
  - apply example_reachable.
  - reflexivity.
  - vm_compute; reflexivity.
  - reflexivity.
  - exists d'. split; [exact Hp|]. split; [rewrite Hentries; reflexivity|]. split.
    + rewrite Hother; [reflexivity | | | |]; key_neq.
    + rewrite Hkeys. reflexivity.
Defined.

Section ExitCode.
Context `{FloatText}.
Variable w : world.

(** The outcome of a run does not depend on what becomes of the message. *)
Lemma run_outcome_delivery (dl : delivery_outcome) :
  fst (run (with_delivery dl w)) = fst (run w).
Proof.
  rewrite !run_cases.
  change (probe_ok (with_delivery dl w)) with (probe_ok w).
  change (file_at (with_delivery dl w)) with (file_at w).
  change (json_limits (with_delivery dl w)) with (json_limits w).
  destruct (probe_ok w); [|reflexivity].
  destruct (file_at w event_path) as [|e|text]; try reflexivity.
  destruct (json_loads (json_limits w) text) as [v|[|n|k]];
    [| reflexivity ..].
  destruct v as [|b|z|lit|s|l|d]; try reflexivity.
  destruct (dict_get k_scores d); reflexivity.
Qed.

(** C6. The exit status is 0 when the broker answers and the event file
    holds an object with [flattened_scores]: the script then runs to its
    end.  It is 1 when every attempt of the probe fails, 1 when the event
    file is absent and 1 when its content is not valid JSON.  Whatever
    becomes of the message (not delivered before the flush times out,
    delivered, failed), the outcome and the exit status are the same. *)
Theorem exit_code_cases :
  (broker_reachable w ->
   forall text d v,
     file_at w event_path = Readable text ->
     json_loads (json_limits w) text = Scanned (JDict d) ->
     dict_get k_scores d = Some v ->
     fst (run w) = Ret tt /\ exit_code (fst (run w)) = 0%Z) /\
  ((forall k, k < Z.to_nat default_num_tries ->
              list_topics w (KAFKA_BROKER w) default_timeout k <> None) ->
   exit_code (fst (run w)) = 1%Z) /\
  (file_at w event_path = Absent -> exit_code (fst (run w)) = 1%Z) /\
  (forall text,
     file_at w event_path = Readable text ->
     json_loads (json_limits w) text = Stopped Malformed ->
     exit_code (fst (run w)) = 1%Z) /\
  (forall dl,
     fst (run (with_delivery dl w)) = fst (run w) /\
     exit_code (fst (run (with_delivery dl w))) = exit_code (fst (run w))).
Proof.
  split.
  { intros Hb text d v Hf Hj Hs.
    rewrite (run_wellformed w text d v Hb Hf Hj Hs). split; reflexivity. }
  split.
  { intros Hall. apply probe_ok_unreachable in Hall.
    rewrite run_cases, Hall. reflexivity. }
  split.
  { intros Hf. rewrite run_cases, Hf. destruct (probe_ok w); reflexivity. }
  split.
  { intros text Hf Hj. rewrite run_cases, Hf, Hj.
    destruct (probe_ok w); reflexivity. }
  intros dl. rewrite run_outcome_delivery. split; reflexivity.
Qed.
End ExitCode.

Lemma exit_code_cases_witness :
  exit_code (fst (@run (example_world 2 (Readable example_text)
                          (DeliveryFailed (py "timed out")))
                    literal_float_text)) = 0%Z /\
  exit_code (fst (@run (example_world 9 (Readable example_text) Delivered)
                    literal_float_text)) = 1%Z /\
  exit_code (fst (@run (example_world 0 Absent Delivered)
                    literal_float_text)) = 1%Z /\
  exit_code (fst (@run (example_world 0 (Readable (py "{")) Delivered)
                    literal_float_text)) = 1%Z.
Proof.
  split; [|split; [|split]].
  - apply (proj1 (@exit_code_cases literal_float_text
                    (example_world 2 (Readable example_text)
                       (DeliveryFailed (py "timed out")))))
      with (text := example_text) (d := example_event)
           (v := JList [JInt 1; JInt 2; JInt 3]).
    + apply example_reachable.
    + reflexivity.
    + vm_compute; reflexivity.
    + reflexivity.
  - apply (proj1 (proj2 (@exit_code_cases literal_float_text
                           (example_world 9 (Readable example_text) Delivered)))).
    intros k Hk. vm_compute in Hk.
    do 5 (destruct k as [|k]; [discriminate|]). lia.
  - apply (proj1 (proj2 (proj2 (@exit_code_cases literal_float_text
                                  (example_world 0 Absent Delivered))))).
    reflexivity.
  - apply (proj1 (proj2 (proj2 (proj2 (@exit_code_cases literal_float_text
             (example_world 0 (Readable (py "{")) Delivered))))))
      with (text := py "{"); [reflexivity | vm_compute; reflexivity].
Defined.

Section Presupposition.
Context `{FloatText}.
Variable w : world.

(** C10, as the code has it.  When the broker answers and the event file
    parses, a value that is neither [null] nor an object makes the first
    assignment raise [TypeError], and an object without [flattened_scores]
    makes the lookup raise [KeyError]; either exception is uncaught and
    comes right after the reading of the clock.  A file that parses to
    [null] is taken for unreadable event data: the failure is logged and
    the script exits with status 1. *)
Theorem transformer_presupposes_object (text : pystr) (v : json) :
  broker_reachable w ->
  file_at w event_path = Readable text ->
  json_loads (json_limits w) text = Scanned v ->
  (v <> JNull -> is_dict v = false ->
   fst (run w) = Raise {| exn_cls := TypeError; exn_str := py "item assignment" |} /\
   snd (run w) = tick (st_opened w)) /\
  (forall d, v = JDict d -> dict_get k_scores d = None ->
   fst (run w) = Raise {| exn_cls := KeyError; exn_str := k_scores |} /\
   snd (run w) = tick (st_opened w)) /\
  (v = JNull ->
   fst (run w) = SysExit 1 /\
   In (EvLog ERROR (py "Failed to read event data. Shutting down."))
      (trace (snd (run w)))).
Proof.
  intros Hb Hf Hj. apply probe_ok_reachable in Hb.
  rewrite run_cases, Hb, Hf, Hj.
  split; [|split].
  - intros Hnull Hdict.
    destruct v as [|b|z|lit|s|l|d]; try discriminate Hdict;
      try (split; reflexivity).
    contradiction Hnull; reflexivity.
  - intros d -> Hs. rewrite Hs. split; reflexivity.
  - intros ->. split; [reflexivity|].
    cbn [snd after_log trace]. apply in_or_app; right. left; reflexivity.
Qed.
End Presupposition.

Lemma transformer_presupposes_object_witness :
  fst (@run (example_world 0 (Readable (py "[1]")) Pending) literal_float_text) =
  Raise {| exn_cls := TypeError; exn_str := py "item assignment" |} /\
  fst (@run (example_world 0 (Readable (py "{}")) Pending) literal_float_text) =
  Raise {| exn_cls := KeyError; exn_str := k_scores |}.
Proof.
  split.
  - assert (Hb : broker_reachable (example_world 0 (Readable (py "[1]")) Pending))
      by (exists 0; split; [vm_compute; lia | reflexivity]).
    assert (Hj : json_loads default_limits (py "[1]") = Scanned (JList [JInt 1]))
      by (vm_compute; reflexivity).
    destruct (@transformer_presupposes_object literal_float_text
                (example_world 0 (Readable (py "[1]")) Pending)
                (py "[1]") (JList [JInt 1]) Hb eq_refl Hj) as (Ht & _ & _).
    apply Ht; [discriminate | reflexivity].
  - assert (Hb : broker_reachable (example_world 0 (Readable (py "{}")) Pending))
      by (exists 0; split; [vm_compute; lia | reflexivity]).
    assert (Hj : json_loads default_limits (py "{}") = Scanned (JDict []))
      by (vm_compute; reflexivity).
    destruct (@transformer_presupposes_object literal_float_text
                (example_world 0 (Readable (py "{}")) Pending)
                (py "{}") (JDict []) Hb eq_refl Hj) as (_ & Hk & _).
    apply (Hk [] eq_refl). reflexivity.
Defined.

(** An event file that holds [null] parses, to a value that is not an
    object; the run raises nothing and ends in the logged exit with
    status 1. *)
Lemma null_event_exits_with_1 :
  json_loads default_limits (py "null") = Scanned JNull /\
  is_dict JNull = false /\
  broker_reachable (example_world 0 (Readable (py "null")) Pending) /\
  fst (@run (example_world 0 (Readable (py "null")) Pending) literal_float_text)
  = SysExit 1 /\
  (forall e,
     fst (@run (example_world 0 (Readable (py "null")) Pending)
            literal_float_text) <> Raise e).
Proof.
  split; [vm_compute; reflexivity|]. split; [reflexivity|].
  split; [exists 0; split; [vm_compute; lia | reflexivity]|].
  assert (E : fst (@run (example_world 0 (Readable (py "null")) Pending)
                     literal_float_text) = SysExit 1)
    by (vm_compute; reflexivity).
  split; [exact E|]. intros e. rewrite E. discriminate.
Qed.

(** ** The loader *)

(** C2, as the code has it.  [read_event_from_file] returns [None]
    exactly when the file is absent, its content is not valid JSON, or its
    content is the JSON value [null]; the first two cases are logged, each
    with one [ERROR] record, the third is not.  When the content is valid
    JSON within the limits of the interpreter, it returns the parsed
    structure and logs nothing.  Nothing else is caught: a file that is
    there and cannot be read as text, an integer of more digits than the
    interpreter converts ([ValueError]) and nesting deeper than it can enter
    ([RecursionError]) raise out of the function, with nothing logged. *)
Theorem read_event_None_cases (w : world) (path : pystr) (st : state) :
  (fst (read_event_from_file w path st) = Ret JNull <->
   file_at w path = Absent \/
   (exists text, file_at w path = Readable text /\
                 json_loads (json_limits w) text = Stopped Malformed) \/
   (exists text, file_at w path = Readable text /\
                 json_loads (json_limits w) text = Scanned JNull)) /\
  (file_at w path = Absent ->
   read_event_from_file w path st =
   (Ret JNull,
    after_log ERROR (py "Event file not found: " ++ path)
      (emit [EvOpen path] st))) /\
  (forall text,
     file_at w path = Readable text ->
     json_loads (json_limits w) text = Stopped Malformed ->
     read_event_from_file w path st =
     (Ret JNull,
      after_log ERROR (py "Invalid JSON in event file: " ++ path)
        (emit [EvOpen path] st))) /\
  (forall text v,
     file_at w path = Readable text ->
     json_loads (json_limits w) text = Scanned v ->
     read_event_from_file w path st = (Ret v, emit [EvOpen path] st)) /\
  (forall e,
     file_at w path = Unreadable e ->
     read_event_from_file w path st =
     (Raise (file_error_exn path e), emit [EvOpen path] st)) /\
  (forall text e,
     file_at w path = Readable text ->
     json_loads (json_limits w) text = Stopped e -> e <> Malformed ->
     read_event_from_file w path st =
     (Raise (scan_error_exn (json_limits w) e), emit [EvOpen path] st) /\
     (exn_cls (scan_error_exn (json_limits w) e) = ValueError \/
      exn_cls (scan_error_exn (json_limits w) e) = RecursionError)).
Proof.
  rewrite read_event_run.
  split.
  { destruct (file_at w path) as [|e|text] eqn:Hf.
    - split; [intros _; left; reflexivity | reflexivity].
    - split; [discriminate|].
      intros [Ha|[(t & Ht & _)|(t & Ht & _)]]; discriminate.
    - destruct (json_loads (json_limits w) text) as [v|[|n|k]] eqn:Hj;
        cbn [fst].
      + split.
        * intros E. inversion E; subst v. right; right.
          exists text. split; reflexivity || exact Hj.
        * intros [Ha|[(t & Ht & Hn)|(t & Ht & Hn)]].
          -- discriminate Ha.
          -- inversion Ht; subst t. congruence.
          -- inversion Ht; subst t. congruence.
      + split; [|reflexivity]. intros _. right; left.
        exists text. split; reflexivity || exact Hj.
      + split; [discriminate|].
        intros [Ha|[(t & Ht & Hn)|(t & Ht & Hn)]];
          [discriminate Ha | inversion Ht; subst t; congruence ..].
      + split; [discriminate|].
        intros [Ha|[(t & Ht & Hn)|(t & Ht & Hn)]];
          [discriminate Ha | inversion Ht; subst t; congruence ..]. }
  split; [intros ->; reflexivity|].
  split; [intros text -> ->; reflexivity|].
  split; [intros text v -> ->; reflexivity|].
  split; [intros e ->; reflexivity|].
  intros text e -> -> He.
  destruct e as [|n|k]; [contradiction He; reflexivity | |].
  - split; [reflexivity | left; reflexivity].
  - split; [reflexivity | right; destruct k; reflexivity].
Qed.

Lemma read_event_None_cases_witness :
  read_event_from_file (example_world 0 (Readable example_text) Pending)
    event_path initial_state =
  (Ret (JDict example_event), emit [EvOpen event_path] initial_state) /\
  read_event_from_file (example_world 0 (Unreadable IsADirectory) Pending)
    event_path initial_state =
  (Raise {| exn_cls := IsADirectoryError; exn_str := event_path |},
   emit [EvOpen event_path] initial_state) /\
  fst (read_event_from_file (example_world 0 (Readable (py "[[")) Pending)
         event_path initial_state) = Ret JNull.
Proof.
  split; [|split].
  - destruct (read_event_None_cases
                (example_world 0 (Readable example_text) Pending)
                event_path initial_state)
      as (_ & _ & _ & Hparsed & _).
    apply (Hparsed example_text (JDict example_event)).
    + reflexivity.
    + vm_compute; reflexivity.
  - destruct (read_event_None_cases
                (example_world 0 (Unreadable IsADirectory) Pending)
                event_path initial_state)
      as (_ & _ & _ & _ & Hraise & _).
    apply (Hraise IsADirectory). reflexivity.
  - destruct (read_event_None_cases
                (example_world 0 (Readable (py "[[")) Pending)
                event_path initial_state)
      as (_ & _ & Hinvalid & _).
    rewrite (Hinvalid (py "[[")).
    + reflexivity.
    + reflexivity.
    + vm_compute; reflexivity.
Defined.

(** A file that is there and holds the valid JSON text [null]: the loader
    returns [None], and logs nothing.  A file that is there and may not be
    read, a file that holds an integer of 4301 digits and a file that holds
    994 arrays one inside another, under the default limits: the loader
    raises. *)
Lemma read_event_null_is_None :
  (file_at (example_world 0 (Readable (py "null")) Pending) event_path =
   Readable (py "null") /\
   json_loads default_limits (py "null") = Scanned JNull /\
   read_event_from_file (example_world 0 (Readable (py "null")) Pending)
     event_path initial_state =
   (Ret JNull, emit [EvOpen event_path] initial_state)) /\
  read_event_from_file (example_world 0 (Unreadable PermissionDenied) Pending)
    event_path initial_state =
  (Raise {| exn_cls := PermissionError; exn_str := event_path |},
   emit [EvOpen event_path] initial_state) /\
  (json_loads default_limits long_integer_text = Stopped (TooManyDigits 4301) /\
   read_event_from_file (example_world 0 (Readable long_integer_text) Pending)
     event_path initial_state =
   (Raise (scan_error_exn default_limits (TooManyDigits 4301)),
    emit [EvOpen event_path] initial_state) /\
   exn_cls (scan_error_exn default_limits (TooManyDigits 4301)) = ValueError) /\
  (json_loads default_limits deep_array_text = Stopped (TooDeep Array) /\
   read_event_from_file (example_world 0 (Readable deep_array_text) Pending)
     event_path initial_state =
   (Raise (scan_error_exn default_limits (TooDeep Array)),
    emit [EvOpen event_path] initial_state) /\
   exn_cls (scan_error_exn default_limits (TooDeep Array)) = RecursionError).
Proof.
  split; [split; [|split]|split; [|split; split; [|split| |split]]];
    vm_compute; reflexivity.
Qed.

(** ** Where the log lines go *)

Lemma sinks_of_app (a b : list event) :
  sinks_of (a ++ b) = sinks_of a ++ sinks_of b.
Proof. unfold sinks_of. apply flat_map_app. Qed.

Lemma sinks_of_log (rl : level) (hs : list handler) (l : level) (msg : pystr) :
  incl (sinks_of (log_events rl hs l msg)) (map h_sink hs).
Proof.
  unfold log_events, sinks_of. cbn [flat_map app].
  destruct (levelno rl <=? levelno l)%Z; [|intros x []].
  induction hs as [|h hs IH]; cbn [filter map]; [intros x []|].
  destruct (handles h l); cbn [map flat_map app].
  - intros x [Hx|Hx]; [left; exact Hx | right; exact (IH x Hx)].
  - intros x Hx. right. exact (IH x Hx).
Qed.

Lemma sinks_of_probe (f : nat -> option exn) (servers : pystr) (timeout : Z)
  (rl : level) (hs : list handler) (n : nat) : forall start,
  incl (sinks_of (probe_events f servers timeout rl hs start n)) (map h_sink hs).
Proof.
  induction n as [|n IH]; intros start; cbn [probe_events].
  - apply sinks_of_log.
  - change (sinks_of (EvListTopics servers timeout :: ?x)) with (sinks_of x).
    destruct (f start) as [e|]; [|intros x []].
    rewrite sinks_of_app. apply incl_app; [apply sinks_of_log|].
    change (sinks_of (EvSleep 5 :: ?x)) with (sinks_of x). apply IH.
Qed.

Lemma logs_to_after_log (dst : list sink) (l : level) (msg : pystr) (st : state) :
  logs_to dst st -> logs_to dst (after_log l msg st).
Proof.
  intros (Hne & Hh & Ht). unfold logs_to, after_log; cbn [handlers trace].
  destruct (handlers st) as [|h hs] eqn:E; [contradiction Hne; reflexivity|].
  cbn [effective_handlers]. split; [discriminate|]. split; [exact Hh|].
  rewrite sinks_of_app. apply incl_app; [exact Ht|].
  eapply incl_tran; [apply sinks_of_log | exact Hh].
Qed.

Lemma logs_to_emit (dst : list sink) (evs : list event) (st : state) :
  sinks_of evs = [] -> logs_to dst st -> logs_to dst (emit evs st).
Proof.
  intros He (Hne & Hh & Ht). unfold logs_to, emit; cbn [handlers trace].
  split; [exact Hne|]. split; [exact Hh|].
  rewrite sinks_of_app, He, app_nil_r. exact Ht.
Qed.

Lemma logs_to_tick (dst : list sink) (st : state) :
  logs_to dst st -> logs_to dst (tick st).
Proof.
  intros (Hne & Hh & Ht). unfold logs_to, tick; cbn [handlers trace].
  split; [exact Hne|]. split; [exact Hh|].
  rewrite sinks_of_app, app_nil_r. exact Ht.
Qed.

Lemma logs_to_probe_state (w : world) :
  logs_to [ToFile (CKN_LOG_FILE w); ToStream Stderr] (probe_state w).
Proof.
  unfold logs_to, probe_state; cbn [handlers trace].
  split; [discriminate|]. split; [apply incl_refl|].
  rewrite sinks_of_app.
  apply incl_app; [apply sinks_of_log | apply sinks_of_probe].
Qed.

Section Sinks.
Context `{FloatText}.
Variable w : world.

Lemma logs_to_run :
  logs_to [ToFile (CKN_LOG_FILE w); ToStream Stderr] (snd (run w)).
Proof.
  pose proof (logs_to_probe_state w) as Hp.
  assert (Ho : logs_to [ToFile (CKN_LOG_FILE w); ToStream Stderr] (st_opened w)).
  { apply logs_to_emit; [reflexivity|]. apply logs_to_after_log. exact Hp. }
  rewrite run_cases. destruct (probe_ok w); cbn [snd].
  - destruct (file_at w event_path) as [|e|text]; cbn [snd];
      [do 2 apply logs_to_after_log; exact Ho | exact Ho |].
    destruct (json_loads (json_limits w) text) as [v|[|n|k]]; cbn [snd];
      [|do 2 apply logs_to_after_log; exact Ho | exact Ho ..].
    destruct v as [|b|z|lit|s|l|d]; cbn [snd];
      try (apply logs_to_tick; exact Ho);
      try (apply logs_to_after_log; exact Ho).
    destruct (dict_get k_scores d); cbn [snd];
      [|apply logs_to_tick; exact Ho].
    unfold st_flushed.
    destruct (delivery w); try apply logs_to_after_log;
      (apply logs_to_emit; [reflexivity|]; apply logs_to_tick; exact Ho).
  - apply logs_to_after_log. exact Hp.
Qed.

(** C9, what the code does.  [setup_logging] installs a file handler and
    a console handler, both at level [INFO]; the console handler is a
    [StreamHandler()], whose stream is the standard error.  The first line
    of a run goes to the log file and to the standard error, and no line
    of any run goes to the standard output. *)
Theorem console_handler_writes_to_stderr :
  setup_logging w initial_state =
    (Ret tt,
     {| root_level := DEBUG;
        handlers := [file_handler w; console_handler];
        attempts := 0; clock_reads := 0; trace := [] |}) /\
  h_sink (file_handler w) = ToFile (CKN_LOG_FILE w) /\
  h_level (file_handler w) = Some INFO /\
  h_sink console_handler = ToStream Stderr /\
  h_level console_handler = Some INFO /\
  (exists post,
     trace (snd (run w)) =
     EvLog INFO (py "Connecting to the CKN broker at " ++ KAFKA_BROKER w) ::
     EvEmit (ToFile (CKN_LOG_FILE w)) INFO
       (py "Connecting to the CKN broker at " ++ KAFKA_BROKER w) ::
     EvEmit (ToStream Stderr) INFO
       (py "Connecting to the CKN broker at " ++ KAFKA_BROKER w) :: post) /\
  (forall l msg, ~ In (EvEmit (ToStream Stdout) l msg) (trace (snd (run w)))).
Proof.
  split; [reflexivity|]. do 4 (split; [reflexivity|]).
  split.
  - assert (Hp : exists post,
              trace (probe_state w) =
              EvLog INFO (py "Connecting to the CKN broker at " ++ KAFKA_BROKER w) ::
              EvEmit (ToFile (CKN_LOG_FILE w)) INFO
                (py "Connecting to the CKN broker at " ++ KAFKA_BROKER w) ::
              EvEmit (ToStream Stderr) INFO
                (py "Connecting to the CKN broker at " ++ KAFKA_BROKER w) :: post).
    { eexists. unfold probe_state; cbn [trace]. reflexivity. }
    destruct Hp as [post Hp].
    destruct (probe_ok w) eqn:Hok.
    + destruct (run_trace_reachable w Hok) as [post' Hpost].
      rewrite Hpost. unfold st_opened, st_connected, emit, after_log;
        cbn [trace]. rewrite Hp. eexists. cbn [app]. reflexivity.
    + rewrite run_cases, Hok. cbn [snd after_log trace]. rewrite Hp.
      eexists. cbn [app]. reflexivity.
  - intros l msg Hin.
    destruct logs_to_run as (_ & _ & Hs).
    assert (Hsink : In (ToStream Stdout) (sinks_of (trace (snd (run w))))).
    { unfold sinks_of. apply in_flat_map.
      exists (EvEmit (ToStream Stdout) l msg). split; [exact Hin | left; reflexivity]. }
    apply Hs in Hsink. destruct Hsink as [E|[E|[]]]; discriminate E.
Qed.
End Sinks.

Lemma no_read_without_broker_witness :
  fst (@run (example_world 9 (Readable example_text) Delivered)
         literal_float_text) = SysExit 1 /\
  exit_code (fst (@run (example_world 9 (Readable example_text) Delivered)
                    literal_float_text)) = 1%Z /\
  no_open (trace (snd (@run (example_world 9 (Readable example_text) Delivered)
                         literal_float_text))).
Proof.
  apply (proj1 (@no_read_without_broker literal_float_text
                  (example_world 9 (Readable example_text) Delivered))).
  intros k Hk. vm_compute in Hk.
  do 5 (destruct k as [|k]; [discriminate|]). lia.
Defined.

(** ** A run, end to end *)

(** The broker refuses two attempts and answers the third; the event of
    [example_text] is stamped, its scores become a string, and the message
    is delivered. *)
Example example_run_payload :
  published
    (trace (snd (@run (example_world 2 (Readable example_text) Delivered)
                   literal_float_text))) =
  [py "{" ++ quoted "device" ++ py ": " ++ quoted "cam-1" ++ py ", " ++
   quoted "flattened_scores" ++ py ": " ++ quoted "[1, 2, 3]" ++ py ", " ++
   quoted "image_receiving_timestamp" ++ py ": " ++
   quoted "2024-03-09T07:05:00.001234Z" ++ py ", " ++
   quoted "image_scoring_timestamp" ++ py ": " ++
   quoted "2024-03-09T07:05:00.001234Z" ++ py ", " ++
   quoted "image_store_delete_time" ++ py ": " ++
   quoted "2024-03-09T07:05:00.001234Z" ++ py "}"].
Proof. vm_compute. reflexivity. Qed.

(** The published text parses back to the stamped event. *)
Example example_run_payload_parses :
  map (json_loads default_limits)
    (published
       (trace (snd (@run (example_world 2 (Readable example_text) Delivered)
                      literal_float_text)))) =
  [Scanned (JDict
     [(py "device", JStr (py "cam-1"));
      (py "flattened_scores", JStr (py "[1, 2, 3]"));
      (py "image_receiving_timestamp", JStr (py "2024-03-09T07:05:00.001234Z"));
      (py "image_scoring_timestamp", JStr (py "2024-03-09T07:05:00.001234Z"));
      (py "image_store_delete_time", JStr (py "2024-03-09T07:05:00.001234Z"))])].
Proof. vm_compute. reflexivity. Qed.

Example example_run_attempts :
  attempts (snd (@run (example_world 2 (Readable example_text) Delivered)
                   literal_float_text)) = 3 /\
  total_sleep (trace (snd (@run (example_world 2 (Readable example_text)
                                   Delivered) literal_float_text))) = 10%Z.
Proof. vm_compute. split; reflexivity. Qed.

(** * Further properties *)

(** ** The probe: bounds and frame *)

Lemma attempt_count_app (a b : list event) :
  attempt_count (a ++ b) = attempt_count a + attempt_count b.
Proof. unfold attempt_count. rewrite filter_app, length_app. reflexivity. Qed.

Lemma attempt_count_log (rl : level) (hs : list handler) (l : level) (msg : pystr) :
  attempt_count (log_events rl hs l msg) = 0.
Proof.
  unfold log_events, attempt_count. cbn [filter].
  destruct (levelno rl <=? levelno l)%Z; [|reflexivity].
  induction (filter _ hs) as [|h t IH]; [reflexivity | exact IH].
Qed.

Lemma attempt_count_probe (f : nat -> option exn) (servers : pystr) (timeout : Z)
  (rl : level) (hs : list handler) (n : nat) : forall start,
  attempt_count (probe_events f servers timeout rl hs start n) =
  probe_attempts f start n.
Proof.
  induction n as [|n IH]; intros start; cbn [probe_events].
  - rewrite attempt_count_log. reflexivity.
  - change (attempt_count (EvListTopics servers timeout :: ?x))
      with (S (attempt_count x)).
    destruct (f start) as [e|] eqn:E.
    + rewrite (probe_attempts_fail f start n e E).
      rewrite attempt_count_app, attempt_count_log.
      change (attempt_count (EvSleep 5 :: ?x)) with (attempt_count x).
      rewrite IH. reflexivity.
    + unfold probe_attempts. cbn [first_success]. rewrite E.
      replace (S start - start) with 1 by lia. reflexivity.
Qed.

Lemma probe_attempts_le (f : nat -> option exn) (start n : nat) :
  probe_attempts f start n <= n.
Proof.
  unfold probe_attempts.
  destruct (first_success f start n) as [k|] eqn:Ek; [|lia].
  apply first_success_range in Ek. lia.
Qed.

Lemma failed_attempts_le (f : nat -> option exn) (start n : nat) :
  failed_attempts f start n <= n.
Proof.
  unfold failed_attempts.
  destruct (first_success f start n) as [k|] eqn:Ek; [|lia].
  apply first_success_range in Ek. lia.
Qed.

Lemma In_probe_events (f : nat -> option exn) (servers : pystr) (timeout : Z)
  (rl : level) (hs : list handler) (n : nat) : forall start s t,
  In (EvListTopics s t) (probe_events f servers timeout rl hs start n) ->
  s = servers /\ t = timeout.
Proof.
  induction n as [|n IH]; intros start s t Hin; cbn [probe_events] in Hin.
  - apply In_log_events in Hin as [Hin|(h & _ & Hin)]; discriminate.
  - destruct Hin as [Hin|Hin]; [inversion Hin; split; reflexivity|].
    destruct (f start) as [e|]; [|destruct Hin].
    apply in_app_or in Hin as [Hin|[Hin|Hin]].
    + apply In_log_events in Hin as [Hin|(h & _ & Hin)]; discriminate.
    + discriminate.
    + exact (IH _ _ _ Hin).
Qed.

(** X1.  The probe makes at most [num_tries] attempts, each against the given
    servers with the given timeout, and sleeps at most five seconds per
    try; it reads no clock, opens no file and publishes nothing. *)
Theorem probe_bounds (w : world) (servers : pystr) (timeout num_tries : Z)
  (st : state) :
  exists b st' evs,
    test_ckn_broker_connection w servers timeout num_tries st = (Ret b, st') /\
    trace st' = trace st ++ evs /\
    attempts st' = attempts st + attempt_count evs /\
    attempt_count evs <= Z.to_nat num_tries /\
    (forall s t, In (EvListTopics s t) evs -> s = servers /\ t = timeout) /\
    (0 <= total_sleep evs <= 5 * Z.of_nat (Z.to_nat num_tries))%Z /\
    clock_reads st' = clock_reads st /\
    no_open evs /\
    published evs = [].
Proof.
  eexists; eexists; eexists. split; [apply probe_run|].
  cbn [trace attempts clock_reads]. split; [reflexivity|].
  rewrite attempt_count_probe, total_sleep_probe.
  split; [reflexivity|]. split; [apply probe_attempts_le|].
  split; [intros s t; apply In_probe_events|].
  split.
  { pose proof (failed_attempts_le (list_topics w servers timeout)
                  (attempts st) (Z.to_nat num_tries)). lia. }
  split; [reflexivity|]. split; [apply no_open_probe | apply published_probe].
Qed.

(** X2.  Without a try to make ([num_tries] zero or negative) the probe contacts
    nobody: it logs that it could not connect and returns [False]. *)
Theorem probe_without_tries (w : world) (servers : pystr)
  (timeout num_tries : Z) (st : state) :
  (num_tries <= 0)%Z ->
  test_ckn_broker_connection w servers timeout num_tries st =
  (Ret false,
   after_log ERROR (py "Could not connect to the CKN broker...") st).
Proof.
  intros Hn. rewrite probe_run.
  replace (Z.to_nat num_tries) with 0 by lia.
  cbn [first_success probe_logs probe_events]. unfold probe_attempts, after_log.
  cbn [first_success]. rewrite Nat.add_0_r. reflexivity.
Qed.

Lemma probe_without_tries_witness :
  test_ckn_broker_connection (example_world 0 Absent Pending)
    (py "broker:29092") 10 (-3) initial_state =
  (Ret false,
   after_log ERROR (py "Could not connect to the CKN broker...") initial_state).
Proof.
  apply (probe_without_tries (example_world 0 Absent Pending)
           (py "broker:29092") 10 (-3) initial_state).
  lia.
Defined.

(** ** The trace of a run *)

Section RunTrace.
Context `{FloatText}.
Variable w : world.

(** The trace of a run: what the probe leaves, then [tail_events]. *)
Lemma run_trace :
  trace (snd (run w)) = trace (probe_state w) ++ tail_events w.
Proof.
  rewrite run_cases. unfold tail_events, main_log.
  destruct (probe_ok w); [|reflexivity].
  assert (Ho : trace (st_opened w) =
               trace (probe_state w) ++
               log_events DEBUG (main_handlers w) INFO
                 (py "Successfully connected to the CKN broker at " ++
                  KAFKA_BROKER w) ++ [EvOpen event_path]).
  { unfold st_opened, st_connected, emit, after_log; cbn [trace].
    rewrite <- app_assoc. reflexivity. }
  assert (Hl : forall l msg,
             trace (after_log l msg (st_opened w)) =
             trace (st_opened w) ++ log_events DEBUG (main_handlers w) l msg)
    by reflexivity.
  assert (Hl2 : forall l msg l' msg',
             trace (after_log l' msg' (after_log l msg (st_opened w))) =
             trace (st_opened w) ++ log_events DEBUG (main_handlers w) l msg ++
             log_events DEBUG (main_handlers w) l' msg').
  { intros. unfold after_log at 1. cbn [trace]. rewrite Hl, <- app_assoc.
    reflexivity. }
  destruct (file_at w event_path) as [|e|text]; cbn [snd].
  - rewrite Hl2, Ho, <- !app_assoc. reflexivity.
  - rewrite Ho. reflexivity.
  - destruct (json_loads (json_limits w) text) as [v|[|n|k]]; cbn [snd];
      [| | rewrite Ho; reflexivity ..].
    + destruct v as [|b|z|lit|s|l|d]; cbn [snd];
        try (rewrite Hl, Ho, <- !app_assoc; reflexivity);
        try (unfold tick; cbn [trace]; rewrite Ho, <- !app_assoc; reflexivity).
      destruct (dict_get k_scores d); cbn [snd].
      * unfold st_flushed, delivery_events, main_log.
        destruct (delivery w); unfold after_log, emit, tick; cbn [trace];
          rewrite Ho, <- !app_assoc; reflexivity.
      * unfold tick; cbn [trace]; rewrite Ho, <- !app_assoc; reflexivity.
    + rewrite Hl2, Ho, <- !app_assoc. reflexivity.
Qed.
End RunTrace.

(** What a projection of the trace that ignores logging finds in the events
    of a logging call and of the probe. *)
Lemma flat_map_log (A : Type) (g : event -> list A) (rl : level)
  (hs : list handler) (l : level) (msg : pystr) :
  (forall l m, g (EvLog l m) = []) ->
  (forall s l m, g (EvEmit s l m) = []) ->
  flat_map g (log_events rl hs l msg) = [].
Proof.
  intros Hlog Hemit. unfold log_events. cbn [flat_map]. rewrite Hlog. cbn [app].
  destruct (levelno rl <=? levelno l)%Z; [|reflexivity].
  induction (filter _ hs) as [|h t IH]; [reflexivity|].
  cbn [map flat_map]. rewrite Hemit. exact IH.
Qed.

Lemma flat_map_probe (A : Type) (g : event -> list A) (f : nat -> option exn)
  (servers : pystr) (timeout : Z) (rl : level) (hs : list handler) (n : nat) :
  (forall l m, g (EvLog l m) = []) ->
  (forall s l m, g (EvEmit s l m) = []) ->
  (forall s t, g (EvListTopics s t) = []) ->
  (forall s, g (EvSleep s) = []) ->
  forall start, flat_map g (probe_events f servers timeout rl hs start n) = [].
Proof.
  intros Hlog Hemit Hlist Hsleep.
  induction n as [|n IH]; intros start; cbn [probe_events].
  - apply flat_map_log; assumption.
  - cbn [flat_map]. rewrite Hlist. cbn [app].
    destruct (f start) as [e|]; [|reflexivity].
    rewrite flat_map_app, flat_map_log by assumption.
    cbn [flat_map app]. rewrite Hsleep. apply IH.
Qed.

Lemma flat_map_probe_state (A : Type) (g : event -> list A) (w : world) :
  (forall l m, g (EvLog l m) = []) ->
  (forall s l m, g (EvEmit s l m) = []) ->
  (forall s t, g (EvListTopics s t) = []) ->
  (forall s, g (EvSleep s) = []) ->
  flat_map g (trace (probe_state w)) = [].
Proof.
  intros Hlog Hemit Hlist Hsleep. unfold probe_state; cbn [trace].
  rewrite flat_map_app, flat_map_log, flat_map_probe by assumption. reflexivity.
Qed.

Section ExitAndPublication.
Context `{FloatText}.
Variable w : world.

Lemma flat_map_delivery (A : Type) (g : event -> list A) :
  (forall l m, g (EvLog l m) = []) ->
  (forall s l m, g (EvEmit s l m) = []) ->
  flat_map g (delivery_events w) = [].
Proof.
  intros Hlog Hemit. unfold delivery_events, main_log.
  destruct (delivery w); [reflexivity | |]; apply flat_map_log; assumption.
Qed.

(** X3.  The exit status is 0 or 1.  It is 0 exactly when the script runs to
    its end, and then exactly one message has been handed to the producer,
    followed by one [flush] with a timeout of 1; on every other path
    nothing is produced and [flush] is not called. *)
Theorem exit_status_and_publication :
  (exit_code (fst (run w)) = 0%Z \/ exit_code (fst (run w)) = 1%Z) /\
  (exit_code (fst (run w)) = 0%Z <-> fst (run w) = Ret tt) /\
  (fst (run w) = Ret tt ->
   exists payload pre post,
     published (trace (snd (run w))) = [payload] /\
     flushes (trace (snd (run w))) = [1%Z] /\
     trace (snd (run w)) =
       pre ++ EvProduce (KAFKA_BROKER w) (KAFKA_TOPIC w) payload ::
       EvFlush 1 :: post) /\
  (fst (run w) <> Ret tt ->
   published (trace (snd (run w))) = [] /\
   flushes (trace (snd (run w))) = []).
Proof.
  assert (Hp : published (trace (probe_state w)) = [])
    by (apply flat_map_probe_state; reflexivity).
  assert (Hf : flushes (trace (probe_state w)) = [])
    by (apply flat_map_probe_state; reflexivity).
  assert (Hlp : forall l m, published (main_log w l m) = [])
    by (intros; apply flat_map_log; reflexivity).
  assert (Hlf : forall l m, flushes (main_log w l m) = [])
    by (intros; apply flat_map_log; reflexivity).
  assert (Hdp : published (delivery_events w) = [])
    by (apply flat_map_delivery; reflexivity).
  assert (Hdf : flushes (delivery_events w) = [])
    by (apply flat_map_delivery; reflexivity).
  rewrite run_trace. unfold published, flushes in *.
  rewrite !flat_map_app, Hp, Hf. cbn [app].
  rewrite run_cases. unfold tail_events.
  destruct (probe_ok w); cbn [fst exit_code].
  2:{ split; [right; reflexivity|]. split; [split; discriminate|].
      split; [discriminate|]. intros _. rewrite Hlp, Hlf. split; reflexivity. }
  rewrite !flat_map_app, Hlp, Hlf. cbn [app flat_map].
  destruct (file_at w event_path) as [|e|text]; cbn [fst exit_code].
  - split; [right; reflexivity|]. split; [split; discriminate|].
    split; [discriminate|]. intros _.
    rewrite !flat_map_app, !Hlp, !Hlf. split; reflexivity.
  - split; [right; reflexivity|]. split; [split; discriminate|].
    split; [discriminate|]. intros _. split; reflexivity.
  - destruct (json_loads (json_limits w) text) as [v|[|n|k]];
      cbn [fst exit_code].
    2:{ split; [right; reflexivity|]. split; [split; discriminate|].
        split; [discriminate|]. intros _.
        rewrite !flat_map_app, !Hlp, !Hlf. split; reflexivity. }
    2,3: (split; [right; reflexivity|]; split; [split; discriminate|];
          split; [discriminate|]; intros _; split; reflexivity).
    destruct v as [|b|z|lit|s|l|d]; cbn [fst exit_code];
      try (split; [right; reflexivity|]; split; [split; discriminate|];
           split; [discriminate|]; intros _;
           rewrite ?Hlp, ?Hlf; split; reflexivity).
    destruct (dict_get k_scores d); cbn [fst exit_code].
    + split; [left; reflexivity|]. split; [split; reflexivity|].
      split; [|intros Hne; contradiction Hne; reflexivity].
      intros _. eexists; eexists; eexists.
      cbn [flat_map app]. rewrite Hdp, Hdf.
      split; [reflexivity|]. split; [reflexivity|].
      rewrite app_assoc.
      change (EvOpen event_path :: EvUtcnow :: ?x)
        with ([EvOpen event_path; EvUtcnow] ++ x).
      rewrite app_assoc. reflexivity.
    + split; [right; reflexivity|]. split; [split; discriminate|].
      split; [discriminate|]. intros _. split; reflexivity.
Qed.
End ExitAndPublication.

(** ** The kinds of events in a run *)


Section Kinds.
Context `{FloatText}.
Variable w : world.



End Kinds.

(** ** Where the records go *)

Lemma log_records_app (a b : list event) :
  log_records (a ++ b) = log_records a ++ log_records b.
Proof. unfold log_records. apply flat_map_app. Qed.

Lemma written_to_app (s : sink) (a b : list event) :
  written_to s (a ++ b) = written_to s a ++ written_to s b.
Proof. unfold written_to. apply flat_map_app. Qed.

(** The handlers of [setup_logging] take every level but [DEBUG]. *)
Lemma main_log_events (w : world) (l : level) (msg : pystr) :
  main_log w l msg =
  EvLog l msg ::
  match l with
  | DEBUG => []
  | _ => [EvEmit (ToFile (CKN_LOG_FILE w)) l msg; EvEmit (ToStream Stderr) l msg]
  end.
Proof. destruct l; reflexivity. Qed.

Lemma sink_eqb_file (p : pystr) : sink_eqb (ToFile p) (ToFile p) = true.
Proof. apply pystr_eqb_refl. Qed.

Lemma main_log_sinks (w : world) (l : level) (msg : pystr) :
  l <> DEBUG ->
  log_records (main_log w l msg) = [(l, msg)] /\
  written_to (ToFile (CKN_LOG_FILE w)) (main_log w l msg) = [(l, msg)] /\
  written_to (ToStream Stderr) (main_log w l msg) = [(l, msg)].
Proof.
  intros Hl. rewrite main_log_events.
  destruct l; try (contradiction Hl; reflexivity);
    unfold log_records, written_to; cbn [flat_map app sink_eqb];
    rewrite pystr_eqb_refl; repeat split.
Qed.

Lemma synced_app (w : world) (a b : list event) :
  synced w a -> synced w b -> synced w (a ++ b).
Proof.
  intros (Ha1 & Ha2 & Ha3) (Hb1 & Hb2 & Hb3). unfold synced.
  rewrite !written_to_app, !log_records_app, Ha1, Ha2, Hb1, Hb2.
  repeat split. apply Forall_app. split; assumption.
Qed.

Lemma synced_main_log (w : world) (l : level) (msg : pystr) :
  l = INFO \/ l = ERROR -> synced w (main_log w l msg).
Proof.
  intros Hl.
  assert (Hd : l <> DEBUG) by (destruct Hl as [-> | ->]; discriminate).
  destruct (main_log_sinks w l msg Hd) as (H1 & H2 & H3).
  unfold synced. rewrite H1, H2, H3. repeat split.
  constructor; [exact Hl | constructor].
Qed.

Lemma synced_silent (w : world) (e : event) (tr : list event) :
  log_records [e] = [] -> written_to (ToFile (CKN_LOG_FILE w)) [e] = [] ->
  written_to (ToStream Stderr) [e] = [] ->
  synced w tr -> synced w (e :: tr).
Proof.
  intros H1 H2 H3 Htr. change (e :: tr) with ([e] ++ tr).
  apply synced_app; [|exact Htr].
  unfold synced. rewrite H1, H2, H3. repeat split. constructor.
Qed.

Lemma synced_nil (w : world) : synced w [].
Proof. unfold synced. repeat split. constructor. Qed.

Lemma synced_probe (w : world) (f : nat -> option exn) (servers : pystr)
  (timeout : Z) (n : nat) : forall start,
  synced w (probe_events f servers timeout DEBUG (main_handlers w) start n).
Proof.
  induction n as [|n IH]; intros start; cbn [probe_events].
  - apply (synced_main_log w ERROR). right; reflexivity.
  - apply synced_silent; try reflexivity.
    destruct (f start) as [e|]; [|apply synced_nil].
    apply synced_app; [apply (synced_main_log w INFO); left; reflexivity|].
    apply synced_silent; try reflexivity. apply IH.
Qed.

Section BothSinks.
Context `{FloatText}.
Variable w : world.

(** X5.  In every run, the log file and the standard error receive the same
    records, in the same order: all the records the script logs, each of
    them at [INFO] or [ERROR]. *)
Theorem every_record_reaches_both_sinks :
  written_to (ToFile (CKN_LOG_FILE w)) (trace (snd (run w))) =
    log_records (trace (snd (run w))) /\
  written_to (ToStream Stderr) (trace (snd (run w))) =
    log_records (trace (snd (run w))) /\
  Forall (fun r => fst r = INFO \/ fst r = ERROR)
    (log_records (trace (snd (run w)))).
Proof.
  change (synced w (trace (snd (run w)))).
  assert (Hi : forall msg, synced w (main_log w INFO msg))
    by (intros; apply synced_main_log; left; reflexivity).
  assert (He : forall msg, synced w (main_log w ERROR msg))
    by (intros; apply synced_main_log; right; reflexivity).
  rewrite run_trace. apply synced_app.
  - unfold probe_state; cbn [trace].
    apply synced_app; [apply Hi | apply synced_probe].
  - unfold tail_events. destruct (probe_ok w); [|apply He].
    apply synced_app; [apply Hi|].
    apply synced_silent; try reflexivity.
    destruct (file_at w event_path) as [|e|text].
    + apply synced_app; apply He.
    + apply synced_nil.
    + destruct (json_loads (json_limits w) text) as [v|[|n|k]];
        [|apply synced_app; apply He | apply synced_nil ..].
      destruct v as [|b|z|lit|s|l|d];
        try (apply synced_silent; try reflexivity; apply synced_nil);
        try apply He.
      apply synced_silent; try reflexivity.
      destruct (dict_get k_scores d); [|apply synced_nil].
      do 2 (apply synced_silent; try reflexivity).
      unfold delivery_events. destruct (delivery w);
        [apply synced_nil | apply Hi | apply He].
Qed.
End BothSinks.

(** ** [setup_logging] and the levels *)

(** X6.  After [setup_logging] on a fresh interpreter, a record at [INFO],
    [WARNING] or [ERROR] is written once to the log file and once to the
    standard error; a record at [DEBUG] passes the root logger, which is at
    [DEBUG], and is written nowhere, since both handlers are at [INFO]. *)
Theorem setup_logging_levels (w : world) (l : level) (msg : pystr) :
  logging_log l msg (snd (setup_logging w initial_state)) =
  (Ret tt,
   emit (EvLog l msg ::
         match l with
         | DEBUG => []
         | _ => [EvEmit (ToFile (CKN_LOG_FILE w)) l msg;
                 EvEmit (ToStream Stderr) l msg]
         end)
     (snd (setup_logging w initial_state))).
Proof. destruct l; reflexivity. Qed.

(** ** The delivery report *)

(** X7.  [delivery_report] never raises and logs one record: an error with the
    failure when there is one, the topic of the message at [INFO] otherwise.
    It makes no attempt on the broker, reads no clock, opens no file and
    publishes nothing. *)
Theorem delivery_report_logs_one_record (w : world) (err : option pystr)
  (topic : pystr) (st : state) :
  exists st' evs,
    delivery_report err topic st = (Ret tt, st') /\
    trace st' = trace st ++ evs /\
    log_records evs =
      [match err with
       | Some e => (ERROR, py "Delivery failed: " ++ e)
       | None => (INFO, py "Produced example event to '" ++ topic ++ py "' topic")
       end] /\
    attempts st' = attempts st /\
    clock_reads st' = clock_reads st /\
    attempt_count evs = 0 /\
    no_open evs /\
    published evs = [] /\
    flushes evs = [].
Proof.
  assert (Hrec : forall rl hs l msg,
             log_records (log_events rl hs l msg) = [(l, msg)]).
  { intros. unfold log_events, log_records. cbn [flat_map].
    change (flat_map ?g ?x) with (log_records x) at 1.
    assert (E : forall t, flat_map
                 (fun e => match e with EvLog l0 m => [(l0, m)] | _ => [] end)
                 (map (fun h => EvEmit (h_sink h) l msg) t) = []).
    { induction t as [|h t IH]; [reflexivity | exact IH]. }
    unfold log_records.
    destruct (levelno rl <=? levelno l)%Z; [rewrite E|]; reflexivity. }
  destruct err as [e|]; cbn [delivery_report]; rewrite logging_log_eq;
    eexists; eexists; (split; [reflexivity|]); cbn [trace attempts clock_reads];
    (split; [reflexivity|]); rewrite Hrec, attempt_count_log;
    repeat split; try apply no_open_log; apply flat_map_log; reflexivity.
Qed.

(** ** Failures that are not logged *)

Lemma log_records_main_log (w : world) (l : level) (msg : pystr) :
  log_records (main_log w l msg) = [(l, msg)].
Proof. rewrite main_log_events. destruct l; reflexivity. Qed.

(** The records of a probe that succeeds are the retry lines, at [INFO]. *)
Lemma log_records_probe_success (w : world) (f : nat -> option exn)
  (servers : pystr) (timeout : Z) (n : nat) : forall start k,
  first_success f start n = Some k ->
  Forall (fun r => fst r = INFO)
    (log_records
       (probe_events f servers timeout DEBUG (main_handlers w) start n)).
Proof.
  induction n as [|n IH]; intros start k Hk; cbn [first_success] in Hk;
    [discriminate|].
  cbn [probe_events].
  change (log_records (EvListTopics servers timeout :: ?x)) with (log_records x).
  destruct (f start) as [e|]; [|constructor].
  rewrite log_records_app. fold (main_log w INFO (retry_message e)).
  rewrite log_records_main_log. cbn [app].
  constructor; [reflexivity|].
  change (log_records (EvSleep 5 :: ?x)) with (log_records x).
  exact (IH _ _ Hk).
Qed.

Section Unlogged.
Context `{FloatText}.
Variable w : world.

(** X8.  When the broker answers and the event file is there but cannot be
    opened or decoded (a directory, no permission, undecodable text), the
    exception of [open] is not caught: the script dies of it with exit
    status 1, having read no clock and published nothing, and no record
    at [ERROR] is logged. *)
Theorem unreadable_event_file_is_uncaught (e : file_error) :
  broker_reachable w ->
  file_at w event_path = Unreadable e ->
  fst (run w) = Raise (file_error_exn event_path e) /\
  exit_code (fst (run w)) = 1%Z /\
  Forall (fun r => fst r = INFO) (log_records (trace (snd (run w)))) /\
  published (trace (snd (run w))) = [] /\
  clock_reads (snd (run w)) = 0.
Proof.
  intros Hb Hf. pose proof Hb as Hok. apply probe_ok_reachable in Hok.
  assert (Hrun : run w = (Raise (file_error_exn event_path e), st_opened w))
    by (rewrite run_cases, Hok, Hf; reflexivity).
  split; [rewrite Hrun; reflexivity|].
  split; [rewrite Hrun; reflexivity|].
  split; [|split; [rewrite Hrun; apply published_opened
                  | rewrite Hrun; reflexivity]].
  rewrite run_trace. unfold tail_events. rewrite Hok, Hf.
  unfold probe_state; cbn [trace].
  rewrite !log_records_app, !log_records_main_log.
  unfold probe_ok in Hok.
  destruct (first_success (main_attempt w) 0 (Z.to_nat default_num_tries))
    as [k|] eqn:Ek; [|discriminate Hok].
  apply Forall_app; split; [apply Forall_app; split|].
  - constructor; [reflexivity | constructor].
  - exact (log_records_probe_success w _ _ _ _ _ _ Ek).
  - constructor; [reflexivity | constructor].
Qed.

(** X9.  When the script runs to its end, the trace ends with the message
    handed to the producer, the [flush] and what the delivery report logs:
    nothing when the message is still pending as [flush] times out, one
    line at [INFO] when it was delivered, one at [ERROR] when delivery
    failed. *)
Theorem delivery_outcome_in_the_log :
  fst (run w) = Ret tt ->
  exists pre payload post,
    trace (snd (run w)) =
      pre ++ EvProduce (KAFKA_BROKER w) (KAFKA_TOPIC w) payload ::
      EvFlush 1 :: post /\
    log_records post =
      match delivery w with
      | Pending => []
      | Delivered =>
          [(INFO, py "Produced example event to '" ++ KAFKA_TOPIC w ++
                  py "' topic")]
      | DeliveryFailed err => [(ERROR, py "Delivery failed: " ++ err)]
      end /\
    (delivery w = Pending -> post = []).
Proof.
  intros Hret. rewrite run_trace. revert Hret. rewrite run_cases.
  unfold tail_events.
  destruct (probe_ok w); [|discriminate].
  destruct (file_at w event_path) as [|e|text]; try discriminate.
  destruct (json_loads (json_limits w) text) as [v|[|n|k]];
    [|discriminate ..].
  destruct v as [|b|z|lit|s|l|d]; try discriminate.
  destruct (dict_get k_scores d); [|discriminate].
  intros _.
  exists (trace (probe_state w) ++
          main_log w INFO
            (py "Successfully connected to the CKN broker at " ++
             KAFKA_BROKER w) ++ [EvOpen event_path; EvUtcnow]).
  eexists. exists (delivery_events w).
  split; [rewrite <- !app_assoc; reflexivity|].
  unfold delivery_events.
  destruct (delivery w); rewrite ?log_records_main_log;
    split; try reflexivity; discriminate.
Qed.
End Unlogged.

Lemma unreadable_event_file_is_uncaught_witness :
  fst (@run (example_world 1 (Unreadable IsADirectory) Pending)
         literal_float_text) =
  Raise {| exn_cls := IsADirectoryError; exn_str := event_path |} /\
  exit_code (fst (@run (example_world 1 (Unreadable IsADirectory) Pending)
                    literal_float_text)) = 1%Z.
Proof.
  destruct (@unreadable_event_file_is_uncaught literal_float_text
              (example_world 1 (Unreadable IsADirectory) Pending) IsADirectory)
    as (Hr & Hc & _).
  - exists 1. split; [vm_compute; lia | reflexivity].
  - reflexivity.
  - split; [exact Hr | exact Hc].
Defined.

Lemma delivery_outcome_in_the_log_witness :
  exists pre payload post,
    trace (snd (@run (example_world 0 (Readable example_text) Pending)
                  literal_float_text)) =
      pre ++ EvProduce (py "broker:29092") (py "oracle-events") payload ::
      EvFlush 1 :: post /\
    post = [].
Proof.
  destruct (@delivery_outcome_in_the_log literal_float_text
              (example_world 0 (Readable example_text) Pending))
    as (pre & payload & post & Htr & _ & Hpost).
  - vm_compute; reflexivity.
  - exists pre, payload, post. split; [exact Htr | apply Hpost; reflexivity].
Defined.

(** ** Distinct keys *)

Lemma dict_get_None_not_In (k : pystr) (d : dict) :
  dict_get k d = None <-> ~ In k (dict_keys d).
Proof.
  unfold dict_keys. induction d as [|[k0 v0] d IH]; cbn [dict_get map fst In].
  - tauto.
  - destruct (pystr_eqb k k0) eqn:E.
    + apply pystr_eqb_eq in E. subst k0. split; [discriminate | tauto].
    + rewrite IH. split.
      * intros Hn [Hk|Hk]; [|exact (Hn Hk)].
        subst k0. rewrite pystr_eqb_refl in E. discriminate.
      * tauto.
Qed.

(** Assignment keeps the keys of a dictionary distinct. *)
Lemma NoDup_dict_set (k : pystr) (v : json) (d : dict) :
  NoDup (dict_keys d) -> NoDup (dict_keys (dict_set k v d)).
Proof.
  intros Hd. rewrite dict_keys_set.
  destruct (dict_get k d) as [x|] eqn:E; [rewrite app_nil_r; exact Hd|].
  apply dict_get_None_not_In in E.
  apply NoDup_app; [exact Hd | repeat constructor; intros [] |].
  intros x Hx [Hk|[]]. subst x. exact (E Hx).
Qed.

Lemma scan_literal_value (lit : pystr) (v v' : json) (s r : pystr) :
  scan_literal lit v s = Some (v', r) -> v' = v.
Proof.
  unfold scan_literal. destruct (strip_prefix lit s); [|discriminate].
  intros E; inversion E; reflexivity.
Qed.

Lemma or_malformed_scanned (A : Type) (o : option A) (a : A) :
  or_malformed o = Scanned a -> o = Some a.
Proof. destruct o; cbn [or_malformed]; intros E; inversion E; reflexivity. Qed.

Section ScannedKeys.
Variable lim : limits.

Lemma scan_number_value (s r : pystr) (v : json) :
  scan_number lim s = Scanned (v, r) -> is_dict v = false.
Proof.
  unfold scan_number.
  destruct (match s with
            | c :: r0 => if (c =? 45)%N then (true, r0) else (false, s)
            | [] => (false, s)
            end) as [neg s1].
  destruct (scan_int_part s1) as [[ip s2]|]; [|discriminate].
  destruct (scan_frac s2) as [fp s3]. destruct (scan_exp s3) as [ep s4].
  destruct fp; destruct ep;
    try destruct (over_digit_limit lim (N.of_nat (List.length ip)));
    intros E; inversion E; reflexivity.
Qed.

Lemma scan_items_value (fuel : nat) : forall depth s acc v r,
  scan_items lim fuel depth s acc = Scanned (v, r) -> is_dict v = false.
Proof.
  induction fuel as [|f IH]; intros depth s acc v r; cbn [scan_items];
    [discriminate|].
  destruct (scan_once lim f depth s) as [[x r1]|e]; [|discriminate].
  destruct (skip_ws r1) as [|c r2]; [discriminate|].
  destruct (c =? 93)%N; [intros E; inversion E; reflexivity|].
  destruct (c =? 44)%N; [apply IH | discriminate].
Qed.

Lemma scan_members_keys (fuel : nat) : forall depth s acc v r,
  NoDup (dict_keys acc) ->
  scan_members lim fuel depth s acc = Scanned (v, r) ->
  exists d, v = JDict d /\ NoDup (dict_keys d).
Proof.
  induction fuel as [|f IH]; intros depth s acc v r Hacc; cbn [scan_members];
    [discriminate|].
  destruct s as [|q s]; [discriminate|].
  destruct (q =? 34)%N; [|discriminate].
  destruct (scanstring s []) as [[k r1]|]; [|discriminate].
  destruct (skip_ws r1) as [|colon r2]; [discriminate|].
  destruct (colon =? 58)%N; [|discriminate].
  destruct (scan_once lim f depth (skip_ws r2)) as [[x r3]|e]; [|discriminate].
  destruct (skip_ws r3) as [|c r4]; [discriminate|].
  pose proof (NoDup_dict_set k x acc Hacc) as Hacc'.
  destruct (c =? 125)%N.
  - intros E; inversion E. eexists. split; [reflexivity | exact Hacc'].
  - destruct (c =? 44)%N; [apply IH; exact Hacc' | discriminate].
Qed.

(** An object read by the scanner has distinct keys. *)
Lemma scan_once_keys (fuel depth : nat) (s r : pystr) (d : dict) :
  scan_once lim fuel depth s = Scanned (JDict d, r) -> NoDup (dict_keys d).
Proof.
  destruct fuel as [|f]; cbn [scan_once]; [discriminate|].
  destruct s as [|c s]; [discriminate|].
  destruct (c =? 34)%N.
  { destruct (scanstring s []) as [[x r1]|]; discriminate. }
  destruct (c =? 123)%N.
  { destruct depth as [|dp]; [discriminate|].
    destruct (skip_ws s) as [|c' r']; [discriminate|].
    destruct (c' =? 125)%N.
    - intros E; inversion E. constructor.
    - intros E. apply scan_members_keys in E as (d' & Hd & Hn);
        [|constructor].
      inversion Hd; subst d'. exact Hn. }
  destruct (c =? 91)%N.
  { destruct depth as [|dp]; [discriminate|].
    destruct (skip_ws s) as [|c' r']; [discriminate|].
    destruct (c' =? 93)%N; [discriminate|].
    intros E. apply scan_items_value in E. discriminate E. }
  assert (Hlit : forall lit v,
             is_dict v = false ->
             or_malformed (scan_literal lit v (c :: s)) = Scanned (JDict d, r) ->
             False).
  { intros lit v Hv E. apply or_malformed_scanned in E.
    apply scan_literal_value in E. subst v. discriminate. }
  destruct (c =? 110)%N; [intros E; exfalso; eapply Hlit; [|exact E]; reflexivity|].
  destruct (c =? 116)%N; [intros E; exfalso; eapply Hlit; [|exact E]; reflexivity|].
  destruct (c =? 102)%N; [intros E; exfalso; eapply Hlit; [|exact E]; reflexivity|].
  destruct (c =? 78)%N; [intros E; exfalso; eapply Hlit; [|exact E]; reflexivity|].
  destruct (c =? 73)%N; [intros E; exfalso; eapply Hlit; [|exact E]; reflexivity|].
  destruct (c =? 45)%N.
  { destruct (scan_literal (py "-Infinity") (JFloat (py "-Infinity")) (c :: s))
      as [[v' r']|] eqn:El.
    - intros E; inversion E; subst v' r'.
      apply scan_literal_value in El. discriminate El.
    - intros E. apply scan_number_value in E. discriminate E. }
  intros E. apply scan_number_value in E. discriminate E.
Qed.

Lemma json_loads_keys (text : pystr) (d : dict) :
  json_loads lim text = Scanned (JDict d) -> NoDup (dict_keys d).
Proof.
  unfold json_loads.
  destruct (scan_once lim (2 * List.length text + 2) (max_nesting lim)
              (skip_ws text))
    as [[v r]|e] eqn:E; [|discriminate].
  destruct (skip_ws r); [|discriminate].
  intros Hv; inversion Hv; subst v. exact (scan_once_keys _ _ _ _ _ E).
Qed.
End ScannedKeys.

Section DistinctKeys.
Context `{FloatText}.

Lemma NoDup_transformed (ts : pystr) (d : dict) :
  NoDup (dict_keys d) -> NoDup (dict_keys (transformed ts d)).
Proof.
  intros Hd.
  assert (Hs : NoDup (dict_keys (stamped ts d)))
    by (unfold stamped; do 3 apply NoDup_dict_set; exact Hd).
  unfold transformed. destruct (dict_get k_scores d) as [v|]; [|exact Hs].
  destruct (is_list v); [apply NoDup_dict_set|]; exact Hs.
Qed.

(** X10.  An object of the event file in which a key occurs more than once is
    loaded with one entry per key, and what the script publishes is an
    object whose keys are distinct. *)
Theorem published_keys_are_distinct (w : world) (text : pystr) (d : dict) :
  file_at w event_path = Readable text ->
  json_loads (json_limits w) text = Scanned (JDict d) ->
  NoDup (dict_keys d) /\
  (fst (run w) = Ret tt ->
   exists d',
     published (trace (snd (run w))) = [json_dumps (JDict d')] /\
     NoDup (dict_keys d')).
Proof.
  intros Hf Hj. pose proof (json_loads_keys _ _ _ Hj) as Hd.
  split; [exact Hd|].
  rewrite run_cases, Hf, Hj.
  destruct (probe_ok w); [|discriminate].
  destruct (dict_get k_scores d); [|discriminate].
  intros _. exists (transformed (main_timestamp w) d). cbn [snd].
  split; [apply published_flushed | apply NoDup_transformed; exact Hd].
Qed.
End DistinctKeys.

(** ** Strings: what [json.dumps] writes, [json.loads] reads *)

Lemma forall_below_spec (n : nat) (P : N -> bool) :
  forall_below n P = true -> forall k, (k < N.of_nat n)%N -> P k = true.
Proof.
  induction n as [|n IH]; cbn [forall_below]; intros Hn k Hk; [lia|].
  apply andb_true_iff in Hn as [Hp Hn].
  destruct (N.eq_dec k (N.of_nat n)) as [->|Hne]; [exact Hp|].
  apply IH; [exact Hn | lia].
Qed.

Lemma py_escape_backslash : py "\\" = [92; 92]%N.
Proof. vm_compute; reflexivity. Qed.
Lemma py_escape_n : py "\n" = [92; 110]%N.
Proof. vm_compute; reflexivity. Qed.
Lemma py_escape_r : py "\r" = [92; 114]%N.
Proof. vm_compute; reflexivity. Qed.
Lemma py_escape_t : py "\t" = [92; 116]%N.
Proof. vm_compute; reflexivity. Qed.
Lemma py_escape_b : py "\b" = [92; 98]%N.
Proof. vm_compute; reflexivity. Qed.
Lemma py_escape_f : py "\f" = [92; 102]%N.
Proof. vm_compute; reflexivity. Qed.
Lemma py_escape_u : py "\u" = [92; 117]%N.
Proof. vm_compute; reflexivity. Qed.

Lemma hex_value_digit (d : N) : (d < 16)%N -> hex_value (hex_digit d) = Some d.
Proof.
  intros Hd.
  pose proof (forall_below_spec 16
                (fun d => match hex_value (hex_digit d) with
                          | Some x => N.eqb x d
                          | None => false
                          end) ltac:(vm_compute; reflexivity) d Hd) as E.
  cbv beta in E. destruct (hex_value (hex_digit d)) as [x|]; [|discriminate].
  apply N.eqb_eq in E. subst x. reflexivity.
Qed.

(** Four hexadecimal digits written by [hex_fixed] read back as the number. *)
Lemma hex4_fixed (c : N) :
  (c < 65536)%N ->
  exists a b c' d,
    hex_fixed 4 c = [a; b; c'; d] /\ hex4 a b c' d = Some c.
Proof.
  intros Hc.
  exists (hex_digit (c / 16 / 16 / 16 mod 16)), (hex_digit (c / 16 / 16 mod 16)),
         (hex_digit (c / 16 mod 16)), (hex_digit (c mod 16)).
  split; [reflexivity|].
  unfold hex4.
  rewrite !hex_value_digit by (apply N.mod_lt; discriminate).
  f_equal.
  pose proof (N.div_mod c 16 ltac:(discriminate)) as E1.
  pose proof (N.div_mod (c / 16) 16 ltac:(discriminate)) as E2.
  pose proof (N.div_mod (c / 16 / 16) 16 ltac:(discriminate)) as E3.
  assert (E4 : (c / 16 / 16 / 16 < 16)%N).
  { rewrite !N.Div0.div_div. apply N.Div0.div_lt_upper_bound. exact Hc. }
  rewrite (N.mod_small _ _ E4). lia.
Qed.

Lemma land_1023 (x : N) : N.land x 1023 = (x mod 1024)%N.
Proof. change 1023%N with (N.ones 10). rewrite N.land_ones. reflexivity. Qed.

(** The two escapes written for a code point beyond the basic plane are a
    high and a low surrogate that join back to it. *)
Lemma surrogate_pair (c : N) :
  (65536 <= c < 1114112)%N ->
  let v := (c - 65536)%N in
  let s1 := N.lor 55296 (N.land (N.shiftr v 10) 1023) in
  let s2 := N.lor 56320 (N.land v 1023) in
  (s1 < 65536)%N /\ (s2 < 65536)%N /\
  is_high_surrogate s1 = true /\ is_low_surrogate s2 = true /\
  join_surrogates s1 s2 = c.
Proof.
  intros Hc v s1 s2.
  assert (Hv : (v < 1048576)%N) by (unfold v; lia).
  pose proof (forall_below_spec 1024
                (fun x => (N.lor 55296 x <? 65536)%N &&
                          is_high_surrogate (N.lor 55296 x) &&
                          (N.land (N.lor 55296 x) 1023 =? x)%N)
                ltac:(vm_compute; reflexivity)) as Hhi.
  pose proof (forall_below_spec 1024
                (fun x => (N.lor 56320 x <? 65536)%N &&
                          is_low_surrogate (N.lor 56320 x) &&
                          (N.land (N.lor 56320 x) 1023 =? x)%N)
                ltac:(vm_compute; reflexivity)) as Hlo.
  cbv beta in Hhi, Hlo.
  assert (Ha : (N.land (N.shiftr v 10) 1023 = v / 1024)%N).
  { rewrite land_1023, N.shiftr_div_pow2. change (2 ^ 10)%N with 1024%N.
    apply N.mod_small. apply N.Div0.div_lt_upper_bound. exact Hv. }
  assert (Hb : (N.land v 1023 = v mod 1024)%N) by apply land_1023.
  assert (Ha' : (v / 1024 < N.of_nat 1024)%N).
  { change (N.of_nat 1024) with 1024%N.
    apply N.Div0.div_lt_upper_bound. exact Hv. }
  assert (Hb' : (v mod 1024 < N.of_nat 1024)%N).
  { change (N.of_nat 1024) with 1024%N. apply N.mod_lt. discriminate. }
  specialize (Hhi _ Ha'). specialize (Hlo _ Hb').
  apply andb_true_iff in Hhi as [Hhi Hhi3].
  apply andb_true_iff in Hhi as [Hhi1 Hhi2].
  apply andb_true_iff in Hlo as [Hlo Hlo3].
  apply andb_true_iff in Hlo as [Hlo1 Hlo2].
  apply N.ltb_lt in Hhi1, Hlo1. apply N.eqb_eq in Hhi3, Hlo3.
  unfold s1, s2. rewrite Ha, Hb.
  split; [exact Hhi1|]. split; [exact Hlo1|].
  split; [exact Hhi2|]. split; [exact Hlo2|].
  unfold join_surrogates. rewrite Hhi3, Hlo3, N.shiftl_mul_pow2.
  change (2 ^ 10)%N with 1024%N.
  pose proof (N.div_mod v 1024 ltac:(discriminate)). unfold v in *. lia.
Qed.

(** One character: the scanner reads the escape back as the character. *)
Lemma scanstring_escape_char (c : N) (tail acc : pystr) :
  scalar c = true ->
  scanstring (escape_char c ++ tail) acc = scanstring tail (c :: acc).
Proof.
  intros Hs. unfold scalar in Hs. apply andb_true_iff in Hs as [Hlt Hsur].
  apply N.ltb_lt in Hlt. apply negb_true_iff in Hsur.
  unfold escape_char.
  destruct (c =? 34)%N eqn:E34.
  { apply N.eqb_eq in E34; subst c. reflexivity. }
  destruct (c =? 92)%N eqn:E92.
  { apply N.eqb_eq in E92; subst c. rewrite py_escape_backslash. reflexivity. }
  destruct (c =? 10)%N eqn:E10.
  { apply N.eqb_eq in E10; subst c. rewrite py_escape_n. reflexivity. }
  destruct (c =? 13)%N eqn:E13.
  { apply N.eqb_eq in E13; subst c. rewrite py_escape_r. reflexivity. }
  destruct (c =? 9)%N eqn:E9.
  { apply N.eqb_eq in E9; subst c. rewrite py_escape_t. reflexivity. }
  destruct (c =? 8)%N eqn:E8.
  { apply N.eqb_eq in E8; subst c. rewrite py_escape_b. reflexivity. }
  destruct (c =? 12)%N eqn:E12.
  { apply N.eqb_eq in E12; subst c. rewrite py_escape_f. reflexivity. }
  destruct ((32 <=? c) && (c <=? 126))%N eqn:Epr.
  { apply andb_true_iff in Epr as [H1 H2]. apply N.leb_le in H1.
    cbn [app scanstring]. rewrite E34, E92.
    replace (c <? 32)%N with false by (symmetry; apply N.ltb_ge; exact H1).
    reflexivity. }
  destruct (c <? 65536)%N eqn:Ebmp.
  - apply N.ltb_lt in Ebmp.
    destruct (hex4_fixed c Ebmp) as (a & b & c' & d & Hfix & Hhex).
    rewrite py_escape_u, Hfix. cbn [app scanstring].
    change (92 =? 34)%N with false. change (92 =? 92)%N with true.
    change (117 =? 117)%N with true. cbv iota. rewrite Hhex.
    assert (Hh : is_high_surrogate c = false).
    { unfold is_high_surrogate. destruct (55296 <=? c)%N eqn:L; [|reflexivity].
      cbn [andb] in Hsur |- *. apply N.leb_gt in Hsur. apply N.leb_gt. lia. }
    rewrite Hh. reflexivity.
  - apply N.ltb_ge in Ebmp.
    destruct (surrogate_pair c (conj Ebmp Hlt)) as (H1 & H2 & Hhi & Hlo & Hjoin).
    cbv zeta in H1, H2, Hhi, Hlo, Hjoin |- *.
    set (s1 := N.lor 55296 (N.land (N.shiftr (c - 65536) 10) 1023)) in *.
    set (s2 := N.lor 56320 (N.land (c - 65536) 1023)) in *.
    destruct (hex4_fixed s1 H1) as (a & b & c' & d & Hfix1 & Hhex1).
    destruct (hex4_fixed s2 H2) as (a2 & b2 & c2 & d2 & Hfix2 & Hhex2).
    rewrite py_escape_u, Hfix1, Hfix2. cbn [app scanstring].
    change (92 =? 34)%N with false. change (92 =? 92)%N with true.
    change (117 =? 117)%N with true. cbv iota. rewrite Hhex1, Hhi.
    cbn [andb]. rewrite Hhex2, Hlo, Hjoin. reflexivity.
Qed.

(** A string of scalar values, as [json.dumps] writes it between quotes, is
    read back by the scanner, whatever follows the closing quote. *)
Lemma scanstring_encode (s : pystr) : forall acc rest,
  forallb scalar s = true ->
  scanstring (flat_map escape_char s ++ 34%N :: rest) acc =
  Some (rev acc ++ s, rest).
Proof.
  induction s as [|c s IH]; intros acc rest Hs.
  - cbn [flat_map app scanstring]. change (34 =? 34)%N with true.
    rewrite app_nil_r. reflexivity.
  - cbn [forallb] in Hs. apply andb_true_iff in Hs as [Hc Hs].
    cbn [flat_map]. rewrite <- app_assoc, scanstring_escape_char by exact Hc.
    rewrite IH by exact Hs. cbn [rev]. rewrite <- app_assoc. reflexivity.
Qed.

(** ** Integers: what [json.dumps] writes, [json.loads] reads *)

Lemma digits_value_app (ds : pystr) (x : N) :
  digits_value (ds ++ [x]) = (digits_value ds * 10 + Z.of_N (x - 48))%Z.
Proof. unfold digits_value. rewrite fold_left_app. reflexivity. Qed.

Lemma is_digit_mod10 (n : N) : is_digit (48 + n mod 10) = true.
Proof.
  pose proof (N.mod_lt n 10 ltac:(discriminate)) as Hm.
  unfold is_digit. revert Hm. generalize (n mod 10)%N. intros m Hm.
  apply andb_true_iff. split; apply N.leb_le; lia.
Qed.

Lemma pos_decimal_S (f : nat) (n : N) (acc : pystr) :
  pos_decimal (S f) n acc =
  if (n / 10 =? 0)%N then (48 + n mod 10)%N :: acc
  else pos_decimal f (n / 10) ((48 + n mod 10)%N :: acc).
Proof. reflexivity. Qed.

(** The digits written for [n]: all digits, of value [n], and without a
    leading zero unless [n] is zero. *)
Lemma pos_decimal_spec (f : nat) : forall n acc,
  (n < 2 ^ N.of_nat (S f))%N ->
  exists d ds,
    pos_decimal (S f) n acc = d :: ds ++ acc /\
    forallb is_digit (d :: ds) = true /\
    digits_value (d :: ds) = Z.of_N n /\
    (d = 48%N -> n = 0%N /\ ds = []).
Proof.
  induction f as [|f IH]; intros n acc Hn; rewrite pos_decimal_S.
  - change (2 ^ N.of_nat 1)%N with 2%N in Hn.
    assert (E : (n / 10 = 0)%N) by (apply N.div_small; lia).
    rewrite E. change (0 =? 0)%N with true. cbv iota.
    exists (48 + n mod 10)%N, []. split; [reflexivity|].
    rewrite N.mod_small by lia.
    split; [cbn [forallb]; rewrite andb_true_r;
            unfold is_digit; apply andb_true_iff; split; apply N.leb_le; lia|].
    split; [unfold digits_value; cbn [fold_left]; lia|].
    intros Hd. split; [lia | reflexivity].
  - destruct (n / 10 =? 0)%N eqn:E.
    + apply N.eqb_eq in E.
      assert (Hlt : (n < 10)%N).
      { pose proof (N.div_mod n 10 ltac:(discriminate)).
        pose proof (N.mod_lt n 10 ltac:(discriminate)). lia. }
      exists (48 + n mod 10)%N, []. split; [reflexivity|].
      rewrite N.mod_small by lia.
      split; [cbn [forallb]; rewrite andb_true_r;
              unfold is_digit; apply andb_true_iff; split; apply N.leb_le; lia|].
      split; [unfold digits_value; cbn [fold_left]; lia|].
      intros Hd. split; [lia | reflexivity].
    + apply N.eqb_neq in E.
      assert (Hdiv : (n / 10 < 2 ^ N.of_nat (S f))%N).
      { rewrite (Nat2N.inj_succ (S f)), N.pow_succ_r' in Hn.
        apply N.Div0.div_lt_upper_bound. lia. }
      destruct (IH (n / 10)%N ((48 + n mod 10)%N :: acc) Hdiv)
        as (d & ds & Hrun & Hdig & Hval & Hzero).
      exists d, (ds ++ [(48 + n mod 10)%N]). split.
      { rewrite Hrun. rewrite <- app_assoc. reflexivity. }
      split.
      { change (d :: ds ++ [(48 + n mod 10)%N])
          with ((d :: ds) ++ [(48 + n mod 10)%N]).
        rewrite forallb_app, Hdig. cbn [forallb andb].
        rewrite is_digit_mod10. reflexivity. }
      split.
      { change (d :: ds ++ [(48 + n mod 10)%N])
          with ((d :: ds) ++ [(48 + n mod 10)%N]).
        rewrite digits_value_app, Hval.
        pose proof (N.div_mod n 10 ltac:(discriminate)) as Hdm.
        pose proof (N.mod_lt n 10 ltac:(discriminate)) as Hm.
        revert Hdm Hm. generalize (n / 10)%N (n mod 10)%N. intros q m Hdm Hm.
        lia. }
      intros Hd. destruct (Hzero Hd) as [Hz _]. contradiction.
Qed.

Lemma take_digits_app (ds rest : pystr) :
  forallb is_digit ds = true ->
  take_digits rest = ([], rest) ->
  take_digits (ds ++ rest) = (ds, rest).
Proof.
  intros Hds Hrest. induction ds as [|c ds IH]; [exact Hrest|].
  cbn [forallb] in Hds. apply andb_true_iff in Hds as [Hc Hds].
  cbn [app take_digits]. rewrite Hc, (IH Hds). reflexivity.
Qed.

Lemma stops_spec (rest : pystr) :
  stops rest = true ->
  rest = [] \/ exists c r, rest = c :: r /\ (c = 44 \/ c = 93 \/ c = 125)%N.
Proof.
  destruct rest as [|c r]; [left; reflexivity|]. cbn [stops]. intros Hs.
  right. exists c, r. split; [reflexivity|].
  apply orb_true_iff in Hs as [Hs|Hs];
    [apply orb_true_iff in Hs as [Hs|Hs]|]; apply N.eqb_eq in Hs; tauto.
Qed.

(** After a stop there is no digit, fraction or exponent to read. *)
Lemma stops_number (rest : pystr) :
  stops rest = true ->
  take_digits rest = ([], rest) /\ scan_frac rest = ([], rest) /\
  scan_exp rest = ([], rest).
Proof.
  intros Hs. apply stops_spec in Hs as [-> | (c & r & -> & [-> | [-> | ->]])];
    repeat split.
Qed.

Lemma skip_ws_stops (rest : pystr) : stops rest = true -> skip_ws rest = rest.
Proof.
  intros Hs. apply stops_spec in Hs as [-> | (c & r & -> & [-> | [-> | ->]])];
    reflexivity.
Qed.

(** The text of a natural number reads back as the number. *)
Lemma scan_number_digits (d : N) (ds rest : pystr) (n : N) :
  forallb is_digit (d :: ds) = true ->
  digits_value (d :: ds) = Z.of_N n ->
  (d = 48%N -> n = 0%N /\ ds = []) ->
  stops rest = true ->
  scan_int_part (d :: ds ++ rest) = Some (d :: ds, rest).
Proof.
  intros Hdig Hval Hzero Hs.
  destruct (stops_number rest Hs) as (Ht & _ & _).
  cbn [forallb] in Hdig. apply andb_true_iff in Hdig as [Hd Hds].
  unfold scan_int_part. destruct (d =? 48)%N eqn:E.
  - apply N.eqb_eq in E. destruct (Hzero E) as [_ ->]. reflexivity.
  - rewrite Hd, (take_digits_app ds rest Hds Ht). reflexivity.
Qed.

Lemma int_str_digits (z : Z) :
  exists d ds,
    int_str z = (if (z <? 0)%Z then [45%N] else []) ++ d :: ds /\
    forallb is_digit (d :: ds) = true /\
    digits_value (d :: ds) = Z.abs z /\
    (d = 48%N -> z = 0%Z /\ ds = []).
Proof.
  unfold int_str. set (n := Z.to_N (Z.abs z)).
  assert (Hn : (n < 2 ^ N.of_nat (S (N.to_nat (N.log2 n))))%N).
  { rewrite Nat2N.inj_succ, N2Nat.id.
    destruct (N.eq_dec n 0) as [-> | Hne]; [vm_compute; reflexivity|].
    apply N.log2_spec. lia. }
  destruct (pos_decimal_spec (N.to_nat (N.log2 n)) n [] Hn)
    as (d & ds & Hrun & Hdig & Hval & Hzero).
  exists d, ds. rewrite Hrun, app_nil_r.
  split; [destruct (z <? 0)%Z; reflexivity|].
  split; [exact Hdig|]. split; [rewrite Hval; unfold n; lia|].
  intros Hd. destruct (Hzero Hd) as [Hz Hds]. split; [unfold n in Hz; lia | exact Hds].
Qed.

Lemma is_digit_not (d c : N) :
  is_digit d = true -> is_digit c = false -> (d =? c)%N = false.
Proof.
  intros Hd Hc. destruct (d =? c)%N eqn:E; [|reflexivity].
  apply N.eqb_eq in E. subst c. congruence.
Qed.

(** The text of an integer is its sign and the text of its absolute
    value. *)
Lemma int_str_abs (z : Z) :
  int_str z = (if (z <? 0)%Z then [45%N] else []) ++ int_str (Z.abs z).
Proof.
  unfold int_str. rewrite Z.abs_idemp.
  assert (E : (Z.abs z <? 0)%Z = false) by (apply Z.ltb_ge; lia).
  rewrite E. destruct (z <? 0)%Z; reflexivity.
Qed.

(** The text of an integer within the digit limit, followed by a stop, reads
    back as the integer. *)
Lemma scan_number_int (lim : limits) (z : Z) (rest : pystr) :
  over_digit_limit lim (int_digits z) = false ->
  stops rest = true ->
  scan_number lim (int_str z ++ rest) = Scanned (JInt z, rest).
Proof.
  intros Hlim Hs.
  destruct (int_str_digits z) as (d & ds & Hstr & Hdig & Hval & Hzero).
  assert (Hn : N.of_nat (List.length (d :: ds)) = int_digits z).
  { unfold int_digits. f_equal. f_equal.
    rewrite (int_str_abs z) in Hstr. apply app_inv_head in Hstr.
    symmetry; exact Hstr. }
  destruct (stops_number rest Hs) as (_ & Hfrac & Hexp).
  assert (Hint : scan_int_part (d :: ds ++ rest) = Some (d :: ds, rest)).
  { apply scan_number_digits with (n := Z.to_N (Z.abs z)); try assumption.
    - rewrite Hval. lia.
    - intros Hd. destruct (Hzero Hd) as [-> ->]. split; reflexivity. }
  assert (Hd : is_digit d = true).
  { cbn [forallb] in Hdig. apply andb_true_iff in Hdig as [Hd _]. exact Hd. }
  rewrite Hstr. unfold scan_number.
  destruct (z <? 0)%Z eqn:Hneg; cbn [app].
  - change (45 =? 45)%N with true. cbv iota. rewrite Hint, Hfrac, Hexp.
    cbv zeta. rewrite Hn, Hlim.
    apply Z.ltb_lt in Hneg. do 2 f_equal. f_equal. rewrite Hval. lia.
  - rewrite (is_digit_not d 45 Hd eq_refl). rewrite Hint, Hfrac, Hexp.
    cbv zeta. rewrite Hn, Hlim.
    apply Z.ltb_ge in Hneg. do 2 f_equal. f_equal. rewrite Hval. lia.
Qed.

(** ** Values: what [json.dumps] writes, [json.loads] reads *)

Lemma py_lit_null : py "null" = [110; 117; 108; 108]%N.
Proof. vm_compute; reflexivity. Qed.
Lemma py_lit_true : py "true" = [116; 114; 117; 101]%N.
Proof. vm_compute; reflexivity. Qed.
Lemma py_lit_false : py "false" = [102; 97; 108; 115; 101]%N.
Proof. vm_compute; reflexivity. Qed.
Lemma py_lit_minus_inf :
  py "-Infinity" = [45; 73; 110; 102; 105; 110; 105; 116; 121]%N.
Proof. vm_compute; reflexivity. Qed.
Lemma py_open_bracket : py "[" = [91]%N.
Proof. vm_compute; reflexivity. Qed.
Lemma py_close_bracket : py "]" = [93]%N.
Proof. vm_compute; reflexivity. Qed.
Lemma py_open_brace : py "{" = [123]%N.
Proof. vm_compute; reflexivity. Qed.
Lemma py_close_brace : py "}" = [125]%N.
Proof. vm_compute; reflexivity. Qed.
Lemma py_comma : py ", " = [44; 32]%N.
Proof. vm_compute; reflexivity. Qed.
Lemma py_colon : py ": " = [58; 32]%N.
Proof. vm_compute; reflexivity. Qed.

Lemma plain_list (l : list json) : plain (JList l) = forallb plain l.
Proof.
  cbn [plain]. induction l as [|x r IH]; [reflexivity|].
  cbn [forallb]. rewrite <- IH. reflexivity.
Qed.

Lemma plain_dict (d : dict) :
  plain (JDict d) =
  keys_distinct (map fst d) &&
  forallb (fun kv => forallb scalar (fst kv) && plain (snd kv)) d.
Proof.
  cbn [plain]. f_equal. induction d as [|[k x] r IH]; [reflexivity|].
  cbn [forallb fst snd]. rewrite <- IH. reflexivity.
Qed.

Lemma existsb_pystr_eqb (k : pystr) (ks : list pystr) :
  existsb (pystr_eqb k) ks = true <-> In k ks.
Proof.
  rewrite existsb_exists. split.
  - intros (x & Hx & E). apply pystr_eqb_eq in E. subst x. exact Hx.
  - intros Hk. exists k. split; [exact Hk | apply pystr_eqb_refl].
Qed.

Lemma keys_distinct_NoDup (ks : list pystr) :
  keys_distinct ks = true <-> NoDup ks.
Proof.
  induction ks as [|k r IH]; cbn [keys_distinct].
  - split; [constructor | reflexivity].
  - rewrite andb_true_iff, negb_true_iff, IH. split.
    + intros [Hk Hr]. constructor; [|exact Hr].
      intros Hin. apply existsb_pystr_eqb in Hin. congruence.
    + intros Hn. inversion Hn as [|? ? Hk Hr]; subst. split; [|exact Hr].
      destruct (existsb (pystr_eqb k) r) eqn:E; [|reflexivity].
      apply existsb_pystr_eqb in E. contradiction.
Qed.

(** Assigning to a key that is not there adds the entry at the end. *)
Lemma dict_set_fresh (k : pystr) (v : json) (d : dict) :
  ~ In k (dict_keys d) -> dict_set k v d = d ++ [(k, v)].
Proof.
  unfold dict_keys. induction d as [|[k0 v0] d IH]; cbn [map fst In];
    intros Hk; [reflexivity|].
  cbn [dict_set app]. rewrite pystr_eqb_neq by (intros E; apply Hk; left; auto).
  rewrite IH by tauto. reflexivity.
Qed.

Section RoundTrip.
Context `{FloatText}.

Lemma json_dumps_list (l : list json) :
  json_dumps (JList l) = py "[" ++ items_text l ++ py "]".
Proof.
  reflexivity.
Qed.

Lemma json_dumps_dict (d : dict) :
  json_dumps (JDict d) = py "{" ++ members_text d ++ py "}".
Proof.
  reflexivity.
Qed.

(** The text of a plain value starts with a character that is neither
    whitespace nor a closing bracket. *)
Lemma json_dumps_head (v : json) :
  plain v = true ->
  exists c t,
    json_dumps v = c :: t /\ is_ws c = false /\ (c =? 93)%N = false.
Proof.
  destruct v as [|b|z|lit|s|l|d]; intros Hp.
  - rewrite (eq_refl : json_dumps JNull = py "null"), py_lit_null.
    eexists; eexists; repeat split.
  - destruct b; cbn [json_dumps]; rewrite ?py_lit_true, ?py_lit_false;
      eexists; eexists; repeat split.
  - cbn [json_dumps].
    destruct (int_str_digits z) as (d & ds & Hstr & Hdig & _).
    cbn [forallb] in Hdig. apply andb_true_iff in Hdig as [Hd _].
    rewrite Hstr. destruct (z <? 0)%Z; cbn [app].
    + eexists; eexists; repeat split.
    + exists d, ds. split; [reflexivity|].
      unfold is_digit in Hd. apply andb_true_iff in Hd as [H1 H2].
      apply N.leb_le in H1. apply N.leb_le in H2. unfold is_ws.
      split; [repeat (apply orb_false_iff; split)|]; apply N.eqb_neq; lia.
  - discriminate Hp.
  - cbn [json_dumps]. unfold encode_str.
    eexists; eexists; repeat split.
  - rewrite json_dumps_list, py_open_bracket.
    eexists; eexists; repeat split.
  - rewrite json_dumps_dict, py_open_brace.
    eexists; eexists; repeat split.
Qed.

Lemma skip_ws_dumps (v : json) (rest : pystr) :
  plain v = true -> skip_ws (json_dumps v ++ rest) = json_dumps v ++ rest.
Proof.
  intros Hp. destruct (json_dumps_head v Hp) as (c & t & -> & Hc & _).
  cbn [app skip_ws]. rewrite Hc. reflexivity.
Qed.

Lemma json_dumps_length (v : json) :
  plain v = true -> 1 <= List.length (json_dumps v).
Proof.
  intros Hp. destruct (json_dumps_head v Hp) as (c & t & -> & _ & _).
  cbn [List.length]. lia.
Qed.
End RoundTrip.

(** ** Nesting and digits of lists and dictionaries *)

Lemma nesting_list_le (l : list json) (dp : nat) :
  nesting (JList l) <= S dp <-> Forall (fun x => nesting x <= dp) l.
Proof.
  cbn [nesting]. rewrite <- Nat.succ_le_mono.
  induction l as [|x r IH].
  - split; [constructor | lia].
  - rewrite Nat.max_lub_iff, IH. split.
    + intros [Hx Hr]. constructor; assumption.
    + intros Hf. inversion Hf; subst. split; assumption.
Qed.

Lemma nesting_dict_le (d : dict) (dp : nat) :
  nesting (JDict d) <= S dp <-> Forall (fun kv => nesting (snd kv) <= dp) d.
Proof.
  cbn [nesting]. rewrite <- Nat.succ_le_mono.
  induction d as [|[k x] r IH].
  - split; [constructor | lia].
  - rewrite Nat.max_lub_iff, IH. split.
    + intros [Hx Hr]. constructor; assumption.
    + intros Hf. inversion Hf; subst. split; assumption.
Qed.

Lemma nesting_list_pos (l : list json) : 1 <= nesting (JList l).
Proof. cbn [nesting]. lia. Qed.

Lemma nesting_dict_pos (d : dict) : 1 <= nesting (JDict d).
Proof. cbn [nesting]. lia. Qed.

Lemma digits_fit_list (lim : limits) (l : list json) :
  digits_fit lim (JList l) = forallb (digits_fit lim) l.
Proof.
  cbn [digits_fit]. induction l as [|x r IH]; [reflexivity|].
  cbn [forallb]. rewrite <- IH. reflexivity.
Qed.

Lemma digits_fit_dict (lim : limits) (d : dict) :
  digits_fit lim (JDict d) = forallb (fun kv => digits_fit lim (snd kv)) d.
Proof.
  cbn [digits_fit]. induction d as [|[k x] r IH]; [reflexivity|].
  cbn [forallb snd]. rewrite <- IH. reflexivity.
Qed.

Section ReadsBack.
Context `{FloatText}.
Variable lim : limits.

Lemma items_text_cons (x : json) (r : list json) :
  items_text (x :: r) =
  json_dumps x ++ match r with [] => [] | _ :: _ => py ", " ++ items_text r end.
Proof. destruct r; [cbn [items_text]; rewrite app_nil_r|]; reflexivity. Qed.

Lemma members_text_cons (k : pystr) (x : json) (r : dict) :
  members_text ((k, x) :: r) =
  encode_str k ++ py ": " ++ json_dumps x ++
  match r with [] => [] | _ :: _ => py ", " ++ members_text r end.
Proof.
  destruct r as [|[k' y] r]; [cbn [members_text]; rewrite app_nil_r|];
    reflexivity.
Qed.

(** The elements of a list, up to the closing bracket. *)
Lemma scan_items_reads (l : list json) : forall x acc fuel depth rest,
  Forall (reads_back lim) (x :: l) ->
  forallb plain (x :: l) = true ->
  forallb (digits_fit lim) (x :: l) = true ->
  Forall (fun y => nesting y <= depth) (x :: l) ->
  List.length (items_text (x :: l)) + 2 <= fuel ->
  scan_items lim fuel depth (items_text (x :: l) ++ 93%N :: rest) acc =
  Scanned (JList (rev acc ++ x :: l), rest).
Proof.
  induction l as [|y l IH]; intros x acc fuel depth rest Hrb Hp Hd Hn Hfuel.
  - inversion Hrb as [|? ? Hx _]; subst.
    cbn [forallb] in Hp. apply andb_true_iff in Hp as [Hpx _].
    cbn [forallb] in Hd. apply andb_true_iff in Hd as [Hdx _].
    inversion Hn as [|? ? Hnx _]; subst.
    cbn [items_text] in *.
    destruct fuel as [|f]; [lia|]. cbn [scan_items].
    rewrite (Hx Hpx Hdx f depth (93%N :: rest)) by (lia || reflexivity).
    change (skip_ws (93%N :: ?r)) with (93%N :: r). cbv iota.
    change (93 =? 93)%N with true. cbv iota. reflexivity.
  - inversion Hrb as [|? ? Hx Hrest]; subst.
    pose proof Hp as Hp'. cbn [forallb] in Hp.
    apply andb_true_iff in Hp as [Hpx Hpl].
    cbn [forallb] in Hd. apply andb_true_iff in Hd as [Hdx Hdl].
    inversion Hn as [|? ? Hnx Hnl]; subst.
    rewrite items_text_cons in *. rewrite py_comma in *.
    rewrite <- !app_assoc. cbn [app].
    rewrite !length_app in Hfuel. cbn [List.length] in Hfuel.
    pose proof (json_dumps_length x Hpx) as Hlen.
    destruct fuel as [|f]; [lia|]. cbn [scan_items].
    rewrite (Hx Hpx Hdx f depth
               (44%N :: 32%N :: items_text (y :: l) ++ 93%N :: rest))
      by (lia || reflexivity).
    assert (Hhead : exists c t, items_text (y :: l) = c :: t /\ is_ws c = false).
    { cbn [forallb] in Hpl. apply andb_true_iff in Hpl as [Hpy _].
      destruct (json_dumps_head y Hpy) as (c & t & E & Hc & _).
      rewrite items_text_cons, E. exists c. eexists. split; [reflexivity | exact Hc]. }
    destruct Hhead as (c & t & Ehead & Hc).
    change (skip_ws (44%N :: ?r)) with (44%N :: r). cbv iota.
    change (44 =? 93)%N with false. change (44 =? 44)%N with true. cbv iota.
    change (skip_ws (32%N :: ?r)) with (skip_ws r).
    assert (Hskip : skip_ws (items_text (y :: l) ++ 93%N :: rest) =
                    items_text (y :: l) ++ 93%N :: rest).
    { rewrite Ehead. cbn [app skip_ws]. rewrite Hc. reflexivity. }
    rewrite Hskip, (IH y (x :: acc) f depth rest Hrest Hpl Hdl Hnl) by lia.
    cbn [rev]. rewrite <- app_assoc. reflexivity.
Qed.

(** The members of an object, up to the closing brace. *)
Lemma scan_members_reads (d : dict) : forall k x acc fuel depth rest,
  Forall (fun kv => reads_back lim (snd kv)) ((k, x) :: d) ->
  forallb (fun kv => forallb scalar (fst kv) && plain (snd kv)) ((k, x) :: d)
    = true ->
  forallb (fun kv => digits_fit lim (snd kv)) ((k, x) :: d) = true ->
  Forall (fun kv => nesting (snd kv) <= depth) ((k, x) :: d) ->
  NoDup (dict_keys acc ++ k :: dict_keys d) ->
  List.length (members_text ((k, x) :: d)) + 2 <= fuel ->
  scan_members lim fuel depth (members_text ((k, x) :: d) ++ 125%N :: rest) acc =
  Scanned (JDict (acc ++ (k, x) :: d), rest).
Proof.
  induction d as [|[k' y] d IH];
    intros k x acc fuel depth rest Hrb Hp Hd Hn Hnd Hfuel.
  - inversion Hrb as [|? ? Hx _]; subst. cbn [snd] in Hx.
    cbn [forallb fst snd] in Hp. rewrite andb_true_r in Hp.
    apply andb_true_iff in Hp as [Hk Hpx].
    cbn [forallb snd] in Hd. apply andb_true_iff in Hd as [Hdx _].
    inversion Hn as [|? ? Hnx _]; subst. cbn [snd] in Hnx.
    cbn [members_text] in *. rewrite py_colon in *. unfold encode_str in *.
    cbn [app] in *. rewrite <- !app_assoc in *. cbn [app] in *.
    cbn [List.length] in Hfuel. rewrite !length_app in Hfuel.
    cbn [List.length] in Hfuel.
    destruct fuel as [|f]; [lia|]. cbn [scan_members].
    change (34 =? 34)%N with true. cbv iota.
    rewrite scanstring_encode by exact Hk. cbn [rev app].
    change (skip_ws (58%N :: ?r)) with (58%N :: r). cbv iota.
    change (58 =? 58)%N with true. cbv iota.
    change (skip_ws (32%N :: ?r)) with (skip_ws r).
    rewrite (skip_ws_dumps x (125%N :: rest) Hpx).
    rewrite (Hx Hpx Hdx f depth (125%N :: rest)) by (lia || reflexivity).
    change (skip_ws (125%N :: ?r)) with (125%N :: r). cbv iota.
    change (125 =? 125)%N with true. cbv iota.
    rewrite dict_set_fresh.
    + reflexivity.
    + cbn [dict_keys map] in Hnd. apply NoDup_remove_2 in Hnd.
      rewrite app_nil_r in Hnd. exact Hnd.
  - inversion Hrb as [|? ? Hx Hrest]; subst. cbn [snd] in Hx.
    cbn [forallb] in Hp. apply andb_true_iff in Hp as [Hkx Hpd].
    cbn [fst snd] in Hkx. apply andb_true_iff in Hkx as [Hk Hpx].
    cbn [forallb] in Hd. apply andb_true_iff in Hd as [Hdx Hdd].
    cbn [snd] in Hdx.
    inversion Hn as [|? ? Hnx Hnd']; subst. cbn [snd] in Hnx.
    rewrite members_text_cons in *. rewrite py_colon, py_comma in *.
    unfold encode_str in *.
    cbn [app] in *. rewrite <- !app_assoc in *. cbn [app] in *.
    cbn [List.length] in Hfuel. rewrite !length_app in Hfuel.
    cbn [List.length] in Hfuel. rewrite !length_app in Hfuel.
    cbn [List.length] in Hfuel.
    pose proof (json_dumps_length x Hpx) as Hlen.
    destruct fuel as [|f]; [lia|]. cbn [scan_members].
    change (34 =? 34)%N with true. cbv iota.
    rewrite scanstring_encode by exact Hk. cbn [rev app].
    change (skip_ws (58%N :: ?r)) with (58%N :: r). cbv iota.
    change (58 =? 58)%N with true. cbv iota.
    change (skip_ws (32%N :: ?r)) with (skip_ws r).
    rewrite <- !app_assoc. cbn [app].
    rewrite (skip_ws_dumps x _ Hpx).
    rewrite (Hx Hpx Hdx f depth
               (44%N :: 32%N :: members_text ((k', y) :: d) ++ 125%N :: rest))
      by (lia || reflexivity).
    change (skip_ws (44%N :: ?r)) with (44%N :: r). cbv iota.
    change (44 =? 125)%N with false. change (44 =? 44)%N with true. cbv iota.
    change (skip_ws (32%N :: ?r)) with (skip_ws r).
    assert (Hskip : skip_ws (members_text ((k', y) :: d) ++ 125%N :: rest) =
                    members_text ((k', y) :: d) ++ 125%N :: rest).
    { rewrite members_text_cons. unfold encode_str. reflexivity. }
    assert (Hfresh : ~ In k (dict_keys acc)).
    { apply NoDup_remove_2 in Hnd. intros Hin. apply Hnd.
      apply in_or_app. left. exact Hin. }
    rewrite Hskip, dict_set_fresh by exact Hfresh.
    rewrite (IH k' y (acc ++ [(k, x)]) f depth rest Hrest Hpd Hdd Hnd').
    + rewrite <- app_assoc. reflexivity.
    + unfold dict_keys in *. rewrite map_app. cbn [map fst] in *.
      rewrite <- app_assoc. exact Hnd.
    + lia.
Qed.
End ReadsBack.

Section ReadsBackAll.
Context `{FloatText}.
Variable lim : limits.

(** With a digit or a minus sign first, the scanner reads a number. *)
Lemma scan_once_int (f depth : nat) (z : Z) (rest : pystr) :
  scan_once lim (S f) depth (int_str z ++ rest) =
  scan_number lim (int_str z ++ rest).
Proof.
  destruct (int_str_digits z) as (d & ds & Hstr & Hdig & _).
  cbn [forallb] in Hdig. apply andb_true_iff in Hdig as [Hd _].
  rewrite Hstr. destruct (z <? 0)%Z; cbn [app scan_once].
  - change (45 =? 34)%N with false. change (45 =? 123)%N with false.
    change (45 =? 91)%N with false. change (45 =? 110)%N with false.
    change (45 =? 116)%N with false. change (45 =? 102)%N with false.
    change (45 =? 78)%N with false. change (45 =? 73)%N with false.
    change (45 =? 45)%N with true. cbv iota.
    unfold scan_literal. rewrite py_lit_minus_inf. cbn [strip_prefix].
    change (45 =? 45)%N with true. cbv iota.
    rewrite N.eqb_sym, (is_digit_not d 73 Hd eq_refl). reflexivity.
  - rewrite (is_digit_not d 34 Hd eq_refl), (is_digit_not d 123 Hd eq_refl),
      (is_digit_not d 91 Hd eq_refl), (is_digit_not d 110 Hd eq_refl),
      (is_digit_not d 116 Hd eq_refl), (is_digit_not d 102 Hd eq_refl),
      (is_digit_not d 78 Hd eq_refl), (is_digit_not d 73 Hd eq_refl),
      (is_digit_not d 45 Hd eq_refl).
    reflexivity.
Qed.

(** Every plain value reads back. *)
Lemma reads_back_all (v : json) : reads_back lim v.
Proof.
  induction v as [ | b | z | lit | s | l IHl | d IHd ] using json_induction;
    unfold reads_back;
    intros Hp Hd fuel depth rest Hfuel Hn Hs;
    (destruct fuel as [|f]; [lia|]).
  - cbn [json_dumps]. rewrite py_lit_null. cbn [app scan_once].
    change (110 =? 34)%N with false. change (110 =? 123)%N with false.
    change (110 =? 91)%N with false. change (110 =? 110)%N with true.
    cbv iota. unfold scan_literal. rewrite py_lit_null. reflexivity.
  - destruct b; cbn [json_dumps].
    + rewrite py_lit_true. cbn [app scan_once].
      change (116 =? 34)%N with false. change (116 =? 123)%N with false.
      change (116 =? 91)%N with false. change (116 =? 110)%N with false.
      change (116 =? 116)%N with true.
      cbv iota. unfold scan_literal. rewrite py_lit_true. reflexivity.
    + rewrite py_lit_false. cbn [app scan_once].
      change (102 =? 34)%N with false. change (102 =? 123)%N with false.
      change (102 =? 91)%N with false. change (102 =? 110)%N with false.
      change (102 =? 116)%N with false. change (102 =? 102)%N with true.
      cbv iota. unfold scan_literal. rewrite py_lit_false. reflexivity.
  - cbn [json_dumps]. rewrite scan_once_int. apply scan_number_int.
    + cbn [digits_fit] in Hd. apply negb_true_iff in Hd. exact Hd.
    + exact Hs.
  - discriminate Hp.
  - cbn [json_dumps plain] in *. unfold encode_str.
    cbn [app scan_once]. change (34 =? 34)%N with true. cbv iota.
    rewrite <- app_assoc. cbn [app].
    rewrite scanstring_encode by exact Hp. reflexivity.
  - rewrite plain_list in Hp. rewrite digits_fit_list in Hd.
    destruct depth as [|dp]; [pose proof (nesting_list_pos l); lia|].
    apply nesting_list_le in Hn.
    rewrite json_dumps_list in *.
    rewrite py_open_bracket, py_close_bracket in *.
    cbn [app] in *. rewrite <- app_assoc. cbn [app scan_once].
    change (91 =? 34)%N with false. change (91 =? 123)%N with false.
    change (91 =? 91)%N with true. cbv iota.
    destruct l as [|x l].
    + cbn [items_text app]. change (skip_ws (93%N :: ?r)) with (93%N :: r).
      cbv iota. change (93 =? 93)%N with true. reflexivity.
    + assert (Hhead : exists c t,
                 items_text (x :: l) = c :: t /\ is_ws c = false /\
                 (c =? 93)%N = false).
      { pose proof Hp as Hp'. cbn [forallb] in Hp'.
        apply andb_true_iff in Hp' as [Hpx _].
        destruct (json_dumps_head x Hpx) as (c & t & E & Hc & Hc').
        rewrite items_text_cons, E. exists c. eexists.
        split; [reflexivity | split; assumption]. }
      destruct Hhead as (c & t & Ehead & Hc & Hc').
      pose proof (scan_items_reads lim l x [] f dp rest IHl Hp Hd Hn) as Hitems.
      rewrite Ehead in *. cbn [app skip_ws] in *. rewrite Hc, Hc'.
      apply Hitems. cbn [List.length] in *. rewrite length_app in Hfuel.
      cbn [List.length] in Hfuel. lia.
  - rewrite plain_dict in Hp. apply andb_true_iff in Hp as [Hkeys Hp].
    apply keys_distinct_NoDup in Hkeys.
    rewrite digits_fit_dict in Hd.
    destruct depth as [|dp]; [pose proof (nesting_dict_pos d); lia|].
    apply nesting_dict_le in Hn.
    rewrite json_dumps_dict in *.
    rewrite py_open_brace, py_close_brace in *.
    cbn [app] in *. rewrite <- app_assoc. cbn [app scan_once].
    change (123 =? 34)%N with false. change (123 =? 123)%N with true.
    cbv iota.
    destruct d as [|[k x] d].
    + cbn [members_text app]. change (skip_ws (125%N :: ?r)) with (125%N :: r).
      cbv iota. change (125 =? 125)%N with true. reflexivity.
    + pose proof (scan_members_reads lim d k x [] f dp rest IHd Hp Hd Hn Hkeys)
        as Hmem.
      rewrite members_text_cons in *. unfold encode_str in *.
      cbn [app skip_ws is_ws] in *.
      change (34 =? 125)%N with false. cbv iota.
      apply Hmem. cbn [List.length] in *. rewrite !length_app in *.
      cbn [List.length] in *. lia.
Qed.

Lemma json_loads_dumps (v : json) :
  plain v = true -> within lim v = true ->
  json_loads lim (json_dumps v) = Scanned v.
Proof.
  intros Hp Hw. unfold json_loads.
  apply andb_true_iff in Hw as [Hd Hn]. apply Nat.leb_le in Hn.
  pose proof (skip_ws_dumps v [] Hp) as Hskip. rewrite app_nil_r in Hskip.
  pose proof (reads_back_all v Hp Hd (2 * List.length (json_dumps v) + 2)
                (max_nesting lim) []) as Hr.
  rewrite app_nil_r in Hr. rewrite Hskip, Hr by (lia || reflexivity).
  reflexivity.
Qed.
End ReadsBackAll.

(** ** The text [json.dumps] writes is ASCII *)

Lemma json_safe_scalar (c : N) : json_safe c = true -> scalar c = true.
Proof.
  unfold json_safe, scalar. intros Hc.
  apply andb_true_iff in Hc as [Hc _]. apply andb_true_iff in Hc as [Hc _].
  apply andb_true_iff in Hc as [H1 H2].
  apply N.leb_le in H1. apply N.leb_le in H2.
  apply andb_true_iff. split; [apply N.ltb_lt; lia|].
  apply negb_true_iff, andb_false_iff. left. apply N.leb_gt. lia.
Qed.

Lemma is_digit_safe (c : N) : is_digit c = true -> json_safe c = true.
Proof.
  unfold is_digit, json_safe. intros Hc. apply andb_true_iff in Hc as [H1 H2].
  apply N.leb_le in H1. apply N.leb_le in H2.
  repeat (apply andb_true_iff; split);
    first [apply N.leb_le; lia | apply negb_true_iff, N.eqb_neq; lia].
Qed.

Lemma escape_char_safe (c : N) : json_safe c = true -> escape_char c = [c].
Proof.
  unfold json_safe. intros Hc.
  apply andb_true_iff in Hc as [Hc H92]. apply andb_true_iff in Hc as [Hc H34].
  pose proof Hc as Hpr. apply andb_true_iff in Hc as [H1 H2].
  apply N.leb_le in H1. apply negb_true_iff in H34, H92.
  unfold escape_char. rewrite H34, H92, Hpr.
  repeat match goal with
         | |- context [(c =? ?k)%N] =>
             replace (c =? k)%N with false by (symmetry; apply N.eqb_neq; lia)
         end.
  reflexivity.
Qed.

(** A string of such characters is written between quotes unchanged. *)
Lemma encode_str_safe (s : pystr) :
  forallb json_safe s = true -> encode_str s = 34%N :: s ++ [34%N].
Proof.
  intros Hs. unfold encode_str. do 2 f_equal.
  induction s as [|c s IH]; [reflexivity|].
  cbn [forallb] in Hs. apply andb_true_iff in Hs as [Hc Hs].
  cbn [flat_map]. rewrite (escape_char_safe c Hc), (IH Hs). reflexivity.
Qed.

Lemma forallb_imp (A : Type) (p q : A -> bool) (l : list A) :
  (forall x, p x = true -> q x = true) ->
  forallb p l = true -> forallb q l = true.
Proof.
  intros Hpq. induction l as [|x l IH]; [reflexivity|]. cbn [forallb].
  rewrite !andb_true_iff. intros [Hx Hl]. split; [apply Hpq; exact Hx | exact (IH Hl)].
Qed.

Lemma dec_fixed_digits (w : nat) : forall n, forallb is_digit (dec_fixed w n) = true.
Proof.
  induction w as [|w IH]; intros n; [reflexivity|].
  cbn [dec_fixed]. rewrite forallb_app, IH. cbn [forallb].
  rewrite is_digit_mod10. reflexivity.
Qed.

Lemma dec_fixed_length (w : nat) : forall n, List.length (dec_fixed w n) = w.
Proof.
  induction w as [|w IH]; intros n; [reflexivity|].
  cbn [dec_fixed]. rewrite length_app, IH. cbn [List.length]. lia.
Qed.

Lemma dec_fixed_safe (w : nat) (n : N) : forallb json_safe (dec_fixed w n) = true.
Proof. exact (forallb_imp _ _ _ _ is_digit_safe (dec_fixed_digits w n)). Qed.

(** The timestamp of the script: 20 characters, or 27 with microseconds,
    all of them written as they are by [json.dumps]. *)
Lemma timestamp_safe (dt : datetime) :
  forallb json_safe (isoformat dt ++ py "Z") = true /\
  List.length (isoformat dt ++ py "Z") =
    if (microsecond dt =? 0)%N then 20 else 27.
Proof.
  assert (Hsep : forall s, s = py "-" \/ s = py "T" \/ s = py ":" \/
                           s = py "." \/ s = py "Z" ->
                           forallb json_safe s = true /\ List.length s = 1).
  { intros s [-> | [-> | [-> | [-> | ->]]]]; split; vm_compute; reflexivity. }
  unfold isoformat. split.
  - rewrite !forallb_app, !dec_fixed_safe.
    rewrite !(proj1 (Hsep _ (or_introl eq_refl))).
    rewrite !(proj1 (Hsep (py "T") ltac:(tauto))).
    rewrite !(proj1 (Hsep (py ":") ltac:(tauto))).
    rewrite !(proj1 (Hsep (py "Z") ltac:(tauto))).
    destruct (microsecond dt =? 0)%N; [reflexivity|].
    rewrite forallb_app, dec_fixed_safe, (proj1 (Hsep (py ".") ltac:(tauto))).
    reflexivity.
  - rewrite !length_app, !dec_fixed_length.
    rewrite !(proj2 (Hsep _ (or_introl eq_refl))).
    rewrite !(proj2 (Hsep (py "T") ltac:(tauto))).
    rewrite !(proj2 (Hsep (py ":") ltac:(tauto))).
    rewrite !(proj2 (Hsep (py "Z") ltac:(tauto))).
    destruct (microsecond dt =? 0)%N; [reflexivity|].
    rewrite length_app, dec_fixed_length, (proj2 (Hsep (py ".") ltac:(tauto))).
    reflexivity.
Qed.

Lemma is_ascii_scalar (c : N) : is_ascii c = true -> scalar c = true.
Proof.
  unfold is_ascii, scalar. intros Hc. apply N.ltb_lt in Hc.
  apply andb_true_iff. split; [apply N.ltb_lt; lia|].
  apply negb_true_iff, andb_false_iff. left. apply N.leb_gt. lia.
Qed.

Lemma is_digit_ascii (c : N) : is_digit c = true -> is_ascii c = true.
Proof.
  unfold is_digit, is_ascii. intros Hc. apply andb_true_iff in Hc as [_ H2].
  apply N.leb_le in H2. apply N.ltb_lt. lia.
Qed.

Lemma hex_fixed_ascii (w : nat) : forall x, forallb is_ascii (hex_fixed w x) = true.
Proof.
  induction w as [|w IH]; intros x; [reflexivity|].
  cbn [hex_fixed]. rewrite forallb_app, IH. cbn [forallb].
  rewrite andb_true_r.
  exact (forall_below_spec 16 (fun d => is_ascii (hex_digit d))
           ltac:(vm_compute; reflexivity) (x mod 16)%N
           (N.mod_lt x 16 ltac:(discriminate))).
Qed.

(** Whatever the character, its escape is ASCII. *)
Lemma escape_char_ascii (c : N) : forallb is_ascii (escape_char c) = true.
Proof.
  unfold escape_char.
  destruct (c =? 34)%N; [reflexivity|].
  destruct (c =? 92)%N; [rewrite py_escape_backslash; reflexivity|].
  destruct (c =? 10)%N; [rewrite py_escape_n; reflexivity|].
  destruct (c =? 13)%N; [rewrite py_escape_r; reflexivity|].
  destruct (c =? 9)%N; [rewrite py_escape_t; reflexivity|].
  destruct (c =? 8)%N; [rewrite py_escape_b; reflexivity|].
  destruct (c =? 12)%N; [rewrite py_escape_f; reflexivity|].
  destruct ((32 <=? c) && (c <=? 126))%N eqn:Epr.
  { cbn [forallb]. rewrite andb_true_r. unfold is_ascii.
    apply andb_true_iff in Epr as [H1 H2].
    apply N.leb_le in H2. apply N.ltb_lt. lia. }
  rewrite py_escape_u.
  destruct (c <? 65536)%N; cbv zeta;
    rewrite ?forallb_app, ?hex_fixed_ascii; reflexivity.
Qed.

Lemma encode_str_ascii (s : pystr) : forallb is_ascii (encode_str s) = true.
Proof.
  unfold encode_str. cbn [forallb]. rewrite forallb_app. cbn [forallb].
  rewrite andb_true_r. change (is_ascii 34) with true. cbn [andb].
  induction s as [|c s IH]; [reflexivity|].
  cbn [flat_map]. rewrite forallb_app, escape_char_ascii, IH. reflexivity.
Qed.

Lemma int_str_ascii (z : Z) : forallb is_ascii (int_str z) = true.
Proof.
  destruct (int_str_digits z) as (d & ds & -> & Hdig & _).
  rewrite forallb_app.
  rewrite (forallb_imp _ _ _ _ is_digit_ascii Hdig).
  destruct (z <? 0)%Z; reflexivity.
Qed.

Section DumpsAscii.
Context `{FloatText}.

(** The text of a plain value is ASCII. *)
Lemma json_dumps_ascii (v : json) :
  plain v = true -> forallb is_ascii (json_dumps v) = true.
Proof.
  induction v as [ | b | z | lit | s | l IHl | d IHd ] using json_induction;
    intros Hp.
  - vm_compute; reflexivity.
  - destruct b; vm_compute; reflexivity.
  - apply int_str_ascii.
  - discriminate Hp.
  - apply encode_str_ascii.
  - rewrite plain_list in Hp. rewrite json_dumps_list.
    rewrite py_open_bracket, py_close_bracket, !forallb_app.
    change (forallb is_ascii [91%N]) with true.
    change (forallb is_ascii [93%N]) with true.
    rewrite andb_true_r. cbn [andb].
    induction l as [|x l IH]; [reflexivity|].
    inversion IHl as [|? ? Hx Hl]; subst.
    cbn [forallb] in Hp. apply andb_true_iff in Hp as [Hpx Hpl].
    rewrite items_text_cons, forallb_app, (Hx Hpx). cbn [andb].
    destruct l as [|y l]; [reflexivity|].
    rewrite py_comma, forallb_app, (IH Hl Hpl). reflexivity.
  - rewrite plain_dict in Hp. apply andb_true_iff in Hp as [_ Hp].
    rewrite json_dumps_dict.
    rewrite py_open_brace, py_close_brace, !forallb_app.
    change (forallb is_ascii [123%N]) with true.
    change (forallb is_ascii [125%N]) with true.
    rewrite andb_true_r. cbn [andb].
    induction d as [|[k x] d IH]; [reflexivity|].
    inversion IHd as [|? ? Hx Hd]; subst. cbn [snd] in Hx.
    cbn [forallb fst snd] in Hp. apply andb_true_iff in Hp as [Hkx Hpd].
    apply andb_true_iff in Hkx as [_ Hpx].
    rewrite members_text_cons, !forallb_app, encode_str_ascii, py_colon,
      (Hx Hpx).
    change (forallb is_ascii [58%N; 32%N]) with true. cbn [andb].
    destruct d as [|[k' y] d]; [reflexivity|].
    rewrite py_comma, forallb_app, (IH Hd Hpd). reflexivity.
Qed.

Lemma plain_dict_get (k : pystr) (d : dict) (v : json) :
  plain (JDict d) = true -> dict_get k d = Some v -> plain v = true.
Proof.
  rewrite plain_dict. intros Hp. apply andb_true_iff in Hp as [_ Hp].
  induction d as [|[k0 v0] d IH]; cbn [dict_get]; [discriminate|].
  cbn [forallb fst snd] in Hp. apply andb_true_iff in Hp as [Hkv Hd].
  apply andb_true_iff in Hkv as [_ Hv0].
  destruct (pystr_eqb k k0); [intros E; inversion E; subst; exact Hv0|].
  exact (IH Hd).
Qed.

(** Assigning a plain value under a key of scalar values keeps a
    dictionary plain. *)
Lemma plain_dict_set (k : pystr) (v : json) (d : dict) :
  plain (JDict d) = true -> forallb scalar k = true -> plain v = true ->
  plain (JDict (dict_set k v d)) = true.
Proof.
  rewrite !plain_dict. intros Hp Hk Hv.
  apply andb_true_iff in Hp as [Hkeys Hp].
  apply andb_true_iff. split.
  - apply keys_distinct_NoDup. apply (NoDup_dict_set k v d).
    apply keys_distinct_NoDup. exact Hkeys.
  - clear Hkeys. induction d as [|[k0 v0] d IH]; cbn [dict_set forallb fst snd].
    + rewrite Hk, Hv. reflexivity.
    + cbn [forallb fst snd] in Hp. apply andb_true_iff in Hp as [Hkv Hd].
      destruct (pystr_eqb k k0); cbn [forallb fst snd].
      * apply andb_true_iff in Hkv as [Hk0 _]. rewrite Hk0, Hv, Hd. reflexivity.
      * rewrite Hkv, (IH Hd). reflexivity.
Qed.

Lemma plain_transformed (ts : pystr) (d : dict) :
  plain (JDict d) = true -> forallb scalar ts = true ->
  plain (JDict (transformed ts d)) = true.
Proof.
  intros Hp Hts.
  assert (Hs : plain (JDict (stamped ts d)) = true).
  { unfold stamped.
    repeat (apply plain_dict_set; [| vm_compute; reflexivity | exact Hts]).
    exact Hp. }
  unfold transformed. destruct (dict_get k_scores d) as [v|] eqn:E; [|exact Hs].
  destruct (is_list v); [|exact Hs].
  apply plain_dict_set; [exact Hs | vm_compute; reflexivity |].
  cbn [plain]. apply (forallb_imp _ _ _ _ is_ascii_scalar).
  apply json_dumps_ascii. exact (plain_dict_get _ _ _ Hp E).
Qed.
End DumpsAscii.

(** ** What the scanner returns is within the limits *)

Lemma take_digits_digits (s : pystr) : forall ds r,
  take_digits s = (ds, r) -> forallb is_digit ds = true.
Proof.
  induction s as [|c s IH]; intros ds r; cbn [take_digits].
  - intros E; inversion E; reflexivity.
  - destruct (is_digit c) eqn:Hc.
    + destruct (take_digits s) as [ds' r'] eqn:E'.
      intros E; inversion E; subst.
      cbn [forallb]. rewrite Hc. exact (IH _ _ eq_refl).
    + intros E; inversion E; reflexivity.
Qed.

Lemma digits_value_nonneg (s : pystr) : (0 <= digits_value s)%Z.
Proof.
  induction s as [|x s IH] using rev_ind; [reflexivity|].
  rewrite digits_value_app. lia.
Qed.

Lemma is_digit_range (c : N) : is_digit c = true -> (48 <= c <= 57)%N.
Proof.
  unfold is_digit. intros Hc. apply andb_true_iff in Hc as [H1 H2].
  apply N.leb_le in H1. apply N.leb_le in H2. lia.
Qed.

(** Digits that do not begin with a zero denote a positive number. *)
Lemma digits_value_pos (s : pystr) (c : N) :
  is_digit c = true -> c <> 48%N -> forallb is_digit s = true ->
  (1 <= digits_value (c :: s))%Z.
Proof.
  intros Hc Hne. apply is_digit_range in Hc.
  induction s as [|x s IH] using rev_ind; intros Hs.
  - unfold digits_value. cbn [fold_left]. lia.
  - rewrite forallb_app in Hs. apply andb_true_iff in Hs as [Hs _].
    change (c :: s ++ [x]) with ((c :: s) ++ [x]).
    rewrite digits_value_app. specialize (IH Hs). lia.
Qed.

(** [str(int(s)) == s] for digits that do not begin with a zero. *)
Lemma pos_decimal_digits (c : N) (s : pystr) :
  is_digit c = true -> c <> 48%N -> forallb is_digit s = true ->
  forall f acc,
    (Z.to_N (digits_value (c :: s)) < 2 ^ N.of_nat (S f))%N ->
    pos_decimal (S f) (Z.to_N (digits_value (c :: s))) acc = c :: s ++ acc.
Proof.
  intros Hc Hne. pose proof (is_digit_range c Hc) as Hr.
  induction s as [|x s IH] using rev_ind; intros Hs f acc Hn.
  - unfold digits_value in *. cbn [fold_left] in *.
    rewrite Z.mul_0_l, Z.add_0_l, N2Z.id in *.
    rewrite pos_decimal_S.
    rewrite (N.div_small (c - 48) 10) by lia.
    rewrite (N.mod_small (c - 48) 10) by lia.
    change (0 =? 0)%N with true. cbv iota.
    cbn [app]. f_equal. lia.
  - rewrite forallb_app in Hs. apply andb_true_iff in Hs as [Hs Hx].
    cbn [forallb] in Hx. rewrite andb_true_r in Hx.
    apply is_digit_range in Hx.
    pose proof (digits_value_pos s c Hc Hne Hs) as Hpos.
    change (c :: s ++ [x]) with ((c :: s) ++ [x]) in *.
    rewrite digits_value_app in *.
    set (m := Z.to_N (digits_value (c :: s))) in *.
    assert (Em : Z.to_N (digits_value (c :: s) * 10 + Z.of_N (x - 48)) =
                 (10 * m + (x - 48))%N) by (unfold m; lia).
    rewrite Em in *.
    assert (Hm : (1 <= m)%N) by (unfold m; lia).
    assert (Hdiv : ((10 * m + (x - 48)) / 10 = m)%N).
    { symmetry. apply (N.div_unique _ 10 m (x - 48)); lia. }
    assert (Hmod : ((10 * m + (x - 48)) mod 10 = x - 48)%N).
    { symmetry. apply (N.mod_unique _ 10 m (x - 48)); lia. }
    destruct f as [|f].
    { change (2 ^ N.of_nat 1)%N with 2%N in Hn. lia. }
    rewrite pos_decimal_S, Hdiv, Hmod.
    assert (E0 : (m =? 0)%N = false) by (apply N.eqb_neq; lia).
    rewrite E0.
    replace (48 + (x - 48))%N with x by lia.
    rewrite (IH Hs f (x :: acc)).
    + rewrite <- app_assoc. reflexivity.
    + rewrite Nat2N.inj_succ, N.pow_succ_r' in Hn. lia.
Qed.

Lemma int_str_canonical (c : N) (s : pystr) :
  is_digit c = true -> c <> 48%N -> forallb is_digit s = true ->
  int_str (digits_value (c :: s)) = c :: s.
Proof.
  intros Hc Hne Hs. pose proof (digits_value_pos s c Hc Hne Hs) as Hpos.
  unfold int_str.
  assert (E : (digits_value (c :: s) <? 0)%Z = false) by (apply Z.ltb_ge; lia).
  rewrite E, Z.abs_eq by lia.
  set (n := Z.to_N (digits_value (c :: s))).
  assert (Hn : (n < 2 ^ N.of_nat (S (N.to_nat (N.log2 n))))%N).
  { rewrite Nat2N.inj_succ, N2Nat.id. apply N.log2_spec. unfold n. lia. }
  unfold n in *. rewrite (pos_decimal_digits c s Hc Hne Hs _ [] Hn).
  rewrite app_nil_r. reflexivity.
Qed.

(** The integer part the scanner takes is the text of its value. *)
Lemma scan_int_part_str (s ip r : pystr) :
  scan_int_part s = Some (ip, r) -> int_str (digits_value ip) = ip.
Proof.
  unfold scan_int_part. destruct s as [|c s]; [discriminate|].
  destruct (c =? 48)%N eqn:E0.
  - apply N.eqb_eq in E0. subst c. intros E; inversion E. reflexivity.
  - destruct (is_digit c) eqn:Hc; [|discriminate].
    destruct (take_digits s) as [ds r'] eqn:Et.
    intros E; inversion E; subst.
    apply int_str_canonical; [exact Hc | | exact (take_digits_digits _ _ _ Et)].
    apply N.eqb_neq. exact E0.
Qed.

Lemma fits_mono (lim : limits) (dp dp' : nat) (v : json) :
  dp <= dp' -> fits lim dp v -> fits lim dp' v.
Proof. intros Hle [Hd Hn]. split; [exact Hd | lia]. Qed.

Lemma fits_list (lim : limits) (dp : nat) (l : list json) :
  Forall (fits lim dp) l <-> fits lim (S dp) (JList l).
Proof.
  unfold fits. rewrite digits_fit_list, nesting_list_le, forallb_forall.
  rewrite !Forall_forall. split.
  - intros Hl. split; intros x Hx; apply (Hl x Hx).
  - intros [Hd Hn] x Hx. split; [apply (Hd x Hx) | apply (Hn x Hx)].
Qed.

Lemma fits_dict (lim : limits) (dp : nat) (d : dict) :
  Forall (fun kv => fits lim dp (snd kv)) d <-> fits lim (S dp) (JDict d).
Proof.
  unfold fits. rewrite digits_fit_dict, nesting_dict_le, forallb_forall.
  rewrite !Forall_forall. split.
  - intros Hl. split; intros x Hx; apply (Hl x Hx).
  - intros [Hd Hn] x Hx. split; [apply (Hd x Hx) | apply (Hn x Hx)].
Qed.

Lemma Forall_dict_set (P : json -> Prop) (k : pystr) (v : json) (d : dict) :
  Forall (fun kv => P (snd kv)) d -> P v ->
  Forall (fun kv => P (snd kv)) (dict_set k v d).
Proof.
  intros Hd Hv. induction d as [|[k0 v0] d IH]; cbn [dict_set].
  - constructor; [exact Hv | constructor].
  - inversion Hd as [|? ? H0 Hrest]; subst.
    destruct (pystr_eqb k k0); constructor;
      [exact Hv | exact Hrest | exact H0 | exact (IH Hrest)].
Qed.

Lemma Forall_dict_get (P : json -> Prop) (k : pystr) (v : json) (d : dict) :
  Forall (fun kv => P (snd kv)) d -> dict_get k d = Some v -> P v.
Proof.
  intros Hd. induction d as [|[k0 v0] d IH]; cbn [dict_get]; [discriminate|].
  inversion Hd as [|? ? H0 Hrest]; subst.
  destruct (pystr_eqb k k0); [intros E; inversion E; subst; exact H0|].
  exact (IH Hrest).
Qed.

Section ScannedFits.
Variable lim : limits.

(** A number the scanner returns is within the digit limit. *)
Lemma scan_number_fits (s r : pystr) (v : json) :
  scan_number lim s = Scanned (v, r) -> fits lim 0 v.
Proof.
  unfold scan_number.
  destruct (match s with
            | c :: r0 => if (c =? 45)%N then (true, r0) else (false, s)
            | [] => (false, s)
            end) as [neg s1].
  destruct (scan_int_part s1) as [[ip s2]|] eqn:Ei; [|discriminate].
  destruct (scan_frac s2) as [fp s3]. destruct (scan_exp s3) as [ep s4].
  assert (Hint : over_digit_limit lim (N.of_nat (List.length ip)) = false ->
                 fits lim 0 (JInt (if neg then (- digits_value ip)%Z
                                   else digits_value ip))).
  { intros Hlim. split; [|apply Nat.le_refl].
    cbn [digits_fit]. apply negb_true_iff. unfold int_digits.
    pose proof (digits_value_nonneg ip) as Hnn.
    replace (Z.abs (if neg then (- digits_value ip)%Z else digits_value ip))
      with (digits_value ip) by (destruct neg; lia).
    rewrite (scan_int_part_str _ _ _ Ei). exact Hlim. }
  destruct fp; destruct ep;
    try (intros E; inversion E; split; [reflexivity | apply Nat.le_refl]).
  cbv zeta.
  destruct (over_digit_limit lim (N.of_nat (List.length ip))) eqn:Hlim;
    [discriminate|].
  intros E; inversion E. apply Hint. reflexivity.
Qed.

(** What the scanner returns holds no integer over the digit limit, and is
    nested no deeper than the scanner could enter. *)
Lemma scan_fits (fuel : nat) :
  (forall depth s v r,
     scan_once lim fuel depth s = Scanned (v, r) -> fits lim depth v) /\
  (forall depth s acc v r,
     Forall (fits lim depth) acc ->
     scan_items lim fuel depth s acc = Scanned (v, r) ->
     fits lim (S depth) v) /\
  (forall depth s acc v r,
     Forall (fun kv => fits lim depth (snd kv)) acc ->
     scan_members lim fuel depth s acc = Scanned (v, r) ->
     fits lim (S depth) v).
Proof.
  induction fuel as [|f (IHo & IHi & IHm)].
  { split; [|split]; intros; discriminate. }
  assert (Hscalar : forall depth v, nesting v = 0 -> digits_fit lim v = true ->
                                    fits lim depth v).
  { intros depth v Hn Hd. split; [exact Hd | lia]. }
  split; [|split].
  - intros depth s v r. cbn [scan_once].
    destruct s as [|c s]; [discriminate|].
    destruct (c =? 34)%N.
    { destruct (scanstring s []) as [[x r1]|]; [|discriminate].
      intros E; inversion E. apply Hscalar; reflexivity. }
    destruct (c =? 123)%N.
    { destruct depth as [|dp]; [discriminate|].
      destruct (skip_ws s) as [|c' r']; [discriminate|].
      destruct (c' =? 125)%N.
      - intros E; inversion E. apply fits_dict. constructor.
      - apply IHm. constructor. }
    destruct (c =? 91)%N.
    { destruct depth as [|dp]; [discriminate|].
      destruct (skip_ws s) as [|c' r']; [discriminate|].
      destruct (c' =? 93)%N.
      - intros E; inversion E. apply fits_list. constructor.
      - apply IHi. constructor. }
    assert (Hlit : forall lit v0,
               nesting v0 = 0 -> digits_fit lim v0 = true ->
               or_malformed (scan_literal lit v0 (c :: s)) = Scanned (v, r) ->
               fits lim depth v).
    { intros lit v0 Hn Hd E. apply or_malformed_scanned in E.
      apply scan_literal_value in E. subst v. apply Hscalar; assumption. }
    destruct (c =? 110)%N; [apply Hlit; reflexivity|].
    destruct (c =? 116)%N; [apply Hlit; reflexivity|].
    destruct (c =? 102)%N; [apply Hlit; reflexivity|].
    destruct (c =? 78)%N; [apply Hlit; reflexivity|].
    destruct (c =? 73)%N; [apply Hlit; reflexivity|].
    assert (Hnum : scan_number lim (c :: s) = Scanned (v, r) ->
                   fits lim depth v).
    { intros E. apply scan_number_fits in E.
      apply (fits_mono lim 0 depth); [lia | exact E]. }
    destruct (c =? 45)%N; [|exact Hnum].
    destruct (scan_literal (py "-Infinity") (JFloat (py "-Infinity")) (c :: s))
      as [[v' r']|] eqn:El; [|exact Hnum].
    intros E; inversion E; subst v' r'.
    apply scan_literal_value in El. subst v. apply Hscalar; reflexivity.
  - intros depth s acc v r Hacc. cbn [scan_items].
    destruct (scan_once lim f depth s) as [[x r1]|e] eqn:Ex; [|discriminate].
    apply IHo in Ex.
    destruct (skip_ws r1) as [|c r2]; [discriminate|].
    destruct (c =? 93)%N.
    + intros E; inversion E. apply fits_list.
      change (rev acc ++ [x]) with (rev (x :: acc)). apply Forall_rev.
      constructor; assumption.
    + destruct (c =? 44)%N; [|discriminate].
      apply IHi. constructor; assumption.
  - intros depth s acc v r Hacc. cbn [scan_members].
    destruct s as [|q s]; [discriminate|].
    destruct (q =? 34)%N; [|discriminate].
    destruct (scanstring s []) as [[k r1]|]; [|discriminate].
    destruct (skip_ws r1) as [|colon r2]; [discriminate|].
    destruct (colon =? 58)%N; [|discriminate].
    destruct (scan_once lim f depth (skip_ws r2)) as [[x r3]|e] eqn:Ex;
      [|discriminate].
    apply IHo in Ex.
    pose proof (Forall_dict_set (fits lim depth) k x acc Hacc Ex) as Hacc'.
    destruct (skip_ws r3) as [|c r4]; [discriminate|].
    destruct (c =? 125)%N.
    + intros E; inversion E. apply fits_dict. exact Hacc'.
    + destruct (c =? 44)%N; [|discriminate].
      apply IHm. exact Hacc'.
Qed.

(** What [json.loads] returns is within the limits it was read under. *)
Lemma json_loads_within (text : pystr) (v : json) :
  json_loads lim text = Scanned v -> within lim v = true.
Proof.
  unfold json_loads.
  destruct (scan_once lim (2 * List.length text + 2) (max_nesting lim)
              (skip_ws text)) as [[x r]|e] eqn:E; [|discriminate].
  destruct (skip_ws r); [|discriminate].
  intros Ev; inversion Ev; subst x.
  destruct (scan_fits (2 * List.length text + 2)) as (Ho & _ & _).
  destruct (Ho _ _ _ _ E) as [Hd Hn].
  unfold within. rewrite Hd. apply Nat.leb_le. exact Hn.
Qed.

Lemma within_dict_set (k : pystr) (v : json) (d : dict) :
  within lim (JDict d) = true ->
  digits_fit lim v = true -> S (nesting v) <= max_nesting lim ->
  within lim (JDict (dict_set k v d)) = true.
Proof.
  unfold within. intros Hw Hd Hn.
  apply andb_true_iff in Hw as [Hwd Hwn]. apply Nat.leb_le in Hwn.
  destruct (max_nesting lim) as [|dp] eqn:Em;
    [pose proof (nesting_dict_pos d); lia|].
  assert (Hf : fits lim (S dp) (JDict (dict_set k v d))).
  { apply fits_dict. apply Forall_dict_set.
    - apply fits_dict. split; assumption.
    - split; [exact Hd | lia]. }
  destruct Hf as [Hfd Hfn]. rewrite Hfd. apply Nat.leb_le. exact Hfn.
Qed.

Lemma within_dict_get (k : pystr) (v : json) (d : dict) :
  within lim (JDict d) = true -> dict_get k d = Some v ->
  within lim v = true.
Proof.
  unfold within. intros Hw Hg.
  apply andb_true_iff in Hw as [Hwd Hwn]. apply Nat.leb_le in Hwn.
  destruct (max_nesting lim) as [|dp] eqn:Em;
    [pose proof (nesting_dict_pos d); lia|].
  assert (Hf : fits lim (S dp) (JDict d)) by (split; assumption).
  apply fits_dict in Hf.
  destruct (Forall_dict_get (fits lim dp) k v d Hf Hg) as [Hd Hn].
  rewrite Hd. apply Nat.leb_le. lia.
Qed.
End ScannedFits.

Lemma within_transformed `{FloatText} (lim : limits) (ts : pystr) (d : dict) :
  within lim (JDict d) = true ->
  within lim (JDict (transformed ts d)) = true.
Proof.
  intros Hw.
  assert (Hpos : 1 <= max_nesting lim).
  { unfold within in Hw. apply andb_true_iff in Hw as [_ Hn].
    apply Nat.leb_le in Hn. pose proof (nesting_dict_pos d). lia. }
  assert (Hs : within lim (JDict (stamped ts d)) = true).
  { unfold stamped.
    repeat (apply within_dict_set; [| reflexivity | exact Hpos]).
    exact Hw. }
  unfold transformed. destruct (dict_get k_scores d) as [v|]; [|exact Hs].
  destruct (is_list v); [|exact Hs].
  apply within_dict_set; [exact Hs | reflexivity | exact Hpos].
Qed.

(** ** What a consumer of the message reads *)

(** X11.  Take a plain value (no float, strings and keys of scalar values,
    distinct keys in every object) that is within the limits of the
    interpreter: no integer of more digits than it converts, no nesting
    deeper than it can enter.  What [json.dumps] writes of it is ASCII text
    that [json.loads], under these limits, reads back as the value. *)
Theorem json_round_trip `{FloatText} (lim : limits) (v : json) :
  plain v = true ->
  within lim v = true ->
  json_loads lim (json_dumps v) = Scanned v /\
  forallb is_ascii (json_dumps v) = true.
Proof.
  intros Hp Hw. split; [apply json_loads_dumps; assumption|].
  apply json_dumps_ascii. exact Hp.
Qed.

Section Consumer.
Context `{FloatText}.
Variable w : world.

(** X14.  The timestamp the script stamps has 20 characters, or 27 when the
    clock shows microseconds, and [json.dumps] writes it between quotes
    without an escape. *)
Theorem timestamp_is_written_as_it_is :
  List.length (main_timestamp w) =
    (if (microsecond (utcnow w 0) =? 0)%N then 20 else 27) /\
  json_dumps (JStr (main_timestamp w)) =
    34%N :: main_timestamp w ++ [34%N].
Proof.
  destruct (timestamp_safe (utcnow w 0)) as [Hsafe Hlen].
  split; [exact Hlen | apply encode_str_safe; exact Hsafe].
Qed.

(** X12.  When the event is plain (no float, no surrogate in a string, as in
    any object of integers, booleans, strings of a decoded file and lists
    and objects of these), the message decodes, with [json.loads], to the
    event with its three timestamps set and its scores as a string. *)
Theorem published_payload_decodes (text : pystr) (d : dict) (v : json) :
  broker_reachable w ->
  file_at w event_path = Readable text ->
  json_loads (json_limits w) text = Scanned (JDict d) ->
  dict_get k_scores d = Some v ->
  plain (JDict d) = true ->
  exists payload d',
    published (trace (snd (run w))) = [payload] /\
    json_loads (json_limits w) payload = Scanned (JDict d') /\
    dict_get k_receiving d' = Some (JStr (isoformat (utcnow w 0) ++ py "Z")) /\
    dict_get k_scoring d' = Some (JStr (isoformat (utcnow w 0) ++ py "Z")) /\
    dict_get k_delete d' = Some (JStr (isoformat (utcnow w 0) ++ py "Z")) /\
    dict_get k_scores d' = Some (if is_list v then JStr (json_dumps v) else v) /\
    other_entries d' = other_entries d.
Proof.
  intros Hb Hf Hj Hs Hp.
  exists (json_dumps (JDict (transformed (main_timestamp w) d))),
         (transformed (main_timestamp w) d).
  rewrite (run_wellformed w text d v Hb Hf Hj Hs). cbn [snd].
  split; [apply published_flushed|].
  split.
  { apply json_loads_dumps.
    - apply plain_transformed; [exact Hp|].
      apply (forallb_imp _ _ _ _ json_safe_scalar).
      exact (proj1 (timestamp_safe (utcnow w 0))).
    - apply within_transformed. exact (json_loads_within _ _ _ Hj). }
  rewrite !dict_get_transformed by
    (intro E; symmetry in E; revert E;
     first [apply k_scores_receiving | apply k_scores_scoring
           | apply k_scores_delete]).
  rewrite dict_get_stamped_receiving, dict_get_stamped_scoring,
    dict_get_stamped_delete, (dict_get_transformed_scores _ _ _ Hs).
  repeat split. apply other_entries_transformed.
Qed.

(** X13.  When the scores are a plain list, the string published under
    [flattened_scores] decodes, with [json.loads], to that list. *)
Theorem scores_string_decodes (text : pystr) (d : dict) (l : list json) :
  broker_reachable w ->
  file_at w event_path = Readable text ->
  json_loads (json_limits w) text = Scanned (JDict d) ->
  dict_get k_scores d = Some (JList l) ->
  plain (JList l) = true ->
  exists d' s,
    published (trace (snd (run w))) = [json_dumps (JDict d')] /\
    dict_get k_scores d' = Some (JStr s) /\
    json_loads (json_limits w) s = Scanned (JList l).
Proof.
  intros Hb Hf Hj Hs Hp.
  exists (transformed (main_timestamp w) d), (json_dumps (JList l)).
  rewrite (run_wellformed w text d (JList l) Hb Hf Hj Hs). cbn [snd].
  split; [apply published_flushed|].
  split; [rewrite (dict_get_transformed_scores _ _ _ Hs); reflexivity|].
  apply json_loads_dumps; [exact Hp|].
  exact (within_dict_get _ _ _ _ (json_loads_within _ _ _ Hj) Hs).
Qed.

(** X18.  What the script gives to [json.dumps] is within the limits under
    which [json.load] read the event file: the stamped event that is
    published, and the list of scores when there is one.  No integer of
    these is over the digit limit, and none is nested deeper than the
    scanner entered. *)
Theorem encoded_values_within_limits (text : pystr) (d : dict) (v : json) :
  broker_reachable w ->
  file_at w event_path = Readable text ->
  json_loads (json_limits w) text = Scanned (JDict d) ->
  dict_get k_scores d = Some v ->
  exists d',
    published (trace (snd (run w))) = [json_dumps (JDict d')] /\
    within (json_limits w) (JDict d') = true /\
    within (json_limits w) v = true /\
    dict_get k_scores d' = Some (if is_list v then JStr (json_dumps v) else v).
Proof.
  intros Hb Hf Hj Hs.
  pose proof (json_loads_within _ _ _ Hj) as Hw.
  exists (transformed (main_timestamp w) d).
  rewrite (run_wellformed w text d v Hb Hf Hj Hs). cbn [snd].
  split; [apply published_flushed|].
  split; [apply within_transformed; exact Hw|].
  split; [exact (within_dict_get _ _ _ _ Hw Hs)|].
  apply (dict_get_transformed_scores _ _ _ Hs).
Qed.
End Consumer.

Lemma json_round_trip_witness :
  json_loads default_limits
    (@json_dumps literal_float_text (JDict example_event)) =
  Scanned (JDict example_event).
Proof.
  apply (@json_round_trip literal_float_text default_limits
           (JDict example_event)).
  - vm_compute; reflexivity.
  - vm_compute; reflexivity.
Defined.

Lemma encoded_values_within_limits_witness :
  exists d',
    published
      (trace (snd (@run (example_world 2 (Readable example_text) Delivered)
                     literal_float_text))) =
    [@json_dumps literal_float_text (JDict d')] /\
    within default_limits (JDict d') = true /\
    within default_limits (JList [JInt 1; JInt 2; JInt 3]) = true.
Proof.
  destruct (@encoded_values_within_limits literal_float_text
              (example_world 2 (Readable example_text) Delivered)
              example_text example_event (JList [JInt 1; JInt 2; JInt 3]))
    as (d' & Hp & Hw & Hv & _).
  - apply example_reachable.
  - reflexivity.
  - vm_compute; reflexivity.
  - reflexivity.
  - exists d'. split; [exact Hp|]. split; [exact Hw | exact Hv].
Defined.

Lemma published_payload_decodes_witness :
  exists payload d',
    published
      (trace (snd (@run (example_world 2 (Readable example_text) Delivered)
                     literal_float_text))) = [payload] /\
    json_loads default_limits payload = Scanned (JDict d') /\
    dict_get k_scores d' = Some (JStr (py "[1, 2, 3]")) /\
    other_entries d' = [(py "device", JStr (py "cam-1"))].
Proof.
  destruct (@published_payload_decodes literal_float_text
              (example_world 2 (Readable example_text) Delivered)
              example_text example_event (JList [JInt 1; JInt 2; JInt 3]))
    as (payload & d' & Hp & Hl & _ & _ & _ & Hs & Ho).
  - apply example_reachable.
  - reflexivity.
  - vm_compute; reflexivity.
  - reflexivity.
  - vm_compute; reflexivity.
  - exists payload, d'. split; [exact Hp|]. split; [exact Hl|].
    split; [rewrite Hs; reflexivity | rewrite Ho; reflexivity].
Defined.

Lemma scores_string_decodes_witness :
  exists d' s,
    published
      (trace (snd (@run (example_world 2 (Readable example_text) Delivered)
                     literal_float_text))) =
    [@json_dumps literal_float_text (JDict d')] /\
    dict_get k_scores d' = Some (JStr s) /\
    json_loads default_limits s = Scanned (JList [JInt 1; JInt 2; JInt 3]).
Proof.
  apply (@scores_string_decodes literal_float_text
           (example_world 2 (Readable example_text) Delivered)
           example_text example_event [JInt 1; JInt 2; JInt 3]).
  - apply example_reachable.
  - reflexivity.
  - vm_compute; reflexivity.
  - reflexivity.
  - reflexivity.
Defined.

Lemma published_keys_are_distinct_witness :
  NoDup (dict_keys duplicate_event) /\
  exists d',
    published
      (trace (snd (@run (example_world 0 (Readable duplicate_text) Pending)
                     literal_float_text))) =
    [@json_dumps literal_float_text (JDict d')] /\
    NoDup (dict_keys d').
Proof.
  destruct (@published_keys_are_distinct literal_float_text
              (example_world 0 (Readable duplicate_text) Pending)
              duplicate_text duplicate_event) as [Hd Hrun].
  - reflexivity.
  - vm_compute; reflexivity.
  - split; [exact Hd|]. apply Hrun. vm_compute; reflexivity.
Defined.

(** ** The loader: blank files and frame *)

Lemma json_loads_blank (lim : limits) (text : pystr) :
  forallb is_ws text = true -> json_loads lim text = Stopped Malformed.
Proof.
  intros Hws. unfold json_loads.
  assert (E : skip_ws text = []).
  { induction text as [|c s IH]; [reflexivity|].
    cbn [forallb] in Hws. apply andb_true_iff in Hws as [Hc Hs].
    cbn [skip_ws]. rewrite Hc. exact (IH Hs). }
  rewrite E. rewrite Nat.add_comm. reflexivity.
Qed.

Section Blank.
Context `{FloatText}.
Variable w : world.

(** X15.  An event file that is empty or holds only whitespace is not valid
    JSON: when the broker answers, the loader logs that the JSON is
    invalid, the script logs that it failed to read the event data and
    exits with status 1, and nothing is published. *)
Theorem blank_event_file_is_invalid (text : pystr) :
  broker_reachable w ->
  file_at w event_path = Readable text ->
  forallb is_ws text = true ->
  fst (run w) = SysExit 1 /\
  In (ERROR, py "Invalid JSON in event file: " ++ event_path)
     (log_records (trace (snd (run w)))) /\
  In (ERROR, py "Failed to read event data. Shutting down.")
     (log_records (trace (snd (run w)))) /\
  published (trace (snd (run w))) = [].
Proof.
  intros Hb Hf Hws. apply probe_ok_reachable in Hb.
  pose proof (json_loads_blank (json_limits w) text Hws) as Hj.
  assert (Hrun : fst (run w) = SysExit 1)
    by (rewrite run_cases, Hb, Hf, Hj; reflexivity).
  split; [exact Hrun|].
  split; [|split].
  - rewrite run_trace. unfold tail_events. rewrite Hb, Hf, Hj.
    rewrite !log_records_app. apply in_or_app; right.
    apply in_or_app; right.
    change (log_records (EvOpen event_path :: ?x)) with (log_records x).
    rewrite log_records_app, !log_records_main_log. left; reflexivity.
  - rewrite run_trace. unfold tail_events. rewrite Hb, Hf, Hj.
    rewrite !log_records_app. apply in_or_app; right.
    apply in_or_app; right.
    change (log_records (EvOpen event_path :: ?x)) with (log_records x).
    rewrite log_records_app, !log_records_main_log. right; left; reflexivity.
  - rewrite run_trace. unfold tail_events. rewrite Hb, Hf, Hj.
    unfold published, main_log. rewrite !flat_map_app.
    rewrite flat_map_probe_state by reflexivity.
    rewrite flat_map_log by reflexivity.
    cbn [flat_map app].
    rewrite flat_map_app, !flat_map_log by reflexivity. reflexivity.
Qed.
End Blank.

Lemma blank_event_file_is_invalid_witness :
  fst (@run (example_world 0 (Readable [32; 10]%N) Pending) literal_float_text)
  = SysExit 1.
Proof.
  apply (@blank_event_file_is_invalid literal_float_text
           (example_world 0 (Readable [32; 10]%N) Pending) [32; 10]%N).
  - exists 0. split; [vm_compute; lia | reflexivity].
  - reflexivity.
  - reflexivity.
Defined.

(** X16.  [read_event_from_file] opens the file it is given, once, and nothing
    else; it makes no attempt on the broker, reads no clock and publishes
    nothing.  What it logs is settled by the file: one record at [ERROR]
    with the path when the file is absent, one when its content is not
    valid JSON, and nothing when it returns what it parsed or lets an
    exception through. *)
Theorem read_event_frame (w : world) (path : pystr) (st : state) :
  exists r st' evs,
    read_event_from_file w path st = (r, st') /\
    trace st' = trace st ++ EvOpen path :: evs /\
    attempts st' = attempts st /\
    clock_reads st' = clock_reads st /\
    attempt_count evs = 0 /\
    no_open evs /\
    published evs = [] /\
    log_records evs =
      match file_at w path with
      | Absent => [(ERROR, py "Event file not found: " ++ path)]
      | Unreadable _ => []
      | Readable text =>
          match json_loads (json_limits w) text with
          | Stopped Malformed =>
              [(ERROR, py "Invalid JSON in event file: " ++ path)]
          | _ => []
          end
      end.
Proof.
  assert (Hrec : forall rl hs l msg,
             log_records (log_events rl hs l msg) = [(l, msg)]).
  { intros. unfold log_events, log_records. cbn [flat_map app].
    destruct (levelno rl <=? levelno l)%Z; [|reflexivity].
    f_equal. induction (filter _ hs) as [|h t IH]; [reflexivity | exact IH]. }
  assert (Hlogged : forall msg,
             exists evs,
               trace (after_log ERROR msg (emit [EvOpen path] st)) =
                 trace st ++ EvOpen path :: evs /\
               attempts (after_log ERROR msg (emit [EvOpen path] st)) =
                 attempts st /\
               clock_reads (after_log ERROR msg (emit [EvOpen path] st)) =
                 clock_reads st /\
               attempt_count evs = 0 /\ no_open evs /\ published evs = [] /\
               log_records evs = [(ERROR, msg)]).
  { intros msg. eexists.
    unfold after_log, emit; cbn [trace attempts clock_reads root_level handlers].
    split; [rewrite <- app_assoc; reflexivity|].
    split; [reflexivity|]. split; [reflexivity|].
    split; [apply attempt_count_log|]. split; [apply no_open_log|].
    split; [apply published_log | apply Hrec]. }
  assert (Hquiet : trace (emit [EvOpen path] st) = trace st ++ EvOpen path :: [] /\
                   attempts (emit [EvOpen path] st) = attempts st /\
                   clock_reads (emit [EvOpen path] st) = clock_reads st /\
                   attempt_count [] = 0 /\ no_open [] /\ published [] = [] /\
                   log_records [] = []).
  { repeat split. intros p []. }
  rewrite read_event_run.
  destruct (file_at w path) as [|e|text].
  - destruct (Hlogged (py "Event file not found: " ++ path)) as (evs & Hevs).
    eexists; eexists; exists evs. split; [reflexivity | exact Hevs].
  - eexists; eexists; exists []. split; [reflexivity | exact Hquiet].
  - destruct (json_loads (json_limits w) text) as [v|[|n|k]].
    + eexists; eexists; exists []. split; [reflexivity | exact Hquiet].
    + destruct (Hlogged (py "Invalid JSON in event file: " ++ path))
        as (evs & Hevs).
      eexists; eexists; exists evs. split; [reflexivity | exact Hevs].
    + eexists; eexists; exists []. split; [reflexivity | exact Hquiet].
    + eexists; eexists; exists []. split; [reflexivity | exact Hquiet].
Qed.

(** ** Bounds on a run *)

Lemma total_sleep_main_log (w : world) (l : level) (msg : pystr) :
  total_sleep (main_log w l msg) = 0%Z.
Proof. apply total_sleep_log. Qed.

Lemma attempt_count_main_log (w : world) (l : level) (msg : pystr) :
  attempt_count (main_log w l msg) = 0.
Proof. apply attempt_count_log. Qed.

Section Bounds.
Context `{FloatText}.
Variable w : world.

Lemma tail_events_quiet :
  total_sleep (tail_events w) = 0%Z /\ attempt_count (tail_events w) = 0.
Proof.
  assert (Hd : total_sleep (delivery_events w) = 0%Z /\
               attempt_count (delivery_events w) = 0).
  { unfold delivery_events. destruct (delivery w);
      [split; reflexivity | |];
      split; first [apply total_sleep_main_log | apply attempt_count_main_log]. }
  destruct Hd as [Hd1 Hd2].
  unfold tail_events.
  destruct (probe_ok w);
    [|split; [apply total_sleep_main_log | apply attempt_count_main_log]].
  rewrite total_sleep_app, attempt_count_app,
    total_sleep_main_log, attempt_count_main_log.
  change (total_sleep (EvOpen event_path :: ?x)) with (total_sleep x).
  change (attempt_count (EvOpen event_path :: ?x)) with (attempt_count x).
  destruct (file_at w event_path) as [|e|text].
  - rewrite total_sleep_app, attempt_count_app,
      !total_sleep_main_log, !attempt_count_main_log. split; reflexivity.
  - split; reflexivity.
  - destruct (json_loads (json_limits w) text) as [v|[|n|k]];
      [| | split; reflexivity ..].
    + destruct v as [|b|z|lit|s|l|d]; try (split; reflexivity);
        try (rewrite total_sleep_main_log, attempt_count_main_log;
             split; reflexivity).
      destruct (dict_get k_scores d); [|split; reflexivity].
      change (total_sleep (EvUtcnow :: EvProduce ?a ?b ?c :: EvFlush 1 :: ?x))
        with (total_sleep x).
      change (attempt_count (EvUtcnow :: EvProduce ?a ?b ?c :: EvFlush 1 :: ?x))
        with (attempt_count x).
      rewrite Hd1, Hd2. split; reflexivity.
    + rewrite total_sleep_app, attempt_count_app,
        !total_sleep_main_log, !attempt_count_main_log. split; reflexivity.
Qed.

(** X17.  Whatever the world, a run makes at most five attempts on the broker,
    as many as the counter of attempts shows, sleeps five seconds per
    failed attempt and so at most 25 seconds, and reads the clock at most
    once. *)
Theorem run_bounds :
  attempt_count (trace (snd (run w))) = attempts (snd (run w)) /\
  attempts (snd (run w)) <= 5 /\
  total_sleep (trace (snd (run w))) =
    (5 * Z.of_nat (failed_attempts (main_attempt w) 0 5))%Z /\
  (0 <= total_sleep (trace (snd (run w))) <= 25)%Z /\
  clock_reads (snd (run w)) <= 1.
Proof.
  destruct tail_events_quiet as [Hs Ha].
  assert (Hpa : attempt_count (trace (probe_state w)) =
                probe_attempts (main_attempt w) 0 5).
  { unfold probe_state; cbn [trace].
    rewrite attempt_count_app, attempt_count_log.
    apply attempt_count_probe. }
  assert (Hps : total_sleep (trace (probe_state w)) =
                (5 * Z.of_nat (failed_attempts (main_attempt w) 0 5))%Z).
  { unfold probe_state; cbn [trace].
    rewrite total_sleep_app, total_sleep_log.
    apply total_sleep_probe. }
  assert (Hst : attempts (snd (run w)) = probe_attempts (main_attempt w) 0 5 /\
                clock_reads (snd (run w)) <= 1).
  { rewrite run_cases.
    destruct (probe_ok w); [|split; [reflexivity | cbn; lia]].
    destruct (file_at w event_path) as [|e|text];
      try (split; [reflexivity | cbn; lia]).
    destruct (json_loads (json_limits w) text) as [v|[|n|k]];
      [|split; [reflexivity | cbn; lia] ..].
    destruct v as [|b|z|lit|s|l|d]; try (split; [reflexivity | cbn; lia]).
    destruct (dict_get k_scores d); [|split; [reflexivity | cbn; lia]].
    cbn [snd]. unfold st_flushed.
    destruct (delivery w); split; first [reflexivity | cbn; lia]. }
  destruct Hst as [Hatt Hclock].
  pose proof (probe_attempts_le (main_attempt w) 0 5) as Hle.
  pose proof (failed_attempts_le (main_attempt w) 0 5) as Hfl.
  rewrite run_trace, attempt_count_app, total_sleep_app, Hpa, Hps, Hs, Ha, Hatt.
  repeat split; lia.
Qed.
End Bounds.

Lemma exit_status_and_publication_witness :
  exists payload,
    published
      (trace (snd (@run (example_world 2 (Readable example_text) Pending)
                     literal_float_text))) = [payload] /\
    flushes
      (trace (snd (@run (example_world 2 (Readable example_text) Pending)
                     literal_float_text))) = [1%Z].
Proof.
  destruct (@exit_status_and_publication literal_float_text
              (example_world 2 (Readable example_text) Pending))
    as (_ & _ & Hret & _).
  destruct Hret as (payload & pre & post & Hp & Hf & _).
  - vm_compute; reflexivity.
  - exists payload. split; [exact Hp | exact Hf].
Defined.
